(** * Lebanese_stats: the spreadsheet importer, the report generators and the
      query layer of the [stats] application, embedded in Rocq.

    Python floats are IEEE binary64 numbers, modelled by the Standard
    Library's [spec_float] with precision 53 and maximal exponent 1024, so
    every arithmetic operation and comparison below rounds and compares as
    the interpreter does. *)

From Stdlib Require Import ZArith List String Ascii Bool Lia.
From Stdlib Require Import Floats.SpecFloat.
From Stdlib Require Import DecimalString Permutation Sorted.
Import ListNotations.

Local Open Scope string_scope.
Local Open Scope Z_scope.

(** ** Python values and builtins *)
Module Py.

(** *** binary64 *)
Definition float := spec_float.

Definition fadd : float -> float -> float := SFadd 53 1024.
Definition fdiv : float -> float -> float := SFdiv 53 1024.
Definition flt : float -> float -> bool := SFltb.
Definition fle : float -> float -> bool := SFleb.

(** [float(z)] for an integer that fits: round to nearest, ties to even. *)
Definition float_of_Z (z : Z) : float := binary_normalize 53 1024 z 0 false.

Definition f0 : float := S754_zero false.
Definition f1 : float := Eval vm_compute in float_of_Z 1.
Definition f40 : float := Eval vm_compute in float_of_Z 40.
Definition f80 : float := Eval vm_compute in float_of_Z 80.
Definition f100 : float := Eval vm_compute in float_of_Z 100.

Definition is_nan (f : float) : bool :=
  match f with S754_nan => true | _ => false end.

Definition is_inf (f : float) : bool :=
  match f with S754_infinity _ => true | _ => false end.

(** [x > y] and [x < y], [x >= y], [x <= y] on floats. *)
Definition fgt (x y : float) : bool := flt y x.
Definition fge (x y : float) : bool := fle y x.

(** Two-argument [max(a, b)] and [min(a, b)]: the first argument is kept
    unless the second one is strictly better. *)
Definition max2 (a b : float) : float := if fgt b a then b else a.
Definition min2 (a b : float) : float := if flt b a then b else a.

(** [int(x)] for a float: truncation toward zero; [None] stands for the
    [OverflowError] / [ValueError] raised on infinities and NaN. *)
Definition trunc (x : float) : option Z :=
  match x with
  | S754_zero _ => Some 0
  | S754_finite s m e =>
      let a := match e with
               | Zneg p => Z.shiftr (Zpos m) (Zpos p)
               | _ => Z.shiftl (Zpos m) e
               end in
      Some (if s then - a else a)
  | _ => None
  end.

(** *** Exceptions and results *)
Inductive exn :=
| TypeError | ValueError | OverflowError | IndexError | AttributeError
| CommandError | IntegrityError | MultipleObjectsReturned | OSError
| ServiceError (reason : string).

Inductive result (A : Type) :=
| Ok (a : A)
| Raise (e : exn).
Arguments Ok {A} a.
Arguments Raise {A} e.

Definition rbind {A B} (r : result A) (k : A -> result B) : result B :=
  match r with Ok a => k a | Raise e => Raise e end.

(** *** Text
    A [str] is held as the bytes of its UTF-8 encoding, which is also what
    a string literal of this file is.  The builtins below work on the
    characters (code points) of such a text, as the interpreter's do. *)
Definition byte (c : ascii) : Z := Z.of_N (N_of_ascii c).
Definition chr_byte (b : Z) : ascii := ascii_of_N (Z.to_N b).

Definition is_cont (b : Z) : bool := (128 <=? b) && (b <? 192).

(** A byte outside every well-formed sequence is kept as a character of
    its own, numbered above the Unicode range. *)
Definition stray (c : ascii) : Z * string := (1114112 + byte c, String c "").

(** The characters of a text, each with the bytes it is written with. *)
Fixpoint chars (s : string) : list (Z * string) :=
  match s with
  | EmptyString => []
  | String c0 t0 =>
      let b0 := byte c0 in
      if b0 <? 128 then (b0, String c0 "") :: chars t0
      else
        match t0 with
        | EmptyString => [stray c0]
        | String c1 t1 =>
            let b1 := byte c1 in
            if (194 <=? b0) && (b0 <? 224) && is_cont b1
            then ((b0 - 192) * 64 + (b1 - 128), String c0 (String c1 ""))
                   :: chars t1
            else
              match t1 with
              | EmptyString => stray c0 :: chars t0
              | String c2 t2 =>
                  let b2 := byte c2 in
                  let cp3 := (b0 - 224) * 4096 + (b1 - 128) * 64 + (b2 - 128) in
                  if (224 <=? b0) && (b0 <? 240) && is_cont b1 && is_cont b2
                     && (2048 <=? cp3)
                     && negb ((55296 <=? cp3) && (cp3 <? 57344))
                  then (cp3, String c0 (String c1 (String c2 ""))) :: chars t2
                  else
                    match t2 with
                    | EmptyString => stray c0 :: chars t0
                    | String c3 t3 =>
                        let b3 := byte c3 in
                        let cp4 := (b0 - 240) * 262144 + (b1 - 128) * 4096
                                   + (b2 - 128) * 64 + (b3 - 128) in
                        if (240 <=? b0) && (b0 <? 245) && is_cont b1
                           && is_cont b2 && is_cont b3
                           && (65536 <=? cp4) && (cp4 <? 1114112)
                        then (cp4, String c0 (String c1 (String c2 (String c3 ""))))
                               :: chars t3
                        else stray c0 :: chars t0
                    end
              end
        end
  end.

(** The text a list of characters spells. *)
Definition text (l : list (Z * string)) : string :=
  fold_right (fun ch s => snd ch ++ s) "" l.

(** The bytes of one code point. *)
Definition encode (cp : Z) : string :=
  if cp <? 128 then String (chr_byte cp) ""
  else if cp <? 2048 then
    String (chr_byte (192 + cp / 64)) (String (chr_byte (128 + cp mod 64)) "")
  else if cp <? 65536 then
    String (chr_byte (224 + cp / 4096))
      (String (chr_byte (128 + (cp / 64) mod 64))
         (String (chr_byte (128 + cp mod 64)) ""))
  else if cp <? 1114112 then
    String (chr_byte (240 + cp / 262144))
      (String (chr_byte (128 + (cp / 4096) mod 64))
         (String (chr_byte (128 + (cp / 64) mod 64))
            (String (chr_byte (128 + cp mod 64)) "")))
  else String (chr_byte (cp - 1114112)) "".

(** The tables below are those of Unicode 14.0.0 (CPython 3.11). *)
Definition SPACES : list Z :=
  [9; 10; 11; 12; 13; 28; 29; 30; 31; 32; 133; 160; 5760; 8192; 8193; 8194;
   8195; 8196; 8197; 8198; 8199; 8200; 8201; 8202; 8232; 8233; 8239; 8287;
   12288].

(** The code point of the digit zero of every run of decimal digits. *)
Definition DIGIT_ZEROS : list Z :=
  [48; 1632; 1776; 1984; 2406; 2534; 2662; 2790; 2918; 3046; 3174; 3302;
   3430; 3558; 3664; 3792; 3872; 4160; 4240; 6112; 6160; 6470; 6608; 6784;
   6800; 6992; 7088; 7232; 7248; 42528; 43216; 43264; 43472; 43504; 43600;
   44016; 65296; 66720; 68912; 69734; 69872; 69942; 70096; 70384; 70736;
   70864; 71248; 71360; 71472; 71904; 72016; 72784; 73040; 73120; 92768;
   92864; 93008; 120782; 120792; 120802; 120812; 120822; 123200; 123632;
   125264; 130032].

(** Characters with the property Cased, as ranges. *)
Definition CASED : list (Z * Z) :=
  [(65, 90); (97, 122); (170, 170); (181, 181); (186, 186); (192, 214);
   (216, 246); (248, 442); (444, 447); (452, 659); (661, 696); (704, 705);
   (736, 740); (837, 837); (880, 883); (886, 887); (890, 893); (895, 895);
   (902, 902); (904, 906); (908, 908); (910, 929); (931, 1013); (1015,
   1153); (1162, 1327); (1329, 1366); (1376, 1416); (4256, 4293); (4295,
   4295); (4301, 4301); (4304, 4346); (4349, 4351); (5024, 5109); (5112,
   5117); (7296, 7304); (7312, 7354); (7357, 7359); (7424, 7615); (7680,
   7957); (7960, 7965); (7968, 8005); (8008, 8013); (8016, 8023); (8025,
   8025); (8027, 8027); (8029, 8029); (8031, 8061); (8064, 8116); (8118,
   8124); (8126, 8126); (8130, 8132); (8134, 8140); (8144, 8147); (8150,
   8155); (8160, 8172); (8178, 8180); (8182, 8188); (8305, 8305); (8319,
   8319); (8336, 8348); (8450, 8450); (8455, 8455); (8458, 8467); (8469,
   8469); (8473, 8477); (8484, 8484); (8486, 8486); (8488, 8488); (8490,
   8493); (8495, 8500); (8505, 8505); (8508, 8511); (8517, 8521); (8526,
   8526); (8544, 8575); (8579, 8580); (9398, 9449); (11264, 11492); (11499,
   11502); (11506, 11507); (11520, 11557); (11559, 11559); (11565, 11565);
   (42560, 42605); (42624, 42653); (42786, 42887); (42891, 42894); (42896,
   42954); (42960, 42961); (42963, 42963); (42965, 42969); (42997, 42998);
   (43000, 43002); (43824, 43866); (43868, 43880); (43888, 43967); (64256,
   64262); (64275, 64279); (65313, 65338); (65345, 65370); (66560, 66639);
   (66736, 66771); (66776, 66811); (66928, 66938); (66940, 66954); (66956,
   66962); (66964, 66965); (66967, 66977); (66979, 66993); (66995, 67001);
   (67003, 67004); (67456, 67456); (67459, 67461); (67463, 67504); (67506,
   67514); (68736, 68786); (68800, 68850); (71840, 71903); (93760, 93823);
   (119808, 119892); (119894, 119964); (119966, 119967); (119970, 119970);
   (119973, 119974); (119977, 119980); (119982, 119993); (119995, 119995);
   (119997, 120003); (120005, 120069); (120071, 120074); (120077, 120084);
   (120086, 120092); (120094, 120121); (120123, 120126); (120128, 120132);
   (120134, 120134); (120138, 120144); (120146, 120485); (120488, 120512);
   (120514, 120538); (120540, 120570); (120572, 120596); (120598, 120628);
   (120630, 120654); (120656, 120686); (120688, 120712); (120714, 120744);
   (120746, 120770); (120772, 120779); (122624, 122633); (122635, 122654);
   (125184, 125251); (127280, 127305); (127312, 127337); (127344, 127369)].

(** Characters with the property Case_Ignorable, as ranges. *)
Definition CASE_IGNORABLE : list (Z * Z) :=
  [(39, 39); (46, 46); (58, 58); (94, 94); (96, 96); (168, 168); (173, 173);
   (175, 175); (180, 180); (183, 184); (688, 879); (884, 885); (890, 890);
   (900, 901); (903, 903); (1155, 1161); (1369, 1369); (1375, 1375); (1425,
   1469); (1471, 1471); (1473, 1474); (1476, 1477); (1479, 1479); (1524,
   1524); (1536, 1541); (1552, 1562); (1564, 1564); (1600, 1600); (1611,
   1631); (1648, 1648); (1750, 1757); (1759, 1768); (1770, 1773); (1807,
   1807); (1809, 1809); (1840, 1866); (1958, 1968); (2027, 2037); (2042,
   2042); (2045, 2045); (2070, 2093); (2137, 2139); (2184, 2184); (2192,
   2193); (2200, 2207); (2249, 2306); (2362, 2362); (2364, 2364); (2369,
   2376); (2381, 2381); (2385, 2391); (2402, 2403); (2417, 2417); (2433,
   2433); (2492, 2492); (2497, 2500); (2509, 2509); (2530, 2531); (2558,
   2558); (2561, 2562); (2620, 2620); (2625, 2626); (2631, 2632); (2635,
   2637); (2641, 2641); (2672, 2673); (2677, 2677); (2689, 2690); (2748,
   2748); (2753, 2757); (2759, 2760); (2765, 2765); (2786, 2787); (2810,
   2815); (2817, 2817); (2876, 2876); (2879, 2879); (2881, 2884); (2893,
   2893); (2901, 2902); (2914, 2915); (2946, 2946); (3008, 3008); (3021,
   3021); (3072, 3072); (3076, 3076); (3132, 3132); (3134, 3136); (3142,
   3144); (3146, 3149); (3157, 3158); (3170, 3171); (3201, 3201); (3260,
   3260); (3263, 3263); (3270, 3270); (3276, 3277); (3298, 3299); (3328,
   3329); (3387, 3388); (3393, 3396); (3405, 3405); (3426, 3427); (3457,
   3457); (3530, 3530); (3538, 3540); (3542, 3542); (3633, 3633); (3636,
   3642); (3654, 3662); (3761, 3761); (3764, 3772); (3782, 3782); (3784,
   3789); (3864, 3865); (3893, 3893); (3895, 3895); (3897, 3897); (3953,
   3966); (3968, 3972); (3974, 3975); (3981, 3991); (3993, 4028); (4038,
   4038); (4141, 4144); (4146, 4151); (4153, 4154); (4157, 4158); (4184,
   4185); (4190, 4192); (4209, 4212); (4226, 4226); (4229, 4230); (4237,
   4237); (4253, 4253); (4348, 4348); (4957, 4959); (5906, 5908); (5938,
   5939); (5970, 5971); (6002, 6003); (6068, 6069); (6071, 6077); (6086,
   6086); (6089, 6099); (6103, 6103); (6109, 6109); (6155, 6159); (6211,
   6211); (6277, 6278); (6313, 6313); (6432, 6434); (6439, 6440); (6450,
   6450); (6457, 6459); (6679, 6680); (6683, 6683); (6742, 6742); (6744,
   6750); (6752, 6752); (6754, 6754); (6757, 6764); (6771, 6780); (6783,
   6783); (6823, 6823); (6832, 6862); (6912, 6915); (6964, 6964); (6966,
   6970); (6972, 6972); (6978, 6978); (7019, 7027); (7040, 7041); (7074,
   7077); (7080, 7081); (7083, 7085); (7142, 7142); (7144, 7145); (7149,
   7149); (7151, 7153); (7212, 7219); (7222, 7223); (7288, 7293); (7376,
   7378); (7380, 7392); (7394, 7400); (7405, 7405); (7412, 7412); (7416,
   7417); (7468, 7530); (7544, 7544); (7579, 7679); (8125, 8125); (8127,
   8129); (8141, 8143); (8157, 8159); (8173, 8175); (8189, 8190); (8203,
   8207); (8216, 8217); (8228, 8228); (8231, 8231); (8234, 8238); (8288,
   8292); (8294, 8303); (8305, 8305); (8319, 8319); (8336, 8348); (8400,
   8432); (11388, 11389); (11503, 11505); (11631, 11631); (11647, 11647);
   (11744, 11775); (11823, 11823); (12293, 12293); (12330, 12333); (12337,
   12341); (12347, 12347); (12441, 12446); (12540, 12542); (40981, 40981);
   (42232, 42237); (42508, 42508); (42607, 42610); (42612, 42621); (42623,
   42623); (42652, 42655); (42736, 42737); (42752, 42785); (42864, 42864);
   (42888, 42890); (42994, 42996); (43000, 43001); (43010, 43010); (43014,
   43014); (43019, 43019); (43045, 43046); (43052, 43052); (43204, 43205);
   (43232, 43249); (43263, 43263); (43302, 43309); (43335, 43345); (43392,
   43394); (43443, 43443); (43446, 43449); (43452, 43453); (43471, 43471);
   (43493, 43494); (43561, 43566); (43569, 43570); (43573, 43574); (43587,
   43587); (43596, 43596); (43632, 43632); (43644, 43644); (43696, 43696);
   (43698, 43700); (43703, 43704); (43710, 43711); (43713, 43713); (43741,
   43741); (43756, 43757); (43763, 43764); (43766, 43766); (43867, 43871);
   (43881, 43883); (44005, 44005); (44008, 44008); (44013, 44013); (64286,
   64286); (64434, 64450); (65024, 65039); (65043, 65043); (65056, 65071);
   (65106, 65106); (65109, 65109); (65279, 65279); (65287, 65287); (65294,
   65294); (65306, 65306); (65342, 65342); (65344, 65344); (65392, 65392);
   (65438, 65439); (65507, 65507); (65529, 65531); (66045, 66045); (66272,
   66272); (66422, 66426); (67456, 67461); (67463, 67504); (67506, 67514);
   (68097, 68099); (68101, 68102); (68108, 68111); (68152, 68154); (68159,
   68159); (68325, 68326); (68900, 68903); (69291, 69292); (69446, 69456);
   (69506, 69509); (69633, 69633); (69688, 69702); (69744, 69744); (69747,
   69748); (69759, 69761); (69811, 69814); (69817, 69818); (69821, 69821);
   (69826, 69826); (69837, 69837); (69888, 69890); (69927, 69931); (69933,
   69940); (70003, 70003); (70016, 70017); (70070, 70078); (70089, 70092);
   (70095, 70095); (70191, 70193); (70196, 70196); (70198, 70199); (70206,
   70206); (70367, 70367); (70371, 70378); (70400, 70401); (70459, 70460);
   (70464, 70464); (70502, 70508); (70512, 70516); (70712, 70719); (70722,
   70724); (70726, 70726); (70750, 70750); (70835, 70840); (70842, 70842);
   (70847, 70848); (70850, 70851); (71090, 71093); (71100, 71101); (71103,
   71104); (71132, 71133); (71219, 71226); (71229, 71229); (71231, 71232);
   (71339, 71339); (71341, 71341); (71344, 71349); (71351, 71351); (71453,
   71455); (71458, 71461); (71463, 71467); (71727, 71735); (71737, 71738);
   (71995, 71996); (71998, 71998); (72003, 72003); (72148, 72151); (72154,
   72155); (72160, 72160); (72193, 72202); (72243, 72248); (72251, 72254);
   (72263, 72263); (72273, 72278); (72281, 72283); (72330, 72342); (72344,
   72345); (72752, 72758); (72760, 72765); (72767, 72767); (72850, 72871);
   (72874, 72880); (72882, 72883); (72885, 72886); (73009, 73014); (73018,
   73018); (73020, 73021); (73023, 73029); (73031, 73031); (73104, 73105);
   (73109, 73109); (73111, 73111); (73459, 73460); (78896, 78904); (92912,
   92916); (92976, 92982); (92992, 92995); (94031, 94031); (94095, 94111);
   (94176, 94177); (94179, 94180); (110576, 110579); (110581, 110587);
   (110589, 110590); (113821, 113822); (113824, 113827); (118528, 118573);
   (118576, 118598); (119143, 119145); (119155, 119170); (119173, 119179);
   (119210, 119213); (119362, 119364); (121344, 121398); (121403, 121452);
   (121461, 121461); (121476, 121476); (121499, 121503); (121505, 121519);
   (122880, 122886); (122888, 122904); (122907, 122913); (122915, 122916);
   (122918, 122922); (123184, 123197); (123566, 123566); (123628, 123631);
   (125136, 125142); (125252, 125259); (127995, 127999); (917505, 917505);
   (917536, 917631); (917760, 917999)].

(** Case mappings outside ASCII: [(first, last, step, shift)] maps every
    [step]-th code point from [first] to [last] to itself plus [shift]. *)
Definition LOWER_RUNS : list (Z * Z * Z * Z) :=
  [(192, 214, 1, 32); (216, 222, 1, 32); (256, 302, 2, 1); (306, 310, 2, 1);
   (313, 327, 2, 1); (330, 374, 2, 1); (376, 376, 1, (-121)); (377, 381, 2,
   1); (385, 385, 1, 210); (386, 388, 2, 1); (390, 390, 1, 206); (391, 391,
   1, 1); (393, 394, 1, 205); (395, 395, 1, 1); (398, 398, 1, 79); (399,
   399, 1, 202); (400, 400, 1, 203); (401, 401, 1, 1); (403, 403, 1, 205);
   (404, 404, 1, 207); (406, 406, 1, 211); (407, 407, 1, 209); (408, 408, 1,
   1); (412, 412, 1, 211); (413, 413, 1, 213); (415, 415, 1, 214); (416,
   420, 2, 1); (422, 422, 1, 218); (423, 423, 1, 1); (425, 425, 1, 218);
   (428, 428, 1, 1); (430, 430, 1, 218); (431, 431, 1, 1); (433, 434, 1,
   217); (435, 437, 2, 1); (439, 439, 1, 219); (440, 440, 1, 1); (444, 444,
   1, 1); (452, 452, 1, 2); (453, 453, 1, 1); (455, 455, 1, 2); (456, 456,
   1, 1); (458, 458, 1, 2); (459, 475, 2, 1); (478, 494, 2, 1); (497, 497,
   1, 2); (498, 500, 2, 1); (502, 502, 1, (-97)); (503, 503, 1, (-56));
   (504, 542, 2, 1); (544, 544, 1, (-130)); (546, 562, 2, 1); (570, 570, 1,
   10795); (571, 571, 1, 1); (573, 573, 1, (-163)); (574, 574, 1, 10792);
   (577, 577, 1, 1); (579, 579, 1, (-195)); (580, 580, 1, 69); (581, 581, 1,
   71); (582, 590, 2, 1); (880, 882, 2, 1); (886, 886, 1, 1); (895, 895, 1,
   116); (902, 902, 1, 38); (904, 906, 1, 37); (908, 908, 1, 64); (910, 911,
   1, 63); (913, 929, 1, 32); (931, 939, 1, 32); (975, 975, 1, 8); (984,
   1006, 2, 1); (1012, 1012, 1, (-60)); (1015, 1015, 1, 1); (1017, 1017, 1,
   (-7)); (1018, 1018, 1, 1); (1021, 1023, 1, (-130)); (1024, 1039, 1, 80);
   (1040, 1071, 1, 32); (1120, 1152, 2, 1); (1162, 1214, 2, 1); (1216, 1216,
   1, 15); (1217, 1229, 2, 1); (1232, 1326, 2, 1); (1329, 1366, 1, 48);
   (4256, 4293, 1, 7264); (4295, 4295, 1, 7264); (4301, 4301, 1, 7264);
   (5024, 5103, 1, 38864); (5104, 5109, 1, 8); (7312, 7354, 1, (-3008));
   (7357, 7359, 1, (-3008)); (7680, 7828, 2, 1); (7838, 7838, 1, (-7615));
   (7840, 7934, 2, 1); (7944, 7951, 1, (-8)); (7960, 7965, 1, (-8)); (7976,
   7983, 1, (-8)); (7992, 7999, 1, (-8)); (8008, 8013, 1, (-8)); (8025,
   8031, 2, (-8)); (8040, 8047, 1, (-8)); (8072, 8079, 1, (-8)); (8088,
   8095, 1, (-8)); (8104, 8111, 1, (-8)); (8120, 8121, 1, (-8)); (8122,
   8123, 1, (-74)); (8124, 8124, 1, (-9)); (8136, 8139, 1, (-86)); (8140,
   8140, 1, (-9)); (8152, 8153, 1, (-8)); (8154, 8155, 1, (-100)); (8168,
   8169, 1, (-8)); (8170, 8171, 1, (-112)); (8172, 8172, 1, (-7)); (8184,
   8185, 1, (-128)); (8186, 8187, 1, (-126)); (8188, 8188, 1, (-9)); (8486,
   8486, 1, (-7517)); (8490, 8490, 1, (-8383)); (8491, 8491, 1, (-8262));
   (8498, 8498, 1, 28); (8544, 8559, 1, 16); (8579, 8579, 1, 1); (9398,
   9423, 1, 26); (11264, 11311, 1, 48); (11360, 11360, 1, 1); (11362, 11362,
   1, (-10743)); (11363, 11363, 1, (-3814)); (11364, 11364, 1, (-10727));
   (11367, 11371, 2, 1); (11373, 11373, 1, (-10780)); (11374, 11374, 1,
   (-10749)); (11375, 11375, 1, (-10783)); (11376, 11376, 1, (-10782));
   (11378, 11378, 1, 1); (11381, 11381, 1, 1); (11390, 11391, 1, (-10815));
   (11392, 11490, 2, 1); (11499, 11501, 2, 1); (11506, 11506, 1, 1); (42560,
   42604, 2, 1); (42624, 42650, 2, 1); (42786, 42798, 2, 1); (42802, 42862,
   2, 1); (42873, 42875, 2, 1); (42877, 42877, 1, (-35332)); (42878, 42886,
   2, 1); (42891, 42891, 1, 1); (42893, 42893, 1, (-42280)); (42896, 42898,
   2, 1); (42902, 42920, 2, 1); (42922, 42922, 1, (-42308)); (42923, 42923,
   1, (-42319)); (42924, 42924, 1, (-42315)); (42925, 42925, 1, (-42305));
   (42926, 42926, 1, (-42308)); (42928, 42928, 1, (-42258)); (42929, 42929,
   1, (-42282)); (42930, 42930, 1, (-42261)); (42931, 42931, 1, 928);
   (42932, 42946, 2, 1); (42948, 42948, 1, (-48)); (42949, 42949, 1,
   (-42307)); (42950, 42950, 1, (-35384)); (42951, 42953, 2, 1); (42960,
   42960, 1, 1); (42966, 42968, 2, 1); (42997, 42997, 1, 1); (65313, 65338,
   1, 32); (66560, 66599, 1, 40); (66736, 66771, 1, 40); (66928, 66938, 1,
   39); (66940, 66954, 1, 39); (66956, 66962, 1, 39); (66964, 66965, 1, 39);
   (68736, 68786, 1, 64); (71840, 71871, 1, 32); (93760, 93791, 1, 32);
   (125184, 125217, 1, 34)].

Definition TITLE_RUNS : list (Z * Z * Z * Z) :=
  [(181, 181, 1, 743); (224, 246, 1, (-32)); (248, 254, 1, (-32)); (255,
   255, 1, 121); (257, 303, 2, (-1)); (305, 305, 1, (-232)); (307, 311, 2,
   (-1)); (314, 328, 2, (-1)); (331, 375, 2, (-1)); (378, 382, 2, (-1));
   (383, 383, 1, (-300)); (384, 384, 1, 195); (387, 389, 2, (-1)); (392,
   392, 1, (-1)); (396, 396, 1, (-1)); (402, 402, 1, (-1)); (405, 405, 1,
   97); (409, 409, 1, (-1)); (410, 410, 1, 163); (414, 414, 1, 130); (417,
   421, 2, (-1)); (424, 424, 1, (-1)); (429, 429, 1, (-1)); (432, 432, 1,
   (-1)); (436, 438, 2, (-1)); (441, 441, 1, (-1)); (445, 445, 1, (-1));
   (447, 447, 1, 56); (452, 452, 1, 1); (454, 454, 1, (-1)); (455, 455, 1,
   1); (457, 457, 1, (-1)); (458, 458, 1, 1); (460, 476, 2, (-1)); (477,
   477, 1, (-79)); (479, 495, 2, (-1)); (497, 497, 1, 1); (499, 501, 2,
   (-1)); (505, 543, 2, (-1)); (547, 563, 2, (-1)); (572, 572, 1, (-1));
   (575, 576, 1, 10815); (578, 578, 1, (-1)); (583, 591, 2, (-1)); (592,
   592, 1, 10783); (593, 593, 1, 10780); (594, 594, 1, 10782); (595, 595, 1,
   (-210)); (596, 596, 1, (-206)); (598, 599, 1, (-205)); (601, 601, 1,
   (-202)); (603, 603, 1, (-203)); (604, 604, 1, 42319); (608, 608, 1,
   (-205)); (609, 609, 1, 42315); (611, 611, 1, (-207)); (613, 613, 1,
   42280); (614, 614, 1, 42308); (616, 616, 1, (-209)); (617, 617, 1,
   (-211)); (618, 618, 1, 42308); (619, 619, 1, 10743); (620, 620, 1,
   42305); (623, 623, 1, (-211)); (625, 625, 1, 10749); (626, 626, 1,
   (-213)); (629, 629, 1, (-214)); (637, 637, 1, 10727); (640, 640, 1,
   (-218)); (642, 642, 1, 42307); (643, 643, 1, (-218)); (647, 647, 1,
   42282); (648, 648, 1, (-218)); (649, 649, 1, (-69)); (650, 651, 1,
   (-217)); (652, 652, 1, (-71)); (658, 658, 1, (-219)); (669, 669, 1,
   42261); (670, 670, 1, 42258); (837, 837, 1, 84); (881, 883, 2, (-1));
   (887, 887, 1, (-1)); (891, 893, 1, 130); (940, 940, 1, (-38)); (941, 943,
   1, (-37)); (945, 961, 1, (-32)); (962, 962, 1, (-31)); (963, 971, 1,
   (-32)); (972, 972, 1, (-64)); (973, 974, 1, (-63)); (976, 976, 1, (-62));
   (977, 977, 1, (-57)); (981, 981, 1, (-47)); (982, 982, 1, (-54)); (983,
   983, 1, (-8)); (985, 1007, 2, (-1)); (1008, 1008, 1, (-86)); (1009, 1009,
   1, (-80)); (1010, 1010, 1, 7); (1011, 1011, 1, (-116)); (1013, 1013, 1,
   (-96)); (1016, 1016, 1, (-1)); (1019, 1019, 1, (-1)); (1072, 1103, 1,
   (-32)); (1104, 1119, 1, (-80)); (1121, 1153, 2, (-1)); (1163, 1215, 2,
   (-1)); (1218, 1230, 2, (-1)); (1231, 1231, 1, (-15)); (1233, 1327, 2,
   (-1)); (1377, 1414, 1, (-48)); (5112, 5117, 1, (-8)); (7296, 7296, 1,
   (-6254)); (7297, 7297, 1, (-6253)); (7298, 7298, 1, (-6244)); (7299,
   7300, 1, (-6242)); (7301, 7301, 1, (-6243)); (7302, 7302, 1, (-6236));
   (7303, 7303, 1, (-6181)); (7304, 7304, 1, 35266); (7545, 7545, 1, 35332);
   (7549, 7549, 1, 3814); (7566, 7566, 1, 35384); (7681, 7829, 2, (-1));
   (7835, 7835, 1, (-59)); (7841, 7935, 2, (-1)); (7936, 7943, 1, 8); (7952,
   7957, 1, 8); (7968, 7975, 1, 8); (7984, 7991, 1, 8); (8000, 8005, 1, 8);
   (8017, 8023, 2, 8); (8032, 8039, 1, 8); (8048, 8049, 1, 74); (8050, 8053,
   1, 86); (8054, 8055, 1, 100); (8056, 8057, 1, 128); (8058, 8059, 1, 112);
   (8060, 8061, 1, 126); (8064, 8071, 1, 8); (8080, 8087, 1, 8); (8096,
   8103, 1, 8); (8112, 8113, 1, 8); (8115, 8115, 1, 9); (8126, 8126, 1,
   (-7205)); (8131, 8131, 1, 9); (8144, 8145, 1, 8); (8160, 8161, 1, 8);
   (8165, 8165, 1, 7); (8179, 8179, 1, 9); (8526, 8526, 1, (-28)); (8560,
   8575, 1, (-16)); (8580, 8580, 1, (-1)); (9424, 9449, 1, (-26)); (11312,
   11359, 1, (-48)); (11361, 11361, 1, (-1)); (11365, 11365, 1, (-10795));
   (11366, 11366, 1, (-10792)); (11368, 11372, 2, (-1)); (11379, 11379, 1,
   (-1)); (11382, 11382, 1, (-1)); (11393, 11491, 2, (-1)); (11500, 11502,
   2, (-1)); (11507, 11507, 1, (-1)); (11520, 11557, 1, (-7264)); (11559,
   11559, 1, (-7264)); (11565, 11565, 1, (-7264)); (42561, 42605, 2, (-1));
   (42625, 42651, 2, (-1)); (42787, 42799, 2, (-1)); (42803, 42863, 2,
   (-1)); (42874, 42876, 2, (-1)); (42879, 42887, 2, (-1)); (42892, 42892,
   1, (-1)); (42897, 42899, 2, (-1)); (42900, 42900, 1, 48); (42903, 42921,
   2, (-1)); (42933, 42947, 2, (-1)); (42952, 42954, 2, (-1)); (42961,
   42961, 1, (-1)); (42967, 42969, 2, (-1)); (42998, 42998, 1, (-1));
   (43859, 43859, 1, (-928)); (43888, 43967, 1, (-38864)); (65345, 65370, 1,
   (-32)); (66600, 66639, 1, (-40)); (66776, 66811, 1, (-40)); (66967,
   66977, 1, (-39)); (66979, 66993, 1, (-39)); (66995, 67001, 1, (-39));
   (67003, 67004, 1, (-39)); (68800, 68850, 1, (-64)); (71872, 71903, 1,
   (-32)); (93792, 93823, 1, (-32)); (125218, 125251, 1, (-34))].

(** Titlecase mappings to more than one character. *)
Definition TITLE_FULL : list (Z * list Z) :=
  [(223, [83; 115]); (329, [700; 78]); (496, [74; 780]); (912, [921; 776;
   769]); (944, [933; 776; 769]); (1415, [1333; 1410]); (7830, [72; 817]);
   (7831, [84; 776]); (7832, [87; 778]); (7833, [89; 778]); (7834, [65;
   702]); (8016, [933; 787]); (8018, [933; 787; 768]); (8020, [933; 787;
   769]); (8022, [933; 787; 834]); (8114, [8122; 837]); (8116, [902; 837]);
   (8118, [913; 834]); (8119, [913; 834; 837]); (8130, [8138; 837]); (8132,
   [905; 837]); (8134, [919; 834]); (8135, [919; 834; 837]); (8146, [921;
   776; 768]); (8147, [921; 776; 769]); (8150, [921; 834]); (8151, [921;
   776; 834]); (8162, [933; 776; 768]); (8163, [933; 776; 769]); (8164,
   [929; 787]); (8166, [933; 834]); (8167, [933; 776; 834]); (8178, [8186;
   837]); (8180, [911; 837]); (8182, [937; 834]); (8183, [937; 834; 837]);
   (64256, [70; 102]); (64257, [70; 105]); (64258, [70; 108]); (64259, [70;
   102; 105]); (64260, [70; 102; 108]); (64261, [83; 116]); (64262, [83;
   116]); (64275, [1348; 1398]); (64276, [1348; 1381]); (64277, [1348;
   1387]); (64278, [1358; 1398]); (64279, [1348; 1389])].

Definition in_ranges (table : list (Z * Z)) (c : Z) : bool :=
  existsb (fun r => (fst r <=? c) && (c <=? snd r)) table.

(** [str.isspace] of one character. *)
Definition is_space (c : Z) : bool := existsb (Z.eqb c) SPACES.

(** The value of a decimal digit, in any script. *)
Definition decimal_value (c : Z) : option Z :=
  match find (fun z => (z <=? c) && (c <? z + 10)) DIGIT_ZEROS with
  | Some z => Some (c - z)
  | None => None
  end.

Definition is_decimal (c : Z) : bool :=
  match decimal_value c with Some _ => true | None => false end.

Definition is_cased (c : Z) : bool := in_ranges CASED c.
Definition is_case_ignorable (c : Z) : bool := in_ranges CASE_IGNORABLE c.

(** [str.strip()] *)
Fixpoint lstrip_chars (l : list (Z * string)) : list (Z * string) :=
  match l with
  | ch :: t => if is_space (fst ch) then lstrip_chars t else l
  | [] => []
  end.

Definition strip (s : string) : string :=
  text (rev (lstrip_chars (rev (lstrip_chars (chars s))))).

(** The simple case mapping of a character found in a table of runs. *)
Definition shift_in (runs : list (Z * Z * Z * Z)) (c : Z) : Z :=
  match find (fun r => let '(first, last, step, _) := r in
                       (first <=? c) && (c <=? last)
                       && ((c - first) mod step =? 0)) runs with
  | Some (_, _, _, shift) => c + shift
  | None => c
  end.

Definition lower_cp (c : Z) : list Z :=
  if c <? 128 then [if (65 <=? c) && (c <=? 90) then c + 32 else c]
  else if c =? 304 then [105; 775]
  else [shift_in LOWER_RUNS c].

Definition title_cp (c : Z) : list Z :=
  if c <? 128 then [if (97 <=? c) && (c <=? 122) then c - 32 else c]
  else match find (fun e => fst e =? c) TITLE_FULL with
       | Some e => snd e
       | None => [shift_in TITLE_RUNS c]
       end.

(** Past the case-ignorable characters, is the next one cased? *)
Fixpoint cased_next (l : list Z) : bool :=
  match l with
  | [] => false
  | c :: t => if is_case_ignorable c then cased_next t else is_cased c
  end.

(** The lower case of a character in its context: a capital sigma that
    ends a word becomes a final sigma. *)
Definition lower_at (before : list Z) (c : Z) (after : list Z) : list Z :=
  if c =? 931
  then [if cased_next before && negb (cased_next after) then 962 else 963]
  else lower_cp c.

(** A character after its mapping: its own bytes when it is unchanged. *)
Definition spell (ch : Z * string) (mapped : list Z) : string :=
  match mapped with
  | [d] => if d =? fst ch then snd ch else encode d
  | _ => fold_right (fun d s => encode d ++ s) "" mapped
  end.

(** [str.lower()]; [before] holds the characters already passed, the
    nearest first. *)
Fixpoint lower_chars (before : list Z) (l : list (Z * string)) : string :=
  match l with
  | [] => ""
  | ch :: t =>
      spell ch (lower_at before (fst ch) (map fst t))
        ++ lower_chars (fst ch :: before) t
  end.

Definition lower (s : string) : string := lower_chars [] (chars s).

(** [str.title()]: a character is put in title case when the one before
    it is not cased, and in lower case otherwise. *)
Fixpoint title_chars (prev_cased : bool) (before : list Z)
         (l : list (Z * string)) : string :=
  match l with
  | [] => ""
  | ch :: t =>
      spell ch (if prev_cased then lower_at before (fst ch) (map fst t)
                else title_cp (fst ch))
        ++ title_chars (is_cased (fst ch)) (fst ch :: before) t
  end.

Definition title (s : string) : string := title_chars false [] (chars s).

Fixpoint replace_char (a b : ascii) (s : string) : string :=
  match s with
  | EmptyString => EmptyString
  | String c t => String (if Ascii.eqb c a then b else c) (replace_char a b t)
  end.

Definition startswith (p s : string) : bool := String.prefix p s.

Definition mem_str (s : string) (l : list string) : bool :=
  existsb (String.eqb s) l.

(** What [float(s)] and [int(s)] read of a text: ASCII is kept, any other
    blank becomes a space and any other decimal digit the ASCII digit of
    its value; a character that is neither ends the text with [?]. *)
Fixpoint to_ascii_number (l : list (Z * string)) : string :=
  match l with
  | [] => ""
  | ch :: t =>
      let c := fst ch in
      if c <? 127 then String (chr_byte c) (to_ascii_number t)
      else if is_space c then String " " (to_ascii_number t)
      else match decimal_value c with
           | Some d => String (chr_byte (48 + d)) (to_ascii_number t)
           | None => "?"
           end
  end.

(** The blanks those two conversions skip at both ends: the C locale's. *)
Definition is_c_space (c : ascii) : bool :=
  let n := byte c in (9 <=? n) && (n <=? 13) || (n =? 32).

Fixpoint c_lstrip (s : string) : string :=
  match s with
  | String c t => if is_c_space c then c_lstrip t else s
  | EmptyString => EmptyString
  end.

Fixpoint all_c_space (s : string) : bool :=
  match s with
  | String c t => is_c_space c && all_c_space t
  | EmptyString => true
  end.

Definition is_digit (c : ascii) : bool :=
  let n := byte c in (48 <=? n) && (n <=? 57).

(** ASCII letters in lower case, for the words [inf] and [nan]. *)
Fixpoint ascii_lower (s : string) : string :=
  match s with
  | EmptyString => EmptyString
  | String c t =>
      let n := byte c in
      String (if (65 <=? n) && (n <=? 90) then chr_byte (n + 32) else c)
             (ascii_lower t)
  end.

Fixpoint rev_string (acc s : string) : string :=
  match s with
  | EmptyString => acc
  | String c t => rev_string (String c acc) t
  end.

Definition c_strip (s : string) : string :=
  rev_string EmptyString
    (c_lstrip (rev_string EmptyString (c_lstrip s))).

(** [str(n)] for an integer. *)
Definition str_of_Z (z : Z) : string := NilZero.string_of_int (Z.to_int z).

(** [format(x, ".1f")]: the exact binary value is rounded to one decimal,
    ties to even, and printed in fixed notation. *)
Definition tenths (m : positive) (e : Z) : Z :=
  match e with
  | Zneg p =>
      let den := Z.shiftl 1 (Zpos p) in
      let num := 10 * Zpos m in
      let q := num / den in
      let r := num mod den in
      match 2 * r ?= den with
      | Lt => q
      | Gt => q + 1
      | Eq => if Z.even q then q else q + 1
      end
  | _ => 10 * Z.shiftl (Zpos m) e
  end.

Definition fmt1 (x : float) : string :=
  match x with
  | S754_nan => "nan"
  | S754_infinity s => if s then "-inf" else "inf"
  | S754_zero s => if s then "-0.0" else "0.0"
  | S754_finite s m e =>
      let n := tenths m e in
      (if s then "-" else "") ++ str_of_Z (n / 10) ++ "." ++ str_of_Z (n mod 10)
  end.

(** *** Decimal text to binary64 and back *)

(** The binary64 number nearest to [(-1)^neg * m * 10^e]. *)
Definition float_of_decimal (neg : bool) (m : Z) (e : Z) : float :=
  match m with
  | Zpos p =>
      match e with
      | Zneg q => fdiv (S754_finite neg p 0) (S754_finite false (Pos.pow 10 q) 0)
      | _ => binary_normalize 53 1024 (if neg then - (m * 10 ^ e) else m * 10 ^ e) 0 false
      end
  | _ => S754_zero neg
  end.

Definition digit_val (c : ascii) : Z := byte c - 48.

(** A run [digit (["_"] digit)*]: its value, its number of digits and
    the rest of the text. *)
Fixpoint digitpart (s : string) (v : Z) (n : nat) : Z * nat * string :=
  match s with
  | String c t =>
      if is_digit c then digitpart t (10 * v + digit_val c) (S n)
      else if Ascii.eqb c "_" && negb (Nat.eqb n 0) then
        match t with
        | String d _ => if is_digit d then digitpart t v n else (v, n, s)
        | EmptyString => (v, n, s)
        end
      else (v, n, s)
  | EmptyString => (v, n, s)
  end.

Definition read_sign (s : string) : bool * string :=
  match s with
  | String "-" t => (true, t)
  | String "+" t => (false, t)
  | _ => (false, s)
  end.

(** The exponent part of a float literal: [None] when malformed. *)
Definition read_exponent (s : string) : option Z :=
  match s with
  | EmptyString => Some 0
  | String c t =>
      if Ascii.eqb c "e" || Ascii.eqb c "E" then
        let '(neg, t1) := read_sign t in
        match digitpart t1 0 0 with
        | (_, O, _) => None
        | (v, _, EmptyString) => Some (if neg then - v else v)
        | _ => None
        end
      else None
  end.

(** [float(s)] for a [str]: [None] stands for [ValueError]. *)
Definition parse_float (s : string) : option float :=
  let '(neg, body) := read_sign (c_strip (to_ascii_number (chars s))) in
  let low := ascii_lower body in
  if mem_str low ["inf"; "infinity"] then Some (S754_infinity neg)
  else if String.eqb low "nan" then Some S754_nan
  else
    let '(ip, ni, r1) := digitpart body 0 0 in
    let '(fp, nf, r2) :=
      match r1 with
      | String "." t => digitpart t 0 0
      | _ => (0, O, r1)
      end in
    match (ni + nf)%nat with
    | O => None
    | _ =>
        match read_exponent r2 with
        | Some ex =>
            Some (float_of_decimal neg (ip * 10 ^ Z.of_nat nf + fp)
                                   (ex - Z.of_nat nf))
        | None => None
        end
    end.

(** [repr(x)]: the shortest decimal text that reads back as [x]. *)
Section Repr.
Variables (num den : Z).

(** The largest [k] below the start value with [10^k <= num/den]. *)
Fixpoint log10_from (fuel : nat) (k : Z) : Z :=
  match fuel with
  | O => k
  | S fuel' =>
      let ok := match k with
                | Zneg q => den <=? num * Z.pow_pos 10 q
                | _ => den * 10 ^ k <=? num
                end in
      if ok then k else log10_from fuel' (k - 1)
  end.

(** The two integers around [num/den / 10^s], the nearer one first. *)
Definition scaled_candidates (s : Z) : list Z :=
  let '(n, d) := match s with
                 | Zneg q => (num * Z.pow_pos 10 q, den)
                 | _ => (num, den * 10 ^ s)
                 end in
  let q := n / d in
  let r := n mod d in
  match 2 * r ?= d with
  | Lt => if r =? 0 then [q] else [q; q + 1]
  | Gt => [q + 1; q]
  | Eq => if Z.even q then [q; q + 1] else [q + 1; q]
  end.
End Repr.

Fixpoint shortest_digits (x : float) (num den k : Z) (fuel : nat) (p : Z)
  : Z * Z :=
  let s := k - p + 1 in
  let cands := scaled_candidates num den s in
  match find (fun d => match SFcompare (float_of_decimal false d s) x with
                       | Some Eq => true
                       | _ => false
                       end) cands with
  | Some d => (d, s)
  | None =>
      match fuel with
      | O => (hd 0 cands, s)
      | S fuel' => shortest_digits x num den k fuel' (p + 1)
      end
  end.

Fixpoint zeros (n : nat) : string :=
  match n with O => "" | S n' => String "0" (zeros n') end.

Fixpoint strip_zeros_r (fuel : nat) (d s : Z) : Z * Z :=
  match fuel with
  | O => (d, s)
  | S fuel' => if (d mod 10 =? 0) && negb (d =? 0)
               then strip_zeros_r fuel' (d / 10) (s + 1) else (d, s)
  end.

Definition repr_digits (ds : string) (decpt : Z) : string :=
  let nd := Z.of_nat (String.length ds) in
  if (decpt <=? -4) || (16 <? decpt) then
    let ex := decpt - 1 in
    let mant := match ds with
                | String c EmptyString => String c EmptyString
                | String c t => String c ("." ++ t)
                | EmptyString => "0"
                end in
    let exs := str_of_Z (Z.abs ex) in
    mant ++ "e" ++ (if ex <? 0 then "-" else "+")
         ++ (if Z.abs ex <? 10 then "0" else "") ++ exs
  else if decpt <=? 0 then "0." ++ zeros (Z.to_nat (- decpt)) ++ ds
  else if decpt <? nd then
    substring 0 (Z.to_nat decpt) ds ++ "."
      ++ substring (Z.to_nat decpt) (Z.to_nat (nd - decpt)) ds
  else ds ++ zeros (Z.to_nat (decpt - nd)) ++ ".0".

Definition repr_float (x : float) : string :=
  match x with
  | S754_nan => "nan"
  | S754_infinity s => if s then "-inf" else "inf"
  | S754_zero s => if s then "-0.0" else "0.0"
  | S754_finite sg m e =>
      let num := match e with Zneg _ => Zpos m | _ => Z.shiftl (Zpos m) e end in
      let den := match e with Zneg q => Z.shiftl 1 (Zpos q) | _ => 1 end in
      let k := log10_from num den 800 400 in
      let '(d0, s0) := shortest_digits (S754_finite false m e) num den k 17 1 in
      let '(d, s) := strip_zeros_r 20 d0 s0 in
      let ds := str_of_Z d in
      (if sg then "-" else "")
        ++ repr_digits ds (s + Z.of_nat (String.length ds))
  end.

(** The two conversions between text and floats are the interpreter's;
    the program is embedded over any implementation of them, and
    [ascii_runtime] is the one the examples run on. *)
Class Runtime := {
  float_of_str : string -> option float;
  str_of_float : float -> string;
}.

Definition ascii_runtime : Runtime :=
  {| float_of_str := parse_float; str_of_float := repr_float |}.

(** *** Dynamically typed values: spreadsheet cells, labels, arguments *)
Inductive value :=
| VNone
| VFloat (x : float)
| VInt (z : Z)
| VStr (s : string).

Section Values.
Context {R : Runtime}.

(** [str(v)] *)
Definition py_str (v : value) : string :=
  match v with
  | VNone => "None"
  | VFloat x => str_of_float x
  | VInt z => str_of_Z z
  | VStr s => s
  end.

(** [bool(v)] *)
Definition truthy (v : value) : bool :=
  match v with
  | VNone => false
  | VFloat (S754_zero _) => false
  | VFloat _ => true
  | VInt z => negb (z =? 0)
  | VStr s => negb (String.eqb s "")
  end.

(** [float(v)] *)
Definition py_float (v : value) : result float :=
  match v with
  | VNone => Raise TypeError
  | VFloat x => Ok x
  | VInt z => let x := float_of_Z z in
              if is_inf x then Raise OverflowError else Ok x
  | VStr s => match float_of_str s with
              | Some x => Ok x
              | None => Raise ValueError
              end
  end.

(** [isinstance(v, float) and math.isnan(v)] *)
Definition is_float_nan (v : value) : bool :=
  match v with VFloat x => is_nan x | _ => false end.
End Values.

End Py.

(** ** stats/models.py and the part of the ORM the program uses *)
Module Team.
Record t := { id : nat; name : string; logo : option string }.
End Team.

Module Player.
Import Py.
(** Every statistic is a nullable column: [None] is SQL NULL. *)
Record t := {
  id : nat;
  team : nat;
  name : string;
  number : Z;
  position : string;
  games : option Z;
  minutes_per_game : option float;
  points_per_game : option float;
  rebounds_per_game : option float;
  assists_per_game : option float;
  steals_per_game : option float;
  blocks_per_game : option float;
  fouls_per_game : option float;
  turnovers_per_game : option float;
  two_points_pct : option float;
  three_points_pct : option float;
  rating : option float;
}.

Definition with_id (i : nat) (p : t) : t :=
  {| id := i; team := team p; name := name p; number := number p;
     position := position p; games := games p;
     minutes_per_game := minutes_per_game p;
     points_per_game := points_per_game p;
     rebounds_per_game := rebounds_per_game p;
     assists_per_game := assists_per_game p;
     steals_per_game := steals_per_game p;
     blocks_per_game := blocks_per_game p;
     fouls_per_game := fouls_per_game p;
     turnovers_per_game := turnovers_per_game p;
     two_points_pct := two_points_pct p;
     three_points_pct := three_points_pct p;
     rating := rating p |}.
End Player.

Module Models.
Import Py.

(** The two tables, with the next primary key of each. *)
Record DB := {
  teams : list Team.t;
  players : list Player.t;
  next_team_id : nat;
  next_player_id : nat;
}.

(** Lines written to the command's stdout, kept as the values their
    f-strings interpolate. *)
Inductive Msg :=
| MsgDeleting
| MsgDebug (sheet : string) (hdr_idx : nat) (columns : list value)
| MsgSkipped (team : string)
| MsgImported (team : string) (created_here : nat)
| MsgDone (total_players : nat).

Record World := { db : DB; out : list Msg }.

(** Commands run on the world and may raise; what was written before the
    exception is still there when it is raised. *)
Definition M (A : Type) : Type := World -> result A * World.

Definition ret {A} (a : A) : M A := fun w => (Ok a, w).
Definition raise {A} (e : exn) : M A := fun w => (Raise e, w).
Definition bind {A B} (m : M A) (k : A -> M B) : M B :=
  fun w => match m w with
           | (Ok a, w') => k a w'
           | (Raise e, w') => (Raise e, w')
           end.
Definition lift {A} (r : result A) : M A := fun w => (r, w).

Notation "x <- m ;; k" := (bind m (fun x => k))
  (at level 61, m at next level, right associativity).

Definition write (m : Msg) : M unit :=
  fun w => (Ok tt, {| db := db w; out := out w ++ [m] |}).

Definition get_db : M DB := fun w => (Ok (db w), w).
Definition put_db (d : DB) : M unit :=
  fun w => (Ok tt, {| db := d; out := out w |}).

(** [@transaction.atomic]: when the body raises, the tables are put back
    as they were on entry and the exception goes on to the caller. *)
Definition atomic {A} (body : M A) : M A :=
  fun w => match body w with
           | (Ok a, w') => (Ok a, w')
           | (Raise e, w') => (Raise e, {| db := db w; out := out w' |})
           end.

(** [for x in xs: acc = body(x, acc)] *)
Fixpoint for_each {A S} (xs : list A) (body : A -> S -> M S) (acc : S) : M S :=
  match xs with
  | [] => ret acc
  | x :: rest => bind (body x acc) (for_each rest body)
  end.

(** [Player.objects.all().delete()] *)
Definition delete_all_players : M unit :=
  bind get_db (fun d =>
    put_db {| teams := teams d; players := [];
              next_team_id := next_team_id d;
              next_player_id := next_player_id d |}).

(** [Team.objects.get_or_create(name=n)] *)
Definition get_or_create_team (n : string) : M Team.t :=
  bind get_db (fun d =>
    match filter (fun t => String.eqb (Team.name t) n) (teams d) with
    | [] =>
        let t := {| Team.id := next_team_id d; Team.name := n;
                    Team.logo := None |} in
        bind (put_db {| teams := teams d ++ [t]; players := players d;
                        next_team_id := S (next_team_id d);
                        next_player_id := next_player_id d |})
             (fun _ => ret t)
    | [t] => ret t
    | _ => raise MultipleObjectsReturned
    end).

(** What the engine keeps of a float: a NaN is stored as NULL. *)
Definition stored (x : option float) : option float :=
  match x with
  | Some f => if is_nan f then None else Some f
  | None => None
  end.

(** The row the table holds for a record. *)
Definition to_row (p : Player.t) : Player.t :=
  {| Player.id := Player.id p; Player.team := Player.team p;
     Player.name := Player.name p; Player.number := Player.number p;
     Player.position := Player.position p; Player.games := Player.games p;
     Player.minutes_per_game := stored (Player.minutes_per_game p);
     Player.points_per_game := stored (Player.points_per_game p);
     Player.rebounds_per_game := stored (Player.rebounds_per_game p);
     Player.assists_per_game := stored (Player.assists_per_game p);
     Player.steals_per_game := stored (Player.steals_per_game p);
     Player.blocks_per_game := stored (Player.blocks_per_game p);
     Player.fouls_per_game := stored (Player.fouls_per_game p);
     Player.turnovers_per_game := stored (Player.turnovers_per_game p);
     Player.two_points_pct := stored (Player.two_points_pct p);
     Player.three_points_pct := stored (Player.three_points_pct p);
     Player.rating := stored (Player.rating p) |}.

(** An integer column holds a signed 64-bit number. *)
Definition fits_int64 (z : Z) : bool :=
  (- 9223372036854775808 <=? z) && (z <=? 9223372036854775807).

(** Why an insert is refused: an integer that does not fit its column
    cannot be handed to the engine at all; [number] is a
    [PositiveIntegerField], whose column carries the check [number >= 0]. *)
Definition insert_error (p : Player.t) : option exn :=
  if negb (fits_int64 (Player.number p)
           && match Player.games p with
              | Some g => fits_int64 g
              | None => true
              end)
  then Some OverflowError
  else if Player.number p <? 0 then Some IntegrityError
  else None.

(** [Player.objects.create(...)]: the new object is returned as it was
    built, with its primary key; the table holds its row. *)
Definition create_player (p : Player.t) : M Player.t :=
  match insert_error p with
  | Some e => raise e
  | None =>
      bind get_db (fun d =>
        let p' := Player.with_id (next_player_id d) p in
        bind (put_db {| teams := teams d; players := players d ++ [to_row p'];
                        next_team_id := next_team_id d;
                        next_player_id := S (next_player_id d) |})
             (fun _ => ret p'))
  end.
End Models.

(** ** stats/management/commands/import_players.py *)
Module ImportPlayers.
Import Py Models.

(** What [pandas.read_excel] gives for a path: every sheet without a
    header ([sheet_name=None, header=None]), and one sheet read again
    with row [header] as its column labels. *)
Record Frame := { columns : list value; rows : list (list value) }.

Record Excel := {
  read_raw : string -> result (list (string * list (list value)));
  read_header : string -> string -> nat -> result Frame;
}.

Record Options := { xlsx_path : string; reset : bool; debug : bool }.

Definition NAME_KEYS : list string :=
  ["player"; "players"; "name"; "player name"; "full name"].

Section WithRuntime.
Context {R : Runtime}.

Definition _clean_header (v : value) : string := lower (strip (py_str v)).

Definition is_none (v : value) : bool :=
  match v with VNone => true | _ => false end.

Definition as_float (v : value) (default : float) : float :=
  if is_none v || is_float_nan v then default
  else
    let v' := match v with
              | VStr s => VStr (replace_char "," "." (strip s))
              | _ => v
              end in
    match py_float v' with
    | Ok x => x
    | Raise _ => default
    end.

(** [re.fullmatch(r"-?\d+(\.\d+)?", s)]; [\d] is a decimal digit of any
    script. *)
Fixpoint all_digits (l : list Z) : bool :=
  match l with
  | [] => true
  | c :: t => is_decimal c && all_digits t
  end.

Fixpoint digits_then_fraction (seen : bool) (l : list Z) : bool :=
  match l with
  | [] => seen
  | c :: t =>
      if is_decimal c then digits_then_fraction true t
      else seen && (c =? 46) && negb (match t with [] => true | _ => false end)
           && all_digits t
  end.

Definition int_like (s : string) : bool :=
  match map fst (chars s) with
  | 45 :: t => digits_then_fraction false t
  | l => digits_then_fraction false l
  end.

Definition as_int (v : value) (default : Z) : Z :=
  if is_none v || is_float_nan v then default
  else
    match v with
    | VStr s =>
        let s' := strip s in
        if int_like s' then
          match py_float (VStr s') with
          | Ok x => match trunc x with Some z => z | None => default end
          | Raise _ => default
          end
        else default
    | _ =>
        match py_float v with
        | Ok x => match trunc x with Some z => z | None => default end
        | Raise _ => default
        end
    end.

Definition norm_pos (v : value) : string :=
  if negb (truthy v) then "Guard"
  else
    let s := title (strip (py_str v)) in
    if mem_str s ["Guard"; "Forward"; "Center"] then s else "Guard".

Definition pct01 (v : value) : float :=
  let f := as_float v f0 in
  let f := if fgt f f1 then fdiv f f100 else f in
  max2 f0 (min2 f1 f).

(** A row is its cells paired with the labels of their columns.  The
    dictionary [lower] keeps, for a normalised label, the last column
    that has it; pandas makes the labels of a frame distinct, so that
    column is the one [row[lower[key]]] reads. *)
Definition lookup_last (key : string) (lower : list (string * value))
  : option value :=
  match find (fun kv => String.eqb (fst kv) key) (rev lower) with
  | Some kv => Some (snd kv)
  | None => None
  end.

Fixpoint pick_from (lower : list (string * value)) (cands : list string)
  : value :=
  match cands with
  | [] => VNone
  | c :: rest =>
      match lookup_last (Py.lower (strip c)) lower with
      | Some v => v
      | None => pick_from lower rest
      end
  end.

Definition pick (row : list (value * value)) (cands : list string) : value :=
  let lower := map (fun kv => (Py.lower (strip (py_str (fst kv))), snd kv)) row in
  pick_from lower cands.

Definition is_name_row (row : list value) : bool :=
  existsb (fun h => mem_str h NAME_KEYS) (map _clean_header row).

Definition find_header_row (df : list (list value)) : nat :=
  let max_check := Nat.min 10 (List.length df) in
  match find (fun i => is_name_row (nth i df [])) (seq 0 max_check) with
  | Some i => i
  | None => O
  end.

(** [df.loc[:, ~df.columns.astype(str).str.startswith("Unnamed")]] *)
Definition keep_column (c : value) : bool :=
  negb (startswith "Unnamed" (py_str c)).

Fixpoint select {A} (mask : list bool) (xs : list A) : list A :=
  match mask, xs with
  | b :: m, x :: t => if b then x :: select m t else select m t
  | _, _ => []
  end.

Definition drop_unnamed (df : Frame) : Frame :=
  let mask := map keep_column (columns df) in
  {| columns := select mask (columns df);
     rows := map (select mask) (rows df) |}.

Definition NAME_LABELS : list string :=
  ["Player"; "Players"; "Name"; "Player Name"; "Full Name"].

(** [k in df.columns]: the position of the column labelled [k]. *)
Fixpoint index_of (k : string) (cols : list value) : option nat :=
  match cols with
  | [] => None
  | c :: rest =>
      match c with
      | VStr s => if String.eqb s k then Some O
                  else option_map S (index_of k rest)
      | _ => option_map S (index_of k rest)
      end
  end.

Fixpoint name_series (labels : list string) (cols : list value) : option nat :=
  match labels with
  | [] => None
  | k :: rest =>
      match index_of k cols with
      | Some j => Some j
      | None => name_series rest cols
      end
  end.

Definition notna (v : value) : bool := negb (is_none v || is_float_nan v).

(** [df = df[name_series.notna()]] *)
Definition drop_empty_names (df : Frame) : Frame :=
  match name_series NAME_LABELS (columns df) with
  | Some j => {| columns := columns df;
                 rows := filter (fun r => notna (nth j r VNone)) (rows df) |}
  | None => df
  end.

(** The body of the row loop up to [Player.objects.create]: the record
    to insert, or [None] when the row is passed over by [continue]. *)
Definition parse_row (team : Team.t) (cols cells : list value)
  : option Player.t :=
  let row := combine cols cells in
  let name := pick row NAME_LABELS in
  if negb (truthy name) || is_float_nan name then None
  else
    Some {|
      Player.id := O;
      Player.team := Team.id team;
      Player.name := strip (py_str name);
      Player.number := as_int (pick row ["Number"; "#"; "No"]) 0;
      Player.position := norm_pos (pick row ["Position"; "Pos"]);
      Player.games := Some (as_int (pick row ["Games"; "GP"]) 0);
      Player.minutes_per_game :=
        Some (as_float (pick row ["Minutes per game"; "Min"; "MIN"; "Minutes"]) f0);
      Player.points_per_game :=
        Some (as_float (pick row ["Points per game"; "PTS"; "PPG"]) f0);
      Player.rebounds_per_game :=
        Some (as_float (pick row ["Rebounds per game"; "REB"; "RPG"]) f0);
      Player.assists_per_game :=
        Some (as_float (pick row ["Assists per game"; "AST"; "APG"]) f0);
      Player.steals_per_game :=
        Some (as_float (pick row ["Steals per game"; "STL"; "SPG"]) f0);
      Player.blocks_per_game :=
        Some (as_float (pick row ["Blocks per game"; "BLK"; "BPG"]) f0);
      Player.fouls_per_game :=
        Some (as_float (pick row ["Fouls per game"; "Fouls"]) f0);
      Player.turnovers_per_game :=
        Some (as_float (pick row ["Turnovers per game"; "Turnovers"; "TOV"]) f0);
      Player.two_points_pct :=
        Some (pct01 (pick row ["2 points %"; "2PT%"; "2PT %"; "Two Points %"]));
      Player.three_points_pct :=
        Some (pct01 (pick row ["3 points %"; "3PT%"; "3PT %"; "Three Points %"]));
      Player.rating := Some (as_float (pick row ["Rating"; "Eff"; "EFF"]) f0);
    |}.

(** One turn of the row loop; the state is [(created_here, total_players)]. *)
Definition import_row (team : Team.t) (cols cells : list value)
           (counts : nat * nat) : M (nat * nat) :=
  match parse_row team cols cells with
  | None => ret counts
  | Some p => _ <- create_player p ;; ret (S (fst counts), S (snd counts))
  end.

(** One turn of the sheet loop; the state is [total_players]. *)
Definition import_sheet (xl : Excel) (opts : Options)
           (sheet : string * list (list value)) (total_players : nat)
  : M nat :=
  let sheet_name := fst sheet in
  let hdr_idx := find_header_row (snd sheet) in
  df0 <- lift (read_header xl (xlsx_path opts) sheet_name hdr_idx) ;;
  let df := drop_unnamed df0 in
  let headers_norm := map _clean_header (columns df) in
  _ <- (if debug opts then write (MsgDebug sheet_name hdr_idx (columns df))
        else ret tt) ;;
  team <- get_or_create_team (strip sheet_name) ;;
  if negb (existsb (fun h => mem_str h NAME_KEYS) headers_norm) then
    _ <- write (MsgSkipped (Team.name team)) ;; ret total_players
  else
    let df := drop_empty_names df in
    counts <- for_each (rows df) (import_row team (columns df))
                       (O, total_players) ;;
    _ <- write (MsgImported (Team.name team) (fst counts)) ;;
    ret (snd counts).

Definition handle_body (xl : Excel) (opts : Options) : M unit :=
  raw_book <- lift (match read_raw xl (xlsx_path opts) with
                    | Ok b => Ok b
                    | Raise _ => Raise CommandError
                    end) ;;
  _ <- (if reset opts then _ <- write MsgDeleting ;; delete_all_players
        else ret tt) ;;
  total_players <- for_each raw_book (import_sheet xl opts) O ;;
  write (MsgDone total_players).

Definition handle (xl : Excel) (opts : Options) : M unit :=
  atomic (handle_body xl opts).
End WithRuntime.
End ImportPlayers.

(** ** stats/ai_client.py *)
Module AiClient.
Import Py.

Definition nl : string := String (ascii_of_nat 10) "".
Definition dquote : string := String (ascii_of_nat 34) "".
Definition bytes (l : list nat) : string :=
  fold_right (fun n s => String (ascii_of_nat n) s) "" l.

(** [settings.OPENAI_API_KEY] *)
Record Settings := { OPENAI_API_KEY : option string }.

(** The external text service: building the client with the key, the
    request and the reading of [resp.output[0].content[0].text]; any of
    them may raise. *)
Definition Service : Type := string -> string -> result string.

(** [format(x, ".1f")] of a statistic; [None] has no such format. *)
Definition fmt_stat (x : option float) : result string :=
  match x with
  | Some f => Ok (fmt1 f)
  | None => Raise TypeError
  end.

(** [x > 0] for a statistic; [None > 0] is a [TypeError]. *)
Definition gt0 (x : option float) : result bool :=
  match x with
  | Some f => Ok (fgt f f0)
  | None => Raise TypeError
  end.

(** A list comprehension with a condition that may raise. *)
Fixpoint filter_r {A} (f : A -> result bool) (l : list A) : result (list A) :=
  match l with
  | [] => Ok []
  | x :: t =>
      rbind (f x) (fun b =>
      rbind (filter_r f t) (fun t' => Ok (if b then x :: t' else t')))
  end.

Fixpoint map_r {A B} (f : A -> result B) (l : list A) : result (list B) :=
  match l with
  | [] => Ok []
  | x :: t => rbind (f x) (fun y => rbind (map_r f t) (fun t' => Ok (y :: t')))
  end.

(** [max(items, key=...)]: a later item replaces the current one when
    its key is strictly greater; comparing with [None] raises. *)
Fixpoint max_from {A} (key : A -> option float) (best : A) (rest : list A)
  : result A :=
  match rest with
  | [] => Ok best
  | x :: t =>
      match key x, key best with
      | Some kx, Some kb => max_from key (if fgt kx kb then x else best) t
      | _, _ => Raise TypeError
      end
  end.

Definition py_max {A} (key : A -> option float) (items : list A) : result A :=
  match items with
  | [] => Raise ValueError
  | x :: t => max_from key x t
  end.

(** [sum(seq)] of floats, added from the left starting at zero.  (Recent
    interpreters carry a correction term along; it stays zero, and the
    result is this one, whenever every partial sum is exact.) *)
Definition py_sum (seq : list float) : float := fold_left fadd seq f0.

Fixpoint present {A} (seq : list (option A)) : list A :=
  match seq with
  | [] => []
  | Some x :: t => x :: present t
  | None :: t => present t
  end.

Definition _avg (seq : list (option float)) : float :=
  match present seq with
  | [] => f0
  | seq' => fdiv (py_sum seq') (float_of_Z (Z.of_nat (List.length seq')))
  end.

Definition is_active (p : Player.t) : result bool :=
  rbind (gt0 (Player.minutes_per_game p)) (fun b =>
    if b then Ok true else gt0 (Player.points_per_game p)).

Definition _fallback_report (team : Team.t) (players : list Player.t)
  : result string :=
  match players with
  | [] => Ok ("No player statistics available yet for " ++ Team.name team ++ ".")
  | _ =>
      rbind (filter_r is_active players) (fun active0 =>
      let active := match active0 with [] => players | _ => active0 end in
      rbind (py_max Player.points_per_game active) (fun top_pts =>
      rbind (py_max Player.rebounds_per_game active) (fun top_reb =>
      rbind (py_max Player.assists_per_game active) (fun top_ast =>
      let avg_pts := _avg (map Player.points_per_game active) in
      let avg_reb := _avg (map Player.rebounds_per_game active) in
      let avg_ast := _avg (map Player.assists_per_game active) in
      rbind (fmt_stat (Player.points_per_game top_pts)) (fun s_pts =>
      rbind (fmt_stat (Player.rebounds_per_game top_reb)) (fun s_reb =>
      rbind (fmt_stat (Player.assists_per_game top_ast)) (fun s_ast =>
      Ok (Team.name team ++ " lean on " ++ Player.name top_pts
            ++ " for scoring (" ++ s_pts ++ " ppg), "
            ++ Player.name top_reb ++ " on the boards (" ++ s_reb
            ++ " rpg), and "
            ++ Player.name top_ast ++ " for playmaking (" ++ s_ast
            ++ " apg). "
            ++ "Across their active rotation they average roughly "
            ++ fmt1 avg_pts ++ " points, "
            ++ fmt1 avg_reb ++ " rebounds, and " ++ fmt1 avg_ast
            ++ " assists per game."))))))))
  end.

Definition roster_line (p : Player.t) : result string :=
  rbind (fmt_stat (Player.points_per_game p)) (fun pts =>
  rbind (fmt_stat (Player.rebounds_per_game p)) (fun reb =>
  rbind (fmt_stat (Player.assists_per_game p)) (fun ast =>
  rbind (fmt_stat (Player.rating p)) (fun rat =>
  Ok (Player.name p ++ " (" ++ Player.position p ++ ") - " ++ pts
        ++ " PTS, " ++ reb ++ " REB, " ++ ast ++ " AST; rating " ++ rat))))).

Fixpoint join (sep : string) (l : list string) : string :=
  match l with
  | [] => ""
  | [x] => x
  | x :: t => x ++ sep ++ join sep t
  end.

Definition prompt_for (team : Team.t) (roster : string) : string :=
  nl ++ "Analyze basketball team " ++ dquote ++ Team.name team ++ dquote
     ++ " using these player stats:" ++ nl ++ nl ++ roster ++ nl ++ nl
     ++ "Write 3" ++ bytes [195; 162; 226; 130; 172; 226; 128; 156]%nat
     ++ "5 sentences about: main scorers, rebounders, playmaking, "
     ++ "and a quick style/strengths note. Be concise." ++ nl.

Definition key_set (st : Settings) : option string :=
  match OPENAI_API_KEY st with
  | Some k => if String.eqb k "" then None else Some k
  | None => None
  end.

(** The body of the [try] block. *)
Definition ask_service (svc : Service) (key : string) (team : Team.t)
           (players : list Player.t) : result string :=
  rbind (map_r roster_line players) (fun lines =>
  let roster := match lines with [] => "No players." | _ => join nl lines end in
  rbind (svc key (prompt_for team roster)) (fun text =>
  let text := strip text in
  if String.eqb text "" then _fallback_report team players else Ok text)).

Definition generate_team_report (st : Settings) (svc : Service)
           (team : Team.t) (players : list Player.t) : result string :=
  match key_set st with
  | None => _fallback_report team players
  | Some key =>
      match ask_service svc key team players with
      | Ok text => Ok text
      | Raise _ => _fallback_report team players
      end
  end.
End AiClient.

(** ** stats/views.py *)
Module Views.
Import Py.

(** *** Querysets
    A queryset is the list of its rows in primary-key order.  In an
    [ORDER BY] NULL sorts below every number (and NaN, which the engine
    cannot store as a number, with it); rows that tie stay in
    primary-key order. *)
Definition num_le (x y : float) : bool :=
  if is_nan x then true else if is_nan y then false else fle x y.

Definition key_le (a b : option float) : bool :=
  match a, b with
  | None, _ => true
  | Some _, None => false
  | Some x, Some y => num_le x y
  end.

Fixpoint insert_by {A} (geq : A -> A -> bool) (x : A) (l : list A) : list A :=
  match l with
  | [] => [x]
  | y :: r => if geq x y then x :: y :: r else y :: insert_by geq x r
  end.

Definition order_by {A} (geq : A -> A -> bool) (l : list A) : list A :=
  fold_right (insert_by geq) [] l.

(** [order_by("-field")] *)
Definition desc (key : Player.t -> option float) (x y : Player.t) : bool :=
  key_le (key y) (key x).

(** [order_by("-f", "-g")] *)
Definition desc2 (f g : Player.t -> option float) (x y : Player.t) : bool :=
  if key_le (f x) (f y) then key_le (f y) (f x) && key_le (g y) (g x)
  else true.

Definition first {A} (l : list A) : option A := hd_error l.

(** [aggregate(Sum(field))] and [aggregate(Avg(field))]: NULLs are left
    out, and the result is NULL when nothing is left. *)
Fixpoint non_null (l : list (option float)) : list float :=
  match l with
  | [] => []
  | Some x :: t => x :: non_null t
  | None :: t => non_null t
  end.

Definition sql_sum (l : list (option float)) : option float :=
  match non_null l with
  | [] => None
  | xs => Some (fold_left fadd xs f0)
  end.

Definition sql_avg (l : list (option float)) : option float :=
  match non_null l with
  | [] => None
  | xs => Some (fdiv (fold_left fadd xs f0)
                     (float_of_Z (Z.of_nat (List.length xs))))
  end.

(** [x or 0] *)
Definition or0 (x : option float) : float :=
  match x with
  | Some (S754_zero _) => f0
  | Some f => f
  | None => f0
  end.

Definition fmt_stat (x : option float) : result string :=
  match x with
  | Some f => Ok (fmt1 f)
  | None => Raise TypeError
  end.

Definition build_scouting_report (team : Team.t) (players_qs : list Player.t)
  : result string :=
  match players_qs with
  | [] => Ok ("No player data is available yet for " ++ Team.name team ++ ".")
  | _ =>
  match first (order_by (desc Player.points_per_game) players_qs),
        first (order_by (desc Player.rebounds_per_game) players_qs),
        first (order_by (desc Player.assists_per_game) players_qs) with
  | Some best_scorer, Some best_rebounder, Some assist_leader =>
      let team_pts := or0 (sql_sum (map Player.points_per_game players_qs)) in
      let team_reb := or0 (sql_sum (map Player.rebounds_per_game players_qs)) in
      let avg_rating := or0 (sql_avg (map Player.rating players_qs)) in
      let tempo_phrase :=
        if fge team_pts f80 then "an up-tempo, offense-first"
        else "a more half-court oriented" in
      let glass_phrase :=
        if fge team_reb f40 then "strong on the boards"
        else "vulnerable on the boards" in
      rbind (fmt_stat (Player.points_per_game best_scorer)) (fun s_pts =>
      rbind (fmt_stat (Player.rebounds_per_game best_rebounder)) (fun s_reb =>
      rbind (fmt_stat (Player.assists_per_game assist_leader)) (fun s_ast =>
      Ok (Team.name team ++ " lean heavily on " ++ Player.name best_scorer
            ++ " (" ++ s_pts ++ " PPG) as their primary scoring option, "
            ++ "while " ++ Player.name best_rebounder
            ++ " anchors the paint with " ++ s_reb ++ " rebounds per game. "
            ++ Player.name assist_leader ++ " runs the offense and averages "
            ++ s_ast ++ " assists, keeping teammates involved. "
            ++ "As a group, the team scores around " ++ fmt1 team_pts
            ++ " points and collects " ++ fmt1 team_reb
            ++ " rebounds per game, with an average efficiency rating of "
            ++ fmt1 avg_rating ++ ". This profile points to " ++ tempo_phrase
            ++ " squad that is " ++ glass_phrase
            ++ ". To slow them down, opponents should limit early touches for "
            ++ Player.name best_scorer ++ ", keep "
            ++ Player.name best_rebounder
            ++ " off the glass, and force the ball out of "
            ++ Player.name assist_leader
            ++ "'s hands late in possessions."))))
  | _, _, _ => Raise AttributeError
  end
  end.

(** *** team_list: the league leaders handed to the template *)
Record Leaders := {
  best_scorer : option Player.t;
  best_rebounder : option Player.t;
  assist_leader : option Player.t;
  best_two_pct : option Player.t;
  best_three_pct : option Player.t;
}.

(** [exclude(field__isnull=True)] *)
Definition exclude_null (key : Player.t -> option float) (qs : list Player.t)
  : list Player.t :=
  filter (fun p => match key p with Some _ => true | None => false end) qs.

Definition team_list (players : list Player.t) : Leaders :=
  {| best_scorer := first (order_by (desc Player.points_per_game) players);
     best_rebounder := first (order_by (desc Player.rebounds_per_game) players);
     assist_leader := first (order_by (desc Player.assists_per_game) players);
     best_two_pct :=
       first (order_by (desc Player.two_points_pct)
                       (exclude_null Player.two_points_pct players));
     best_three_pct :=
       first (order_by (desc Player.three_points_pct)
                       (exclude_null Player.three_points_pct players)) |}.

(** *** player_search *)

(** [request.GET.get] *)
Definition QueryDict : Type := string -> option string.

(** [int(s)] for a [str], as the ORM applies it to a primary key; the
    interpreter refuses a text of more than 4300 digits. *)
Definition int_of_str (s : string) : option Z :=
  let '(neg, body) := read_sign (c_strip (to_ascii_number (chars s))) in
  match digitpart body 0 0 with
  | (_, O, _) => None
  | (v, n, EmptyString) =>
      if 4300 <? Z.of_nat n then None else Some (if neg then - v else v)
  | _ => None
  end.

Record Params := {
  min_points : option float;
  min_rebounds : option float;
  min_assists : option float;
  min_minutes : option float;
  min_rating : option float;
  max_fouls : option float;
  min_two_pt : option float;
  min_three_pt : option float;
}.

(** [filter(field__gte=x)] and [filter(field__lte=x)]; NULL never passes. *)
Definition gte (key : Player.t -> option float) (x : float) (p : Player.t) : bool :=
  match key p with Some v => fge v x | None => false end.
Definition lte (key : Player.t -> option float) (x : float) (p : Player.t) : bool :=
  match key p with Some v => fle v x | None => false end.

(** [if bound is not None: players = players.filter(...)] *)
Definition apply (bound : option float) (test : float -> Player.t -> bool)
           (qs : list Player.t) : list Player.t :=
  match bound with
  | Some x => filter (test x) qs
  | None => qs
  end.

Section WithRuntime.
Context {R : Runtime}.

Definition get_float (GET : QueryDict) (name : string) : option float :=
  match GET name with
  | None => None
  | Some val => if String.eqb val "" then None else float_of_str val
  end.

Definition read_params (GET : QueryDict) : Params :=
  {| min_points := get_float GET "min_points";
     min_rebounds := get_float GET "min_rebounds";
     min_assists := get_float GET "min_assists";
     min_minutes := get_float GET "min_minutes";
     min_rating := get_float GET "min_rating";
     max_fouls := get_float GET "max_fouls";
     min_two_pt := get_float GET "min_two_pt";
     min_three_pt := get_float GET "min_three_pt" |}.

Definition default (d : string) (x : option string) : string :=
  match x with Some s => s | None => d end.

Definition player_search (GET : QueryDict) (all_players : list Player.t)
  : result (list Player.t) :=
  let team_id := default "all" (GET "team_id") in
  let position := default "all" (GET "position") in
  let params := read_params GET in
  rbind (if String.eqb team_id "all" then Ok all_players
         else match int_of_str team_id with
              | Some n => Ok (filter (fun p => Z.of_nat (Player.team p) =? n)
                                     all_players)
              | None => Raise ValueError
              end) (fun players =>
  let players :=
    if negb (String.eqb position "") && negb (String.eqb position "all")
    then filter (fun p => String.eqb (Player.position p) position) players
    else players in
  let players := apply (min_points params) (gte Player.points_per_game) players in
  let players := apply (min_rebounds params) (gte Player.rebounds_per_game) players in
  let players := apply (min_assists params) (gte Player.assists_per_game) players in
  let players := apply (min_minutes params) (gte Player.minutes_per_game) players in
  let players := apply (min_rating params) (gte Player.rating) players in
  let players := apply (max_fouls params) (lte Player.fouls_per_game) players in
  let players :=
    apply (option_map (fun x => fdiv x f100) (min_two_pt params))
          (gte Player.two_points_pct) players in
  let players :=
    apply (option_map (fun x => fdiv x f100) (min_three_pt params))
          (gte Player.three_points_pct) players in
  Ok (order_by (desc2 Player.rating Player.points_per_game) players)).
End WithRuntime.
End Views.

(** ** Statements in the words of the specification *)
Module Spec.
Import Py.

(** The float written [0.61]. *)
Definition f061 : float := Eval vm_compute in float_of_decimal false 61 (-2).

(** Clamping to [[0,1]]: what is at most 0 becomes 0, what lies below 1
    is kept, and everything else becomes 1. *)
Definition clamp01 (g : float) : float :=
  if fle g f0 then f0 else if flt g f1 then g else f1.
End Spec.

(** ** Sample data *)
Module Examples.
Import Py.

Definition lakers : Team.t :=
  {| Team.id := 1; Team.name := "Lakers"; Team.logo := None |}.

(** A player of team 1 known by minutes, points, rebounds and assists. *)
Definition player (n : string) (minutes pts reb ast : option Z) : Player.t :=
  {| Player.id := O; Player.team := 1; Player.name := n;
     Player.number := 0; Player.position := "Guard";
     Player.games := Some 0;
     Player.minutes_per_game := option_map float_of_Z minutes;
     Player.points_per_game := option_map float_of_Z pts;
     Player.rebounds_per_game := option_map float_of_Z reb;
     Player.assists_per_game := option_map float_of_Z ast;
     Player.steals_per_game := Some f0;
     Player.blocks_per_game := Some f0;
     Player.fouls_per_game := Some f0;
     Player.turnovers_per_game := Some f0;
     Player.two_points_pct := Some f0;
     Player.three_points_pct := Some f0;
     Player.rating := Some f0 |}.

Definition roster_abc : list Player.t :=
  [ player "A" (Some 30) (Some 20) (Some 5) (Some 3);
    player "B" (Some 25) (Some 10) (Some 12) (Some 2);
    player "C" (Some 20) (Some 8) (Some 4) (Some 9) ].

(** A roster entry whose minutes were left blank. *)
Definition no_minutes : Player.t :=
  player "A" None (Some 20) (Some 5) (Some 3).

(** A service that cannot be reached. *)
Definition unreachable : AiClient.Service :=
  fun _ _ => Raise (ServiceError "connection refused").

(** The same player with both shooting percentages left blank. *)
Definition blank_pct (p : Player.t) : Player.t :=
  {| Player.id := Player.id p; Player.team := Player.team p;
     Player.name := Player.name p; Player.number := Player.number p;
     Player.position := Player.position p; Player.games := Player.games p;
     Player.minutes_per_game := Player.minutes_per_game p;
     Player.points_per_game := Player.points_per_game p;
     Player.rebounds_per_game := Player.rebounds_per_game p;
     Player.assists_per_game := Player.assists_per_game p;
     Player.steals_per_game := Player.steals_per_game p;
     Player.blocks_per_game := Player.blocks_per_game p;
     Player.fouls_per_game := Player.fouls_per_game p;
     Player.turnovers_per_game := Player.turnovers_per_game p;
     Player.two_points_pct := None;
     Player.three_points_pct := None;
     Player.rating := Player.rating p |}.

(** D has no shooting percentages; E has both at 0.0. *)
Definition player_d : Player.t :=
  blank_pct (player "D" (Some 10) (Some 4) (Some 1) (Some 1)).
Definition player_e : Player.t :=
  player "E" (Some 12) (Some 6) (Some 2) (Some 2).

(** A service that answers, with blanks around its text. *)
Definition chatty : AiClient.Service :=
  fun _ _ => Ok "  A balanced team.  ".

(** A player who has not played. *)
Definition bench : Player.t :=
  player "F" (Some 0) (Some 0) (Some 4) (Some 1).

(** A player whose points were left blank. *)
Definition no_points : Player.t :=
  player "G" (Some 5) None (Some 1) (Some 1).
End Examples.

(** ** The fallback report in the words of the specification *)
Module ReportSpec.
Import Py.

(** A statistic that is present. *)
Definition stat (x : option float) : float :=
  match x with Some f => f | None => f0 end.

Definition has_stats (p : Player.t) : Prop :=
  Player.minutes_per_game p <> None /\ Player.points_per_game p <> None
  /\ Player.rebounds_per_game p <> None /\ Player.assists_per_game p <> None.

(** Players with minutes or points above zero, or everybody when there is
    no such player. *)
Definition active_subset (players : list Player.t) : list Player.t :=
  let active :=
    filter (fun p => fgt (stat (Player.minutes_per_game p)) f0
                     || fgt (stat (Player.points_per_game p)) f0) players in
  match active with
  | [] => players
  | _ => active
  end.




End ReportSpec.

(** ** The search in the words of the specification *)
Module SearchSpec.
Import Py Views.


(** The requests [?min_points=0] and [?min_points=nan]. *)
Definition min_points_zero : QueryDict :=
  fun name => if String.eqb name "min_points" then Some "0" else None.
Definition min_points_nan : QueryDict :=
  fun name => if String.eqb name "min_points" then Some "nan" else None.

(** The request [?team_id=all&position=&min_points=15]. *)
Definition default_selectors : QueryDict :=
  fun name => if String.eqb name "team_id" then Some "all"
              else if String.eqb name "position" then Some ""
              else if String.eqb name "min_points" then Some "15" else None.

(** A request without its team and position selectors. *)
Definition without_selectors (GET : QueryDict) : QueryDict :=
  fun name => if String.eqb name "team_id" || String.eqb name "position"
              then None else GET name.


Definition at_least (bound v : option float) : bool :=
  match bound with
  | None => true
  | Some x => match v with Some y => fge y x | None => false end
  end.

Definition at_most (bound v : option float) : bool :=
  match bound with
  | None => true
  | Some x => match v with Some y => fle y x | None => false end
  end.

(** A percentage given on the 0-100 scale, as a fraction. *)
Definition fraction (bound : option float) : option float :=
  option_map (fun x => fdiv x f100) bound.


Section WithRuntime.
Context {R : Runtime}.

(** A threshold is absent when its parameter is missing, empty or not a
    number. *)
Definition threshold (GET : QueryDict) (name : string) : option float :=
  match GET name with
  | None => None
  | Some s => if String.eqb s "" then None else float_of_str s
  end.

Definition in_team (GET : QueryDict) (p : Player.t) : bool :=
  match GET "team_id" with
  | None => true
  | Some s =>
      String.eqb s "all"
      || match int_of_str s with
         | Some n => Z.of_nat (Player.team p) =? n
         | None => false
         end
  end.

Definition in_position (GET : QueryDict) (p : Player.t) : bool :=
  match GET "position" with
  | None => true
  | Some s => String.eqb s "" || String.eqb s "all"
              || String.eqb (Player.position p) s
  end.

Definition meets (GET : QueryDict) (p : Player.t) : bool :=
  at_least (threshold GET "min_points") (Player.points_per_game p)
  && at_least (threshold GET "min_rebounds") (Player.rebounds_per_game p)
  && at_least (threshold GET "min_assists") (Player.assists_per_game p)
  && at_least (threshold GET "min_minutes") (Player.minutes_per_game p)
  && at_least (threshold GET "min_rating") (Player.rating p)
  && at_most (threshold GET "max_fouls") (Player.fouls_per_game p)
  && at_least (fraction (threshold GET "min_two_pt")) (Player.two_points_pct p)
  && at_least (fraction (threshold GET "min_three_pt")) (Player.three_points_pct p).
End WithRuntime.
End SearchSpec.

(** ** The import in the words of the specification *)
Module ImportSpec.
Import Py Models ImportPlayers.

(** A row of the Player table without its identity. *)
Definition erase_id (p : Player.t) : Player.t := Player.with_id O p.

(** Rows get consecutive primary keys. *)
Fixpoint renumber (start : nat) (ps : list Player.t) : list Player.t :=
  match ps with
  | [] => []
  | p :: t => Player.with_id start p :: renumber (S start) t
  end.

(** The table after inserting [ps]. *)
Definition add_players (d : DB) (ps : list Player.t) : DB :=
  {| teams := teams d;
     players := players d ++ renumber (next_player_id d) ps;
     next_team_id := next_team_id d;
     next_player_id := next_player_id d + List.length ps |}.

Definition with_db (w : World) (d : DB) : World := {| db := d; out := out w |}.

Definition named (n : string) (ts : list Team.t) : list Team.t :=
  filter (fun t => String.eqb (Team.name t) n) ts.

(** [get_or_create] on the Team table: the team and the table after it,
    or nothing when several teams have the name. *)
Definition resolve (n : string) (d : DB) : option (Team.t * DB) :=
  match named n (teams d) with
  | [] =>
      let t := {| Team.id := next_team_id d; Team.name := n;
                  Team.logo := None |} in
      Some (t, {| teams := teams d ++ [t]; players := players d;
                  next_team_id := S (next_team_id d);
                  next_player_id := next_player_id d |})
  | [t] => Some (t, d)
  | _ => None
  end.

(** The player's team is a row of the Team table. *)
Definition has_team (ts : list Team.t) (p : Player.t) : Prop :=
  exists t, In t ts /\ Team.id t = Player.team p.

(** Two teams named "Lakers", as the admin site allows. *)
Definition db_two_lakers : DB :=
  {| teams := [ {| Team.id := 1; Team.name := "Lakers"; Team.logo := None |};
                {| Team.id := 2; Team.name := "Lakers"; Team.logo := None |} ];
     players := []; next_team_id := 3; next_player_id := 1 |}.

(** The first refusal among the inserts of [ps], if any. *)
Fixpoint first_error (ps : list Player.t) : option exn :=
  match ps with
  | [] => None
  | p :: t => match insert_error p with
              | Some e => Some e
              | None => first_error t
              end
  end.

Section WithRuntime.
Context {R : Runtime}.

(** The table rows of the sheet rows that have a name. *)
Definition row_players (team : Team.t) (cols : list value)
           (rows : list (list value)) : list Player.t :=
  flat_map (fun cells => match parse_row team cols cells with
                         | Some p => [to_row p]
                         | None => []
                         end) rows.

(** The players a frame yields for a team: none when the frame has no
    name column, else one per row that has a name. *)
Definition sheet_players (df0 : Frame) (team : Team.t) : list Player.t :=
  let df := drop_unnamed df0 in
  if negb (existsb (fun h => mem_str h NAME_KEYS)
                   (map _clean_header (columns df)))
  then []
  else
    let df := drop_empty_names df in
    row_players team (columns df) (rows df).

(** The import as a function of the tables: what one sheet, the sheets
    and the whole command make of them, with the number of players
    inserted. *)
Definition load_sheet (xl : Excel) (opts : Options)
           (sheet : string * list (list value)) (d : DB) : result (nat * DB) :=
  match read_header xl (xlsx_path opts) (fst sheet)
                    (find_header_row (snd sheet)) with
  | Raise e => Raise e
  | Ok df0 =>
      match resolve (strip (fst sheet)) d with
      | None => Raise MultipleObjectsReturned
      | Some (team, d1) =>
          let ps := sheet_players df0 team in
          match first_error ps with
          | None => Ok (List.length ps, add_players d1 ps)
          | Some e => Raise e
          end
      end
  end.

Fixpoint load_sheets (xl : Excel) (opts : Options)
         (sheets : list (string * list (list value))) (d : DB)
  : result (nat * DB) :=
  match sheets with
  | [] => Ok (O, d)
  | sheet :: rest =>
      rbind (load_sheet xl opts sheet d) (fun r1 =>
      rbind (load_sheets xl opts rest (snd r1)) (fun r2 =>
      Ok ((fst r1 + fst r2)%nat, snd r2)))
  end.

Definition clear_players (d : DB) : DB :=
  {| teams := teams d; players := [];
     next_team_id := next_team_id d; next_player_id := next_player_id d |}.

Definition import_db (xl : Excel) (opts : Options) (d : DB) : result DB :=
  match read_raw xl (xlsx_path opts) with
  | Raise _ => Raise CommandError
  | Ok sheets =>
      match load_sheets xl opts sheets
                        (if reset opts then clear_players d else d) with
      | Ok r => Ok (snd r)
      | Raise e => Raise e
      end
  end.
End WithRuntime.

(** A workbook held in memory, read the way pandas reads sheets whose
    header labels are distinct: a blank header cell is labelled
    "Unnamed: j". *)
Definition header_label (j : nat) (c : value) : value :=
  match c with
  | VNone => VStr ("Unnamed: " ++ str_of_Z (Z.of_nat j))
  | VFloat S754_nan => VStr ("Unnamed: " ++ str_of_Z (Z.of_nat j))
  | _ => c
  end.

Fixpoint labels_from (j : nat) (cells : list value) : list value :=
  match cells with
  | [] => []
  | c :: t => header_label j c :: labels_from (S j) t
  end.

Fixpoint find_sheet (name : string) (sheets : list (string * list (list value)))
  : option (list (list value)) :=
  match sheets with
  | [] => None
  | (n, rows) :: t => if String.eqb n name then Some rows else find_sheet name t
  end.

Definition excel_of (sheets : list (string * list (list value))) : Excel :=
  {| read_raw := fun _ => Ok sheets;
     read_header := fun _ name hdr =>
       match find_sheet name sheets with
       | Some raw => Ok {| columns := labels_from O (nth hdr raw []);
                           rows := skipn (S hdr) raw |}
       | None => Raise ValueError
       end |}.

(** A path that cannot be opened. *)
Definition missing_file : Excel :=
  {| read_raw := fun _ => Raise OSError;
     read_header := fun _ _ _ => Raise OSError |}.

Definition options (reset_flag : bool) : Options :=
  {| xlsx_path := "teams.xlsx"; reset := reset_flag; debug := false |}.

(** One team with one player before the import. *)
Definition db0 : DB :=
  {| teams := [ {| Team.id := 1; Team.name := "Old"; Team.logo := None |} ];
     players := [ Player.with_id 1 (Examples.player "Z" (Some 1) (Some 1)
                                                   (Some 1) (Some 1)) ];
     next_team_id := 2; next_player_id := 2 |}.

Definition w0 : World := {| db := db0; out := [] |}.

Definition empty_db : DB :=
  {| teams := []; players := []; next_team_id := 1; next_player_id := 1 |}.

Definition empty_world : World := {| db := empty_db; out := [] |}.

(** A title row, then the header and two players. *)
Definition lakers_sheet : string * list (list value) :=
  ("Lakers ",
   [ [VStr "Lakers 2024"; VFloat S754_nan; VFloat S754_nan];
     [VStr "Player"; VStr "Number"; VStr "PTS"];
     [VStr "A"; VInt 7; VFloat (float_of_Z 20)];
     [VStr "B"; VInt 9; VStr "10,5"] ]).

(** A sheet whose second player has a negative jersey number. *)
Definition bulls_sheet : string * list (list value) :=
  ("Bulls",
   [ [VStr "Name"; VStr "No"; VStr "PPG"];
     [VStr "C"; VInt 3; VInt 8];
     [VStr "D"; VInt (-5); VInt 2] ]).

(** A sheet with no name column. *)
Definition celtics_sheet : string * list (list value) :=
  ("Celtics",
   [ [VStr "Date"; VStr "Opponent"];
     [VStr "2024-01-01"; VStr "Bulls"] ]).
End ImportSpec.

(** ** stats/templatetags/custom_filters.py *)
Module CustomFilters.
Import Py.

Definition fmul : float -> float -> float := SFmul 53 1024.

Section WithRuntime.
Context {R : Runtime}.

(** Only [TypeError] and [ValueError] are caught. *)
Definition mul100 (value : Py.value) : result float :=
  match py_float value with
  | Ok x => Ok (fmul x f100)
  | Raise TypeError => Ok f0
  | Raise ValueError => Ok f0
  | Raise e => Raise e
  end.
End WithRuntime.
End CustomFilters.

(** ** stats/views.py: team_detail *)
Module TeamDetail.
Import Py Models Views.

(** What the view hands to the template. *)
Record Context_ := {
  team : Team.t;
  players : list Player.t;
  scouting_report : string;
  scorers_names : list string;
  scorers_points : list float;
  rebound_names : list string;
  rebound_values : list float;
  pie_labels : list string;
  pie_values : list float;
}.

(** The view answers with a page, with "not found" when
    [get_object_or_404] finds no team, or with the exception that
    escapes it. *)
Inductive response :=
| Page (c : Context_)
| Http404
| Failed (e : exn).

(** [float(x or 0)] *)
Definition float_or0 (x : option float) : float := or0 x.

Definition team_detail (d : DB) (team_id : nat) : response :=
  match find (fun t => Nat.eqb (Team.id t) team_id) (teams d) with
  | None => Http404
  | Some team =>
      let players :=
        filter (fun p => Nat.eqb (Player.team p) (Team.id team)) (Models.players d) in
      let top_scorers := firstn 5 (order_by (desc Player.points_per_game) players) in
      let scorers_names := map Player.name top_scorers in
      let scorers_points :=
        map (fun p => float_or0 (Player.points_per_game p)) top_scorers in
      let top_rebounders :=
        firstn 5 (order_by (desc Player.rebounds_per_game) players) in
      let rebound_names := map Player.name top_rebounders in
      let rebound_values :=
        map (fun p => float_or0 (Player.rebounds_per_game p)) top_rebounders in
      let pie_players := firstn 6 (order_by (desc Player.points_per_game) players) in
      let pie_labels := map Player.name pie_players in
      let pie_values :=
        map (fun p => float_or0 (Player.points_per_game p)) pie_players in
      match build_scouting_report team players with
      | Raise e => Failed e
      | Ok scouting_report =>
          Page {| team := team;
                  players := order_by (desc Player.points_per_game) players;
                  scouting_report := scouting_report;
                  scorers_names := scorers_names;
                  scorers_points := scorers_points;
                  rebound_names := rebound_names;
                  rebound_values := rebound_values;
                  pie_labels := pie_labels;
                  pie_values := pie_values |}
      end
  end.
End TeamDetail.

(** * Properties *)

(** ** Order facts about binary64 comparison *)
Section FloatOrder.
Import Py.

Lemma SFcompare_antisym (x y : float) :
  SFcompare y x = option_map CompOpp (SFcompare x y).
Proof.
  destruct x as [[]|[]| |[] mx ex], y as [[]|[]| |[] my ey];
    simpl; try reflexivity;
    rewrite (Z.compare_antisym ex ey);
    destruct (ex ?= ey); simpl; try reflexivity;
    rewrite ?CompOpp_involutive, ?Pos.compare_cont_antisym; reflexivity.
Qed.

Lemma flt_fle (x y : float) : flt x y = true -> fle x y = true.
Proof.
  unfold flt, fle, SFltb, SFleb.
  destruct (SFcompare x y) as [[]|]; congruence.
Qed.

Lemma flt_not_fle (x y : float) : flt x y = true -> fle y x = false.
Proof.
  unfold flt, fle, SFltb, SFleb. rewrite (SFcompare_antisym x y).
  destruct (SFcompare x y) as [[]|]; simpl; congruence.
Qed.

Lemma fle_not_flt (x y : float) : fle x y = true -> flt y x = false.
Proof.
  unfold flt, fle, SFltb, SFleb. rewrite (SFcompare_antisym x y).
  destruct (SFcompare x y) as [[]|]; simpl; congruence.
Qed.

(** Away from NaN the order is total. *)
Lemma fle_total (x y : float) :
  is_nan x = false -> is_nan y = false -> fle x y = false -> flt y x = true.
Proof.
  unfold flt, fle, SFltb, SFleb. rewrite (SFcompare_antisym x y).
  intros Hx Hy.
  destruct (SFcompare x y) as [[]|] eqn:E; simpl; try congruence.
  destruct x, y; simpl in *; discriminate.
Qed.
End FloatOrder.

(** ** The importer's coercions *)
Section Coercions.
Import Py ImportPlayers Spec.
Context {R : Runtime}.

Lemma max_min_clamp (g : float) : max2 f0 (min2 f1 g) = clamp01 g.
Proof.
  unfold max2, min2, clamp01, fgt.
  destruct g as [[]|[]| |[] m e]; try reflexivity.
  destruct (flt (S754_finite false m e) f1); reflexivity.
Qed.

Lemma clamp01_range (g : float) :
  fle f0 (clamp01 g) = true /\ fle (clamp01 g) f1 = true.
Proof.
  unfold clamp01.
  destruct (fle g f0) eqn:E0; [split; reflexivity|].
  destruct (flt g f1) eqn:E1; [|split; reflexivity].
  split; [|now apply flt_fle].
  destruct g as [[]|[]| |[] m e]; try discriminate; reflexivity.
Qed.

(** C1. [pct01] reads its argument leniently as a float (0.0 when there
    is none), divides by 100 what exceeds 1.0 and clamps to [[0,1]]; the
    result always lies in [[0,1]], and 61 and 0.61 both give 0.61. *)
Theorem pct01_spec (v : value) :
  as_float v f0 =
    match v with
    | VNone => f0
    | VFloat x => if is_nan x then f0 else x
    | VInt z => if is_inf (float_of_Z z) then f0 else float_of_Z z
    | VStr s => match float_of_str (replace_char "," "." (strip s)) with
                | Some x => x
                | None => f0
                end
    end
  /\ pct01 v = clamp01 (if fgt (as_float v f0) f1
                        then fdiv (as_float v f0) f100 else as_float v f0)
  /\ fle f0 (pct01 v) = true /\ fle (pct01 v) f1 = true
  /\ pct01 (VInt 61) = f061 /\ pct01 (VFloat f061) = f061.
Proof.
  assert (Hc : pct01 v = clamp01 (if fgt (as_float v f0) f1
                        then fdiv (as_float v f0) f100 else as_float v f0)).
  { unfold pct01. apply max_min_clamp. }
  split.
  { unfold as_float, py_float, is_float_nan.
    destruct v as [|x|z|s]; simpl; try reflexivity.
    - destruct (is_inf (float_of_Z z)); reflexivity.
    - destruct (float_of_str _); reflexivity. }
  split; [exact Hc|].
  rewrite Hc.
  split; [apply clamp01_range|].
  split; [apply clamp01_range|].
  split; vm_compute; reflexivity.
Qed.
End Coercions.

(** ** Reports on an empty roster *)
Section EmptyRoster.
Import Py AiClient Views Examples.

(** The live report does not repeat the fallback's sentence. *)
Lemma scouting_empty_differs :
  build_scouting_report lakers [] <> _fallback_report lakers [].
Proof. vm_compute. discriminate. Qed.

(** C2, as the code has it.  On an empty roster the fallback report is
    the sentence "No player statistics available yet for {team}." and
    the live report is the sentence "No player data is available yet
    for {team}.". *)
Theorem empty_roster_reports (team : Team.t) :
  _fallback_report team [] =
    Ok ("No player statistics available yet for " ++ Team.name team ++ ".")
  /\ _fallback_report lakers [] =
       Ok "No player statistics available yet for Lakers."
  /\ build_scouting_report team [] =
       Ok ("No player data is available yet for " ++ Team.name team ++ ".")
  /\ build_scouting_report lakers [] =
       Ok "No player data is available yet for Lakers.".
Proof. repeat split. Qed.
End EmptyRoster.

(** ** Header detection *)
Section HeaderRow.
Import Py ImportPlayers.
Context {R : Runtime}.

(** A linear search over [start, start + n). *)
Lemma find_seq (f : nat -> bool) (n start : nat) :
  match find f (seq start n) with
  | Some i => (start <= i < start + n)%nat /\ f i = true
              /\ forall j, (start <= j < i)%nat -> f j = false
  | None => forall j, (start <= j < start + n)%nat -> f j = false
  end.
Proof.
  revert start. induction n as [|n IH]; intros start; simpl.
  - intros j Hj. lia.
  - destruct (f start) eqn:E.
    + repeat split; try lia; exact E.
    + specialize (IH (S start)).
      destruct (find f (seq (S start) n)) as [i|].
      * destruct IH as (Hi & Hf & Hlt). repeat split; try lia; [exact Hf|].
        intros j Hj. destruct (Nat.eq_dec j start) as [->|Hne];
          [exact E | apply Hlt; lia].
      * intros j Hj. destruct (Nat.eq_dec j start) as [->|Hne];
          [exact E | apply IH; lia].
Qed.

Lemma mem_str_In (s : string) (l : list string) :
  mem_str s l = true <-> In s l.
Proof.
  unfold mem_str. rewrite existsb_exists. split.
  - intros (x & Hx & E). apply String.eqb_eq in E. now subst.
  - intros H. exists s. split; [exact H | apply String.eqb_refl].
Qed.

Lemma is_name_row_spec (row : list value) :
  is_name_row row = true <->
  exists c, In c row /\ In (lower (strip (py_str c))) NAME_KEYS.
Proof.
  unfold is_name_row. rewrite existsb_exists. split.
  - intros (h & Hh & Hm). apply in_map_iff in Hh. destruct Hh as (c & <- & Hc).
    exists c. split; [exact Hc | now apply mem_str_In].
  - intros (c & Hc & Hk). exists (_clean_header c). split.
    + apply in_map. exact Hc.
    + now apply mem_str_In.
Qed.

(** C4. Header detection looks at the first [min(10, number of rows)]
    rows only and returns the index of the first of them that has a cell
    whose trimmed, lower-cased text is a name label, or 0 when none has;
    with three rows of noise and then a row holding the cell "Player" it
    returns 3. *)
Theorem find_header_row_spec (df : list (list value)) :
  let window := Nat.min 10 (List.length df) in
  ((exists i, (i < window)%nat
              /\ is_name_row (nth i df []) = true
              /\ (forall j, (j < i)%nat -> is_name_row (nth j df []) = false)
              /\ find_header_row df = i)
   \/ ((forall j, (j < window)%nat -> is_name_row (nth j df []) = false)
       /\ find_header_row df = O))
  /\ (forall row, is_name_row row = true <->
        exists c, In c row /\ In (lower (strip (py_str c))) NAME_KEYS)
  /\ (forall r0 r1 r2 r3 rest,
        df = r0 :: r1 :: r2 :: r3 :: rest ->
        is_name_row r0 = false -> is_name_row r1 = false ->
        is_name_row r2 = false -> In (VStr "Player") r3 ->
        find_header_row df = 3%nat).
Proof.
  intros window.
  assert (G : (exists i, (i < window)%nat
              /\ is_name_row (nth i df []) = true
              /\ (forall j, (j < i)%nat -> is_name_row (nth j df []) = false)
              /\ find_header_row df = i)
   \/ ((forall j, (j < window)%nat -> is_name_row (nth j df []) = false)
       /\ find_header_row df = O)).
  { unfold find_header_row. fold window.
    pose proof (find_seq (fun i => is_name_row (nth i df [])) window 0) as H.
    destruct (find _ (seq 0 window)) as [i|].
    - left. exists i. destruct H as (Hi & Hf & Hlt).
      repeat split; try lia; [exact Hf|]. intros j Hj. apply Hlt. lia.
    - right. split; [|reflexivity]. intros j Hj. apply H. lia. }
  split; [exact G|]. split; [exact is_name_row_spec|].
  intros r0 r1 r2 r3 rest -> H0 H1 H2 H3.
  assert (H3' : is_name_row r3 = true).
  { apply is_name_row_spec. exists (VStr "Player"). split; [exact H3|].
    vm_compute. tauto. }
  unfold find_header_row. simpl List.length.
  assert (W : Nat.min 10 (S (S (S (S (List.length rest))))) =
              S (S (S (S (Nat.min 6 (List.length rest)))))) by lia.
  rewrite W. simpl. rewrite H0, H1, H2, H3'. reflexivity.
Qed.

End HeaderRow.

Lemma find_header_row_spec_witness :
  @ImportPlayers.find_header_row Py.ascii_runtime
    [ [Py.VStr "League report"; Py.VFloat S754_nan];
      [Py.VFloat S754_nan; Py.VFloat S754_nan];
      [Py.VStr "Season"; Py.VInt 2024];
      [Py.VStr "Player"; Py.VStr "PTS"];
      [Py.VStr "A"; Py.VInt 20] ] = 3%nat.
Proof.
  eapply (proj2 (proj2 (@find_header_row_spec Py.ascii_runtime _))).
  - reflexivity.
  - vm_compute. reflexivity.
  - vm_compute. reflexivity.
  - vm_compute. reflexivity.
  - simpl. left. reflexivity.
Defined.

(** ** Transitivity of binary64 comparison *)
Section FloatTransitivity.
Import Py.

Ltac compare_cases :=
  repeat match goal with
    | |- context [Z.compare ?a ?b] => destruct (Z.compare_spec a b)
    | |- context [Pos.compare_cont Eq ?a ?b] =>
        change (Pos.compare_cont Eq a b) with (Pos.compare a b);
        destruct (Pos.compare_spec a b)
    end.



End FloatTransitivity.

(** ** The deterministic fallback report *)
Section FallbackReport.
Import Py AiClient ReportSpec Examples.




Lemma filter_r_active (players : list Player.t) :
  Forall has_stats players ->
  filter_r is_active players =
    Ok (filter (fun p => fgt (stat (Player.minutes_per_game p)) f0
                         || fgt (stat (Player.points_per_game p)) f0) players).
Proof.
  induction 1 as [|p t Hp _ IH]; [reflexivity|].
  simpl. rewrite IH. destruct Hp as (Hm & Hpt & _).
  unfold is_active, gt0.
  destruct (Player.minutes_per_game p) as [m|]; [|congruence].
  destruct (Player.points_per_game p) as [pt|]; [|congruence].
  simpl. destruct (fgt m f0); simpl; [reflexivity|].
  destruct (fgt pt f0); reflexivity.
Qed.

Lemma active_subset_incl (players : list Player.t) :
  incl (active_subset players) players.
Proof.
  unfold active_subset. intros p Hp.
  destruct (filter _ players) as [|a l] eqn:E; [exact Hp|].
  rewrite <- E in Hp. apply filter_In in Hp. tauto.
Qed.

Lemma active_subset_nonempty (players : list Player.t) :
  players <> [] -> active_subset players <> [].
Proof.
  unfold active_subset. intros H.
  destruct (filter _ players); [exact H | discriminate].
Qed.

Ltac ok_step := change (rbind (Ok ?a) ?k) with (k a); cbv beta.




End FallbackReport.


(** ** generate_team_report *)
Section GenerateReport.
Import Py AiClient ReportSpec Examples.

(** Without a key, and whenever the [try] block raises or reads a blank
    text, the result is whatever the fallback generator gives. *)
Lemma generate_team_report_fallback (st : Settings) (svc : Service)
      (team : Team.t) (players : list Player.t) :
  (key_set st = None ->
   generate_team_report st svc team players = _fallback_report team players)
  /\ (forall key e,
        key_set st = Some key ->
        ask_service svc key team players = Raise e ->
        generate_team_report st svc team players = _fallback_report team players)
  /\ (forall key lines text,
        key_set st = Some key ->
        map_r roster_line players = Ok lines ->
        svc key (prompt_for team (match lines with
                                  | [] => "No players."
                                  | _ => join nl lines
                                  end)) = Ok text ->
        strip text = "" ->
        generate_team_report st svc team players = _fallback_report team players).
Proof.
  unfold generate_team_report. repeat split.
  - intros ->. reflexivity.
  - intros key e -> ->. reflexivity.
  - intros key lines text -> Hl Hs Hb. unfold ask_service.
    rewrite Hl. simpl. rewrite Hs. simpl. rewrite Hb. simpl.
    destruct (_fallback_report team players); reflexivity.
Qed.


(** C6, at the input where it fails.  With no key configured, and also
    with a key and a service that raises, a player whose minutes are
    absent makes [generate_team_report] raise [TypeError] instead of
    returning a text. *)
Theorem generate_team_report_raises :
  generate_team_report {| OPENAI_API_KEY := None |} unreachable
                       lakers [no_minutes] = Raise TypeError
  /\ generate_team_report {| OPENAI_API_KEY := Some "sk-test" |} unreachable
                          lakers [no_minutes] = Raise TypeError
  /\ _fallback_report lakers [no_minutes] = Raise TypeError.
Proof. repeat split. Qed.
End GenerateReport.

(** ** Ordered querysets *)
Section OrderBy.
Import Py Views.
Variable A : Type.
Variable geq : A -> A -> bool.
Hypothesis geq_total : forall a b, geq a b = true \/ geq b a = true.
Hypothesis geq_trans :
  forall a b c, geq a b = true -> geq b c = true -> geq a c = true.

Let before (a b : A) : Prop := geq a b = true.

Lemma insert_by_perm (x : A) (l : list A) :
  Permutation (x :: l) (insert_by geq x l).
Proof.
  induction l as [|y r IH]; simpl; [apply Permutation_refl|].
  destruct (geq x y); [apply Permutation_refl|].
  eapply perm_trans; [apply perm_swap|]. now apply perm_skip.
Qed.

Lemma order_by_perm (l : list A) : Permutation l (order_by geq l).
Proof.
  induction l as [|x r IH]; simpl; [constructor|].
  eapply perm_trans; [|apply insert_by_perm]. now apply perm_skip.
Qed.

Lemma insert_by_sorted (x : A) (l : list A) :
  StronglySorted before l -> StronglySorted before (insert_by geq x l).
Proof.
  induction 1 as [|y r Hr IH Hy]; simpl.
  - constructor; constructor.
  - destruct (geq x y) eqn:E.
    + constructor; [constructor; assumption|].
      constructor; [exact E|].
      rewrite Forall_forall in *. intros z Hz. unfold before.
      eapply geq_trans; [exact E | now apply Hy].
    + constructor; [exact IH|].
      assert (Hyx : geq y x = true) by (destruct (geq_total x y); congruence).
      rewrite Forall_forall in *. intros z Hz.
      apply (Permutation_in _ (Permutation_sym (insert_by_perm x r))) in Hz.
      destruct Hz as [<-|Hz]; [exact Hyx | now apply Hy].
Qed.

Lemma order_by_sorted (l : list A) : StronglySorted before (order_by geq l).
Proof.
  induction l as [|x r IH]; simpl; [constructor|].
  now apply insert_by_sorted.
Qed.

(** The first row of an ordered queryset ranks at least as high as every
    row of the queryset. *)
Lemma first_order_by (l : list A) :
  match first (order_by geq l) with
  | Some p => In p l /\ forall q, In q l -> geq p q = true
  | None => l = []
  end.
Proof.
  pose proof (order_by_perm l) as P. pose proof (order_by_sorted l) as S.
  destruct (order_by geq l) as [|p r]; simpl.
  - now apply Permutation_sym, Permutation_nil in P.
  - split.
    + apply (Permutation_in _ (Permutation_sym P)). now left.
    + intros q Hq. apply (Permutation_in _ P) in Hq.
      inversion S as [|? ? _ Hall]; subst.
      destruct Hq as [<-|Hq].
      * destruct (geq_total p p); assumption.
      * rewrite Forall_forall in Hall. now apply Hall.
Qed.
End OrderBy.

(** ** The order of SQL keys *)
Section KeyOrder.
Import Py Views.

Ltac compare_cases :=
  repeat match goal with
    | |- context [Z.compare ?a ?b] => destruct (Z.compare_spec a b)
    | |- context [Pos.compare_cont Eq ?a ?b] =>
        change (Pos.compare_cont Eq a b) with (Pos.compare a b);
        destruct (Pos.compare_spec a b)
    end.

Lemma fle_trans (a b c : float) :
  fle a b = true -> fle b c = true -> fle a c = true.
Proof.
  unfold fle, SFleb.
  destruct a as [[]|[]| |[] ma ea], b as [[]|[]| |[] mb eb],
           c as [[]|[]| |[] mc ec]; simpl; try congruence;
    compare_cases; simpl; intros; subst;
    try congruence; try reflexivity; exfalso; lia.
Qed.

Lemma num_le_total (x y : float) : num_le x y = true \/ num_le y x = true.
Proof.
  unfold num_le. destruct (is_nan x) eqn:Nx; [now left|].
  destruct (is_nan y) eqn:Ny; [now right|].
  destruct (fle x y) eqn:E; [now left|]. right.
  apply flt_fle. now apply fle_total.
Qed.

Lemma num_le_trans (x y z : float) :
  num_le x y = true -> num_le y z = true -> num_le x z = true.
Proof.
  unfold num_le. destruct (is_nan x); [reflexivity|].
  destruct (is_nan y); [discriminate|].
  destruct (is_nan z); [discriminate|]. apply fle_trans.
Qed.

Lemma key_le_total (a b : option float) : key_le a b = true \/ key_le b a = true.
Proof.
  destruct a as [x|], b as [y|]; simpl; auto. apply num_le_total.
Qed.

Lemma key_le_trans (a b c : option float) :
  key_le a b = true -> key_le b c = true -> key_le a c = true.
Proof.
  destruct a as [x|], b as [y|], c as [z|]; simpl; try congruence.
  apply num_le_trans.
Qed.

Lemma desc_total (key : Player.t -> option float) (x y : Player.t) :
  desc key x y = true \/ desc key y x = true.
Proof. unfold desc. apply key_le_total. Qed.

Lemma desc_trans (key : Player.t -> option float) (x y z : Player.t) :
  desc key x y = true -> desc key y z = true -> desc key x z = true.
Proof. unfold desc. intros H1 H2. eapply key_le_trans; eassumption. Qed.


End KeyOrder.

(** ** League-wide shooting leaders *)
Section ShootingLeaders.
Import Py Views Examples.

Lemma key_le_not_fgt (w v : float) :
  key_le (Some w) (Some v) = true -> fgt w v = false.
Proof.
  simpl. unfold num_le, fgt.
  destruct w; simpl; try (intros _; destruct v; reflexivity);
    destruct v; simpl; try discriminate; intros H;
    now apply fle_not_flt.
Qed.

(** The leader of a nullable column: a row of the table whose value is
    present and is exceeded by no present value; none when every value
    is absent. *)
Lemma leader_of_present (key : Player.t -> option float) (players : list Player.t) :
  match first (order_by (desc key) (exclude_null key players)) with
  | Some p => In p players
              /\ exists v, key p = Some v
                   /\ forall q w, In q players -> key q = Some w -> fgt w v = false
  | None => forall q, In q players -> key q = None
  end.
Proof.
  pose proof (first_order_by _ (desc key) (desc_total key) (desc_trans key)
                             (exclude_null key players)) as H.
  destruct (first _) as [p|].
  - destruct H as (Hin & Hmax). unfold exclude_null in Hin, Hmax.
    apply filter_In in Hin. destruct Hin as (Hin & Hp).
    split; [exact Hin|].
    destruct (key p) as [v|] eqn:Ev; [|discriminate].
    exists v. split; [reflexivity|]. intros q w Hq Ew.
    assert (Hq' : In q (filter (fun p0 => match key p0 with
                                          | Some _ => true
                                          | None => false
                                          end) players)).
    { apply filter_In. split; [exact Hq|]. now rewrite Ew. }
    specialize (Hmax q Hq'). unfold desc in Hmax. rewrite Ew, Ev in Hmax.
    now apply key_le_not_fgt.
  - intros q Hq. destruct (key q) as [w|] eqn:Ew; [|reflexivity].
    assert (Hq' : In q (exclude_null key players)).
    { apply filter_In. split; [exact Hq|]. now rewrite Ew. }
    rewrite H in Hq'. destruct Hq'.
Qed.

(** C9. The league's two-point and three-point leaders are rows whose
    percentage is present and is exceeded by no other present percentage;
    a player whose percentage is absent is never the leader, even where
    counting the absence as zero would put that player first. *)
Theorem shooting_leaders_spec (players : list Player.t) :
  match best_two_pct (team_list players) with
  | Some p => In p players
              /\ exists v, Player.two_points_pct p = Some v
                   /\ forall q w, In q players ->
                                  Player.two_points_pct q = Some w ->
                                  fgt w v = false
  | None => forall q, In q players -> Player.two_points_pct q = None
  end
  /\ match best_three_pct (team_list players) with
     | Some p => In p players
                 /\ exists v, Player.three_points_pct p = Some v
                      /\ forall q w, In q players ->
                                     Player.three_points_pct q = Some w ->
                                     fgt w v = false
     | None => forall q, In q players -> Player.three_points_pct q = None
     end
  /\ best_two_pct (team_list [player_d; player_e]) = Some player_e
  /\ best_three_pct (team_list [player_d; player_e]) = Some player_e
  /\ best_two_pct (team_list [player_d]) = None
  /\ best_three_pct (team_list [player_d]) = None.
Proof.
  split; [apply (leader_of_present Player.two_points_pct)|].
  split; [apply (leader_of_present Player.three_points_pct)|].
  repeat split.
Qed.
End ShootingLeaders.

(** ** Player search *)
Section PlayerSearch.
Import Py Views SearchSpec.
Context {R : Runtime}.

Lemma filter_filter {A} (f g : A -> bool) (l : list A) :
  filter g (filter f l) = filter (fun x => f x && g x) l.
Proof.
  induction l as [|x r IH]; [reflexivity|]. simpl.
  destruct (f x); simpl; [destruct (g x)|]; now rewrite IH.
Qed.

Lemma filter_all {A} (l : list A) : filter (fun _ => true) l = l.
Proof. induction l as [|x r IH]; [reflexivity|]. simpl. now rewrite IH. Qed.

Lemma apply_at_least (bound : option float) (key : Player.t -> option float)
      (qs : list Player.t) :
  apply bound (gte key) qs = filter (fun p => at_least bound (key p)) qs.
Proof. destruct bound; simpl; [reflexivity | now rewrite filter_all]. Qed.

Lemma apply_at_most (bound : option float) (key : Player.t -> option float)
      (qs : list Player.t) :
  apply bound (lte key) qs = filter (fun p => at_most bound (key p)) qs.
Proof. destruct bound; simpl; [reflexivity | now rewrite filter_all]. Qed.

(** The chain of queryset filters is one selection. *)
Lemma player_search_selects (GET : QueryDict) (all_players : list Player.t) :
  match player_search GET all_players with
  | Ok result =>
      result = order_by (desc2 Player.rating Player.points_per_game)
                 (filter (fun p => in_team GET p && in_position GET p && meets GET p)
                         all_players)
  | Raise e =>
      exists s, GET "team_id" = Some s /\ s <> "all" /\ int_of_str s = None
  end.
Proof.
  assert (Hchain : forall scope : list Player.t,
    order_by (desc2 Player.rating Player.points_per_game)
      (apply (option_map (fun x => fdiv x f100) (get_float GET "min_three_pt"))
         (gte Player.three_points_pct)
      (apply (option_map (fun x => fdiv x f100) (get_float GET "min_two_pt"))
         (gte Player.two_points_pct)
      (apply (get_float GET "max_fouls") (lte Player.fouls_per_game)
      (apply (get_float GET "min_rating") (gte Player.rating)
      (apply (get_float GET "min_minutes") (gte Player.minutes_per_game)
      (apply (get_float GET "min_assists") (gte Player.assists_per_game)
      (apply (get_float GET "min_rebounds") (gte Player.rebounds_per_game)
      (apply (get_float GET "min_points") (gte Player.points_per_game)
             scope))))))))
    = order_by (desc2 Player.rating Player.points_per_game)
        (filter (meets GET) scope)).
  { intros scope. f_equal.
    rewrite !apply_at_least, apply_at_most, !filter_filter.
    apply filter_ext. intros p. unfold meets.
    rewrite !andb_assoc. reflexivity. }
  unfold player_search, default, read_params.
  cbn [min_points min_rebounds min_assists min_minutes min_rating max_fouls
       min_two_pt min_three_pt].
  unfold in_team, in_position.
  destruct (GET "team_id") as [tid|] eqn:Et.
  - destruct (String.eqb tid "all") eqn:Eall.
    + cbv beta iota zeta delta [rbind]. rewrite Hchain.
      destruct (GET "position") as [pos|].
      * destruct (String.eqb pos ""); [|destruct (String.eqb pos "all")];
          cbn [negb andb orb]; rewrite ?filter_filter; f_equal.
      * replace (String.eqb "all" "") with false by reflexivity.
        replace (String.eqb "all" "all") with true by reflexivity.
        cbn [negb andb orb]. reflexivity.
    + destruct (int_of_str tid) as [n|] eqn:En.
      * cbv beta iota zeta delta [rbind]. rewrite Hchain.
        destruct (GET "position") as [pos|].
        -- destruct (String.eqb pos ""); [|destruct (String.eqb pos "all")];
             cbn [negb andb orb]; rewrite ?filter_filter; f_equal;
             apply filter_ext; intros p;
             rewrite ?andb_assoc, ?andb_true_r; reflexivity.
        -- replace (String.eqb "all" "") with false by reflexivity.
           replace (String.eqb "all" "all") with true by reflexivity.
           cbn [negb andb orb]. rewrite ?filter_filter. f_equal.
           apply filter_ext. intros p.
           rewrite ?andb_assoc, ?andb_true_r. reflexivity.
      * cbv beta iota zeta delta [rbind].
        exists tid. repeat split; [|exact En].
        intros ->. discriminate.
  - replace (String.eqb "all" "all") with true by reflexivity.
    cbv beta iota zeta delta [rbind]. rewrite Hchain.
    destruct (GET "position") as [pos|].
    + destruct (String.eqb pos ""); [|destruct (String.eqb pos "all")];
        cbn [negb andb orb]; rewrite ?filter_filter; f_equal.
    + replace (String.eqb "all" "") with false by reflexivity.
      replace (String.eqb "all" "all") with true by reflexivity.
      cbn [negb andb orb]. reflexivity.
Qed.
End PlayerSearch.


(** ** The import is all or nothing *)
Section Atomicity.
Import Py Models ImportPlayers ImportSpec.
Context {R : Runtime}.

Lemma atomic_rolls_back {A} (body : M A) (w w' : World) (e : exn) :
  atomic body w = (Raise e, w') -> db w' = db w.
Proof.
  unfold atomic. destruct (body w) as [[a|e'] w1]; intros H; inversion H.
  reflexivity.
Qed.

Lemma handle_unreadable (xl : Excel) (opts : Options) (w : World) (e : exn) :
  read_raw xl (xlsx_path opts) = Raise e ->
  handle xl opts w = (Raise CommandError, w).
Proof.
  intros H. unfold handle, atomic, handle_body, bind, lift. rewrite H.
  destruct w; reflexivity.
Qed.
End Atomicity.

(** C7. Whenever the import raises, the Team and Player tables are what
    they were before it started; a workbook that cannot be read raises a
    command error and changes nothing.  On the sample workbook whose last
    row has a negative jersey number the body had already deleted the old
    players and inserted three new ones when the error came, and none of
    it is left. *)
Theorem handle_all_or_nothing {R : Py.Runtime} (xl : ImportPlayers.Excel)
        (opts : ImportPlayers.Options) (w : Models.World) :
  (forall e w', ImportPlayers.handle xl opts w = (Py.Raise e, w') ->
                Models.db w' = Models.db w)
  /\ (forall e, ImportPlayers.read_raw xl (ImportPlayers.xlsx_path opts) = Py.Raise e ->
                ImportPlayers.handle xl opts w = (Py.Raise Py.CommandError, w))
  /\ (let xl' := ImportSpec.excel_of [ImportSpec.lakers_sheet; ImportSpec.bulls_sheet] in
      let body := @ImportPlayers.handle_body Py.ascii_runtime xl'
                    (ImportSpec.options true) ImportSpec.w0 in
      let run := @ImportPlayers.handle Py.ascii_runtime xl'
                   (ImportSpec.options true) ImportSpec.w0 in
      fst body = Py.Raise Py.IntegrityError
      /\ map Player.name (Models.players (Models.db (snd body))) = ["A"; "B"; "C"]
      /\ fst run = Py.Raise Py.IntegrityError
      /\ Models.db (snd run) = ImportSpec.db0).
Proof.
  split; [|split].
  - intros e w'. apply atomic_rolls_back.
  - intros e. apply handle_unreadable.
  - vm_compute. repeat split.
Qed.

Lemma handle_all_or_nothing_witness :
  Models.db (snd (@ImportPlayers.handle Py.ascii_runtime ImportSpec.missing_file
                    (ImportSpec.options true) ImportSpec.w0))
  = Models.db ImportSpec.w0.
Proof.
  apply (proj1 (@handle_all_or_nothing Py.ascii_runtime ImportSpec.missing_file
                  (ImportSpec.options true) ImportSpec.w0) Py.CommandError).
  reflexivity.
Defined.

(** ** What the import writes *)
Section ImportEffects.
Import Py Models ImportPlayers ImportSpec.
Context {R : Runtime}.

Lemma add_players_nil (d : DB) : add_players d [] = d.
Proof.
  destruct d. unfold add_players. simpl. now rewrite app_nil_r, Nat.add_0_r.
Qed.

Lemma add_players_cons (d : DB) (p : Player.t) (ps : list Player.t) :
  add_players (add_players d [p]) ps = add_players d (p :: ps).
Proof.
  unfold add_players. simpl. rewrite <- app_assoc. simpl.
  rewrite !Nat.add_1_r, Nat.add_succ_r. reflexivity.
Qed.

Lemma with_db_same (w : World) : with_db w (db w) = w.
Proof. destruct w. reflexivity. Qed.

Lemma insert_error_row (p : Player.t) :
  insert_error (to_row p) = insert_error p.
Proof. reflexivity. Qed.

Lemma create_player_effect (p : Player.t) (w : World) :
  create_player p w =
    match insert_error p with
    | Some e => (Raise e, w)
    | None => (Ok (Player.with_id (next_player_id (db w)) p),
               with_db w (add_players (db w) [to_row p]))
    end.
Proof.
  unfold create_player. destruct (insert_error p); [reflexivity|].
  unfold bind, get_db, put_db, ret, with_db, add_players. simpl.
  rewrite Nat.add_1_r. reflexivity.
Qed.

Lemma for_each_cons {A S} (x : A) (rest : list A) (body : A -> S -> M S)
      (acc : S) (w : World) :
  for_each (x :: rest) body acc w =
    match body x acc w with
    | (Ok a, w') => for_each rest body a w'
    | (Raise e, w') => (Raise e, w')
    end.
Proof. reflexivity. Qed.

Lemma import_row_effect (team : Team.t) (cols cells : list value)
      (counts : nat * nat) (w : World) :
  import_row team cols cells counts w =
    match parse_row team cols cells with
    | None => (Ok counts, w)
    | Some p =>
        match insert_error p with
        | Some e => (Raise e, w)
        | None => (Ok (S (fst counts), S (snd counts)),
                   with_db w (add_players (db w) [to_row p]))
        end
    end.
Proof.
  unfold import_row. destruct (parse_row team cols cells) as [p|];
    [|reflexivity].
  unfold bind. rewrite create_player_effect.
  destruct (insert_error p); reflexivity.
Qed.

(** The row loop inserts the rows of the players, or stops at the first
    insert the engine refuses. *)
Lemma import_rows_effect (team : Team.t) (cols : list value)
      (rows : list (list value)) :
  forall (counts : nat * nat) (w : World),
    match first_error (row_players team cols rows) with
    | None =>
      for_each rows (import_row team cols) counts w =
        (Ok ((fst counts + List.length (row_players team cols rows))%nat,
             (snd counts + List.length (row_players team cols rows))%nat),
         with_db w (add_players (db w) (row_players team cols rows)))
    | Some e =>
      exists w', for_each rows (import_row team cols) counts w = (Raise e, w')
                 /\ teams (db w') = teams (db w)
    end.
Proof.
  induction rows as [|cells rest IH]; intros counts w.
  - simpl. rewrite add_players_nil, with_db_same, !Nat.add_0_r.
    destruct counts; reflexivity.
  - rewrite for_each_cons, import_row_effect.
    change (row_players team cols (cells :: rest))
      with ((match parse_row team cols cells with
             | Some p => [to_row p]
             | None => []
             end ++ row_players team cols rest)%list).
    destruct (parse_row team cols cells) as [p|] eqn:E.
    + change (([to_row p] ++ row_players team cols rest)%list)
        with (to_row p :: row_players team cols rest).
      change (first_error (to_row p :: row_players team cols rest))
        with (match insert_error (to_row p) with
              | Some e => Some e
              | None => first_error (row_players team cols rest)
              end).
      rewrite insert_error_row.
      destruct (insert_error p) as [e|] eqn:N.
      * exists w. split; reflexivity.
      * specialize (IH (S (fst counts), S (snd counts))
                       (with_db w (add_players (db w) [to_row p]))).
        destruct (first_error (row_players team cols rest)).
        -- destruct IH as (w' & Hw & Ht). exists w'. split; [exact Hw|].
           rewrite Ht. reflexivity.
        -- rewrite IH. simpl. rewrite add_players_cons, !Nat.add_succ_r.
           reflexivity.
    + apply IH.
Qed.

Lemma get_or_create_effect (n : string) (w : World) :
  get_or_create_team n w =
    match named n (teams (db w)) with
    | [] =>
        let t := {| Team.id := next_team_id (db w); Team.name := n;
                    Team.logo := None |} in
        (Ok t, with_db w {| teams := teams (db w) ++ [t];
                            players := players (db w);
                            next_team_id := S (next_team_id (db w));
                            next_player_id := next_player_id (db w) |})
    | [t] => (Ok t, w)
    | _ => (Raise MultipleObjectsReturned, w)
    end.
Proof.
  unfold get_or_create_team, bind, get_db, named.
  destruct (filter _ (teams (db w))) as [|t [|t' r]]; reflexivity.
Qed.
Lemma bind_run {A B} (m : M A) (k : A -> M B) (w : World) :
  bind m k w = match m w with
               | (Ok a, w') => k a w'
               | (Raise e, w') => (Raise e, w')
               end.
Proof. reflexivity. Qed.

Lemma get_or_create_resolve (n : string) (w : World) :
  get_or_create_team n w =
    match resolve n (db w) with
    | Some (t, d) => (Ok t, with_db w d)
    | None => (Raise MultipleObjectsReturned, w)
    end.
Proof.
  rewrite get_or_create_effect. unfold resolve.
  destruct (named n (teams (db w))) as [|t [|t' r]]; try reflexivity.
  now rewrite with_db_same.
Qed.

(** One sheet: the frame is read, the team is found or made, and the
    players of the frame are inserted. *)
Lemma import_sheet_effect (xl : Excel) (opts : Options)
      (sheet : string * list (list value)) (total : nat) (w : World) :
  let r := import_sheet xl opts sheet total w in
  match read_header xl (xlsx_path opts) (fst sheet)
                    (find_header_row (snd sheet)) with
  | Raise e => fst r = Raise e /\ db (snd r) = db w
  | Ok df0 =>
      match resolve (strip (fst sheet)) (db w) with
      | None => fst r = Raise MultipleObjectsReturned /\ db (snd r) = db w
      | Some (team, d) =>
          match first_error (sheet_players df0 team) with
          | None =>
            fst r = Ok (total + List.length (sheet_players df0 team))%nat
            /\ db (snd r) = add_players d (sheet_players df0 team)
          | Some e => fst r = Raise e /\ teams (db (snd r)) = teams d
          end
      end
  end.
Proof.
  cbv zeta. unfold import_sheet. rewrite bind_run. unfold lift.
  destruct (read_header xl (xlsx_path opts) (fst sheet)
                        (find_header_row (snd sheet))) as [df0|e];
    [|split; reflexivity].
  rewrite bind_run.
  set (w1 := snd ((if debug opts
                   then write (MsgDebug (fst sheet) (find_header_row (snd sheet))
                                        (columns (drop_unnamed df0)))
                   else ret tt) w)).
  assert (E1 : (if debug opts
                then write (MsgDebug (fst sheet) (find_header_row (snd sheet))
                                     (columns (drop_unnamed df0)))
                else ret tt) w = (Ok tt, w1))
    by (unfold w1; destruct (debug opts); reflexivity).
  assert (D1 : db w1 = db w) by (unfold w1; destruct (debug opts); reflexivity).
  rewrite E1, bind_run, get_or_create_resolve, D1.
  destruct (resolve (strip (fst sheet)) (db w)) as [[team d]|];
    [|split; [reflexivity | exact D1]].
  unfold sheet_players.
  destruct (negb (existsb (fun h => mem_str h NAME_KEYS)
                          (map _clean_header (columns (drop_unnamed df0))))).
  - simpl. rewrite add_players_nil, Nat.add_0_r. split; reflexivity.
  - cbv zeta. rewrite bind_run.
    pose proof (import_rows_effect team
                  (columns (drop_empty_names (drop_unnamed df0)))
                  (rows (drop_empty_names (drop_unnamed df0)))
                  (O, total) (with_db w1 d)) as H.
    destruct (first_error _).
    + destruct H as (w' & Hw & Ht). rewrite Hw. simpl.
      split; [reflexivity | exact Ht].
    + rewrite H. simpl. split; reflexivity.
Qed.
Lemma load_sheet_run (xl : Excel) (opts : Options)
      (sheet : string * list (list value)) (total : nat) (w : World) :
  match load_sheet xl opts sheet (db w) with
  | Ok r => fst (import_sheet xl opts sheet total w) = Ok (total + fst r)%nat
            /\ db (snd (import_sheet xl opts sheet total w)) = snd r
  | Raise e => fst (import_sheet xl opts sheet total w) = Raise e
  end.
Proof.
  pose proof (import_sheet_effect xl opts sheet total w) as H. cbv zeta in H.
  unfold load_sheet.
  destruct (read_header xl (xlsx_path opts) (fst sheet)
                        (find_header_row (snd sheet))) as [df0|e];
    [|apply H].
  destruct (resolve (strip (fst sheet)) (db w)) as [[team d]|]; [|apply H].
  cbv zeta. destruct (first_error (sheet_players df0 team)); [apply H | exact H].
Qed.

(** The sheet loop computes [load_sheets]. *)
Lemma load_sheets_run (xl : Excel) (opts : Options)
      (sheets : list (string * list (list value))) :
  forall (total : nat) (w : World),
    match load_sheets xl opts sheets (db w) with
    | Ok r =>
        fst (for_each sheets (import_sheet xl opts) total w) = Ok (total + fst r)%nat
        /\ db (snd (for_each sheets (import_sheet xl opts) total w)) = snd r
    | Raise e => fst (for_each sheets (import_sheet xl opts) total w) = Raise e
    end.
Proof.
  induction sheets as [|sheet rest IH]; intros total w.
  - simpl. rewrite Nat.add_0_r. split; reflexivity.
  - rewrite for_each_cons. simpl load_sheets.
    pose proof (load_sheet_run xl opts sheet total w) as H.
    destruct (load_sheet xl opts sheet (db w)) as [[n d1]|e]; simpl in *.
    + destruct (import_sheet xl opts sheet total w) as [[a|e'] w1];
        simpl in H; destruct H as (Ha & Hd); [|discriminate].
      inversion Ha; subst a. subst d1.
      specialize (IH (total + n)%nat w1).
      destruct (load_sheets xl opts rest (db w1)) as [[m d2]|e]; simpl in *.
      * rewrite Nat.add_assoc. exact IH.
      * exact IH.
    + destruct (import_sheet xl opts sheet total w) as [[a|e'] w1];
        simpl in H; [discriminate | exact H].
Qed.

(** The command computes [import_db], and leaves the tables alone when
    that fails. *)
Lemma import_db_run (xl : Excel) (opts : Options) (w : World) :
  match import_db xl opts (db w) with
  | Ok d => fst (handle xl opts w) = Ok tt /\ db (snd (handle xl opts w)) = d
  | Raise e => fst (handle xl opts w) = Raise e
               /\ db (snd (handle xl opts w)) = db w
  end.
Proof.
  unfold import_db, handle, atomic, handle_body. rewrite bind_run. unfold lift.
  destruct (read_raw xl (xlsx_path opts)) as [sheets|e];
    [|split; reflexivity].
  rewrite bind_run.
  set (w1 := snd ((if reset opts
                   then _ <- write MsgDeleting;; delete_all_players
                   else ret tt) w)).
  assert (E1 : (if reset opts
                then _ <- write MsgDeleting;; delete_all_players
                else ret tt) w = (Ok tt, w1))
    by (unfold w1; destruct (reset opts); reflexivity).
  assert (D1 : db w1 = if reset opts then clear_players (db w) else db w)
    by (unfold w1; destruct (reset opts); reflexivity).
  rewrite E1, bind_run. rewrite <- D1.
  pose proof (load_sheets_run xl opts sheets O w1) as H.
  destruct (load_sheets xl opts sheets (db w1)) as [[n d]|e];
    destruct (for_each sheets (import_sheet xl opts) O w1) as [[a|e'] w2];
    simpl in *.
  - destruct H as (_ & Hd). split; [reflexivity | exact Hd].
  - destruct H; discriminate.
  - discriminate.
  - inversion H; subst. split; reflexivity.
Qed.
End ImportEffects.

(** ** Teams and players across imports *)
Section ImportLaws.
Import Py Models ImportPlayers ImportSpec.
Context {R : Runtime}.

Lemma named_app (n : string) (a b : list Team.t) :
  named n (a ++ b) = (named n a ++ named n b)%list.
Proof. apply filter_app. Qed.

Lemma named_name (n : string) (ts : list Team.t) (t : Team.t) :
  In t (named n ts) -> In t ts /\ Team.name t = n.
Proof.
  unfold named. intros H. apply filter_In in H. destruct H as (Hin & E).
  split; [exact Hin | now apply String.eqb_eq].
Qed.

Lemma resolve_spec (n : string) (d d1 : DB) (t : Team.t) :
  resolve n d = Some (t, d1) ->
  Team.name t = n
  /\ named n (teams d1) = [t]
  /\ players d1 = players d
  /\ next_player_id d1 = next_player_id d
  /\ (teams d1 = teams d
      \/ (named n (teams d) = [] /\ teams d1 = (teams d ++ [t])%list)).
Proof.
  unfold resolve. destruct (named n (teams d)) as [|t0 [|t1 r]] eqn:E;
    intros H; inversion H; subst; clear H.
  - simpl. rewrite named_app, E. simpl. rewrite String.eqb_refl.
    repeat split. right. split; reflexivity.
  - assert (Hn : Team.name t = n).
    { apply (named_name n (teams d1) t). rewrite E. now left. }
    repeat split; try assumption. now left.
Qed.

Lemma load_sheet_inv (xl : Excel) (opts : Options)
      (sheet : string * list (list value)) (d d' : DB) (k : nat) :
  load_sheet xl opts sheet d = Ok (k, d') ->
  exists df0 team d1,
    read_header xl (xlsx_path opts) (fst sheet) (find_header_row (snd sheet))
      = Ok df0
    /\ resolve (strip (fst sheet)) d = Some (team, d1)
    /\ first_error (sheet_players df0 team) = None
    /\ k = List.length (sheet_players df0 team)
    /\ d' = add_players d1 (sheet_players df0 team).
Proof.
  unfold load_sheet.
  destruct (read_header _ _ _ _) as [df0|e]; [|discriminate].
  destruct (resolve _ d) as [[team d1]|]; [|discriminate].
  cbv zeta. destruct (first_error _) eqn:V; [discriminate|].
  intros H. inversion H; subst. exists df0, team, d1. repeat split. exact V.
Qed.

Lemma load_sheets_cons_inv (xl : Excel) (opts : Options)
      (sheet : string * list (list value))
      (rest : list (string * list (list value))) (d d' : DB) (n : nat) :
  load_sheets xl opts (sheet :: rest) d = Ok (n, d') ->
  exists k dm m,
    load_sheet xl opts sheet d = Ok (k, dm)
    /\ load_sheets xl opts rest dm = Ok (m, d')
    /\ n = (k + m)%nat.
Proof.
  simpl. destruct (load_sheet xl opts sheet d) as [[k dm]|e]; [|discriminate].
  simpl. destruct (load_sheets xl opts rest dm) as [[m d2]|e] eqn:E2;
    [|discriminate].
  simpl. intros H. inversion H; subst. exists k, dm, m.
  split; [reflexivity|]. split; [exact E2 | reflexivity].
Qed.

(** A sheet leaves its team in the table, and keeps every team that was
    there. *)
Lemma load_sheet_teams (xl : Excel) (opts : Options)
      (sheet : string * list (list value)) (d d' : DB) (k : nat) :
  load_sheet xl opts sheet d = Ok (k, d') ->
  incl (teams d) (teams d')
  /\ exists t, In t (teams d') /\ Team.name t = strip (fst sheet).
Proof.
  intros H. apply load_sheet_inv in H.
  destruct H as (df0 & team & d1 & _ & Hr & _ & _ & ->).
  apply resolve_spec in Hr. destruct Hr as (Hn & Hs & _ & _ & Ht).
  simpl. split.
  - destruct Ht as [->|(_ & ->)]; [apply incl_refl | now apply incl_appl].
  - exists team. split; [|exact Hn].
    apply (named_name (strip (fst sheet)) (teams d1) team).
    rewrite Hs. now left.
Qed.

Lemma load_sheets_teams (xl : Excel) (opts : Options)
      (sheets : list (string * list (list value))) :
  forall (d d' : DB) (n : nat),
    load_sheets xl opts sheets d = Ok (n, d') ->
    incl (teams d) (teams d')
    /\ forall sheet, In sheet sheets ->
         exists t, In t (teams d') /\ Team.name t = strip (fst sheet).
Proof.
  induction sheets as [|sheet rest IH]; intros d d' n H.
  - inversion H; subst. split; [apply incl_refl | intros s []].
  - apply load_sheets_cons_inv in H.
    destruct H as (k & dm & m & H1 & H2 & _).
    apply load_sheet_teams in H1. destruct H1 as (I1 & t & Ht & Hn).
    destruct (IH _ _ _ H2) as (I2 & Hall). split.
    + eapply incl_tran; eassumption.
    + intros s [<-|Hs]; [|now apply Hall].
      exists t. split; [now apply I2 | exact Hn].
Qed.
(** A successful import leaves the tables that [import_db] computes. *)
Lemma handle_ok_import_db (xl : Excel) (opts : Options) (w w' : World) :
  handle xl opts w = (Ok tt, w') -> import_db xl opts (db w) = Ok (db w').
Proof.
  intros H. pose proof (import_db_run xl opts w) as I. rewrite H in I.
  simpl in I. destruct (import_db xl opts (db w)) as [d|e].
  - destruct I as (_ & <-). reflexivity.
  - destruct I; discriminate.
Qed.

Lemma import_db_ok_handle (xl : Excel) (opts : Options) (w : World) (d : DB) :
  import_db xl opts (db w) = Ok d ->
  exists w', handle xl opts w = (Ok tt, w') /\ db w' = d.
Proof.
  intros H. pose proof (import_db_run xl opts w) as I. rewrite H in I.
  destruct (handle xl opts w) as [[[]|e] w']; simpl in I;
    destruct I as (I1 & I2); [|discriminate].
  exists w'. split; [reflexivity | exact I2].
Qed.
End ImportLaws.

(** C10. After a successful import every sheet of the workbook has a Team
    named after its trimmed sheet name, the sheets that were skipped for
    want of a name column included: the team is found or created before
    the sheet is checked, and a skipped sheet inserts no player.  In the
    sample workbook the sheet "Celtics" is skipped and its team is there
    with no players. *)
Theorem teams_of_all_sheets {R : Py.Runtime} (xl : ImportPlayers.Excel)
        (opts : ImportPlayers.Options) (w w' : Models.World)
        (sheets : list (string * list (list Py.value))) :
  ImportPlayers.read_raw xl (ImportPlayers.xlsx_path opts) = Py.Ok sheets ->
  ImportPlayers.handle xl opts w = (Py.Ok tt, w') ->
  (forall sheet, In sheet sheets ->
     exists t, In t (Models.teams (Models.db w'))
               /\ Team.name t = Py.strip (fst sheet))
  /\ (forall df0 team,
        existsb (fun h => Py.mem_str h ImportPlayers.NAME_KEYS)
                (map ImportPlayers._clean_header
                     (ImportPlayers.columns (ImportPlayers.drop_unnamed df0)))
          = false ->
        ImportSpec.sheet_players df0 team = [])
  /\ (let run := @ImportPlayers.handle Py.ascii_runtime
                   (ImportSpec.excel_of [ImportSpec.lakers_sheet;
                                         ImportSpec.celtics_sheet])
                   (ImportSpec.options false) ImportSpec.empty_world in
      fst run = Py.Ok tt
      /\ map (fun t => (Team.id t, Team.name t))
             (Models.teams (Models.db (snd run)))
         = [(1%nat, "Lakers"); (2%nat, "Celtics")]
      /\ map (fun p => (Player.name p, Player.team p))
             (Models.players (Models.db (snd run)))
         = [("A", 1%nat); ("B", 1%nat)]
      /\ Models.out (snd run)
         = [Models.MsgImported "Lakers" 2; Models.MsgSkipped "Celtics";
            Models.MsgDone 2]).
Proof.
  intros Hraw Hrun. split; [|split].
  - apply handle_ok_import_db in Hrun. unfold ImportSpec.import_db in Hrun.
    rewrite Hraw in Hrun.
    destruct (ImportSpec.load_sheets xl opts sheets _) as [[n d]|e] eqn:L;
      [|discriminate].
    inversion Hrun; subst. simpl.
    apply (load_sheets_teams xl opts sheets _ _ _ L).
  - intros df0 team H. unfold ImportSpec.sheet_players. rewrite H. reflexivity.
  - vm_compute. repeat split.
Qed.

Lemma teams_of_all_sheets_witness :
  exists t,
    In t (Models.teams (Models.db (snd (@ImportPlayers.handle Py.ascii_runtime
            (ImportSpec.excel_of [ImportSpec.lakers_sheet;
                                  ImportSpec.celtics_sheet])
            (ImportSpec.options false) ImportSpec.empty_world))))
    /\ Team.name t = Py.strip (fst ImportSpec.celtics_sheet).
Proof.
  apply (proj1 (@teams_of_all_sheets Py.ascii_runtime
           (ImportSpec.excel_of [ImportSpec.lakers_sheet; ImportSpec.celtics_sheet])
           (ImportSpec.options false) ImportSpec.empty_world
           (snd (@ImportPlayers.handle Py.ascii_runtime
                   (ImportSpec.excel_of [ImportSpec.lakers_sheet;
                                         ImportSpec.celtics_sheet])
                   (ImportSpec.options false) ImportSpec.empty_world))
           [ImportSpec.lakers_sheet; ImportSpec.celtics_sheet]
           ltac:(reflexivity) ltac:(vm_compute; reflexivity))).
  simpl. right. left. reflexivity.
Defined.

(** ** Importing the same workbook again *)
Section Reimport.
Import Py Models ImportPlayers ImportSpec.
Context {R : Runtime}.

Lemma renumber_app (a : nat) (x y : list Player.t) :
  renumber a (x ++ y) = (renumber a x ++ renumber (a + List.length x) y)%list.
Proof.
  revert a. induction x as [|p x IH]; intros a; simpl.
  - now rewrite Nat.add_0_r.
  - rewrite IH, Nat.add_succ_r. reflexivity.
Qed.

Lemma renumber_length (a : nat) (x : list Player.t) :
  List.length (renumber a x) = List.length x.
Proof. revert a. induction x as [|p x IH]; intros a; simpl; [|rewrite IH]; reflexivity. Qed.

Lemma erase_renumber (a : nat) (x : list Player.t) :
  map erase_id (renumber a x) = map erase_id x.
Proof.
  revert a. induction x as [|p x IH]; intros a; simpl; [reflexivity|].
  rewrite IH. reflexivity.
Qed.

Lemma add_players_app (d : DB) (x y : list Player.t) :
  add_players (add_players d x) y = add_players d (x ++ y).
Proof.
  unfold add_players. simpl.
  rewrite <- app_assoc, renumber_app, length_app, Nat.add_assoc. reflexivity.
Qed.

(** A name that has exactly one team keeps exactly that team. *)
Lemma load_sheet_named (xl : Excel) (opts : Options)
      (sheet : string * list (list value)) (d d' : DB) (k : nat)
      (m : string) (t : Team.t) :
  load_sheet xl opts sheet d = Ok (k, d') ->
  named m (teams d) = [t] -> named m (teams d') = [t].
Proof.
  intros H Hm. apply load_sheet_inv in H.
  destruct H as (df0 & team & d1 & _ & Hr & _ & _ & ->).
  apply resolve_spec in Hr. destruct Hr as (Hn & _ & _ & _ & Ht). simpl.
  destruct Ht as [->|(He & ->)]; [exact Hm|].
  rewrite named_app, Hm. simpl.
  destruct (String.eqb (Team.name team) m) eqn:E; [|reflexivity].
  apply String.eqb_eq in E. rewrite Hn in E. subst m. rewrite He in Hm.
  discriminate.
Qed.

Lemma load_sheets_named (xl : Excel) (opts : Options)
      (sheets : list (string * list (list value))) (m : string) (t : Team.t) :
  forall (d d' : DB) (n : nat),
    load_sheets xl opts sheets d = Ok (n, d') ->
    named m (teams d) = [t] -> named m (teams d') = [t].
Proof.
  induction sheets as [|sheet rest IH]; intros d d' n H Hm.
  - inversion H; subst. exact Hm.
  - apply load_sheets_cons_inv in H.
    destruct H as (k & dm & j & H1 & H2 & _).
    eapply IH; [exact H2|]. eapply load_sheet_named; eassumption.
Qed.

(** Once the sheets have been loaded, loading them again into any tables
    with the resulting teams inserts the same players. *)
Lemma load_sheets_again (xl : Excel) (opts : Options)
      (sheets : list (string * list (list value))) :
  forall (d1 d1' : DB) (n : nat),
    load_sheets xl opts sheets d1 = Ok (n, d1') ->
    exists ps,
      n = List.length ps
      /\ players d1' = (players d1 ++ renumber (next_player_id d1) ps)%list
      /\ next_player_id d1' = (next_player_id d1 + List.length ps)%nat
      /\ forall d2, teams d2 = teams d1' ->
           load_sheets xl opts sheets d2 = Ok (n, add_players d2 ps).
Proof.
  induction sheets as [|sheet rest IH]; intros d1 d1' n H.
  - inversion H; subst. exists []. simpl.
    rewrite app_nil_r, Nat.add_0_r. repeat split.
    intros d2 _. now rewrite add_players_nil.
  - apply load_sheets_cons_inv in H.
    destruct H as (k & dm & m & H1 & H2 & ->).
    pose proof (load_sheet_inv _ _ _ _ _ _ H1)
      as (df0 & team & dr & Hh & Hr & Hv & -> & ->).
    pose proof (resolve_spec _ _ _ _ Hr) as (Hn & Hs & Hp & Hi & _).
    destruct (IH _ _ _ H2) as (ps & -> & Hpl & Hnx & Hagain).
    exists (sheet_players df0 team ++ ps)%list.
    simpl in Hpl, Hnx. rewrite Hp, Hi in Hpl. rewrite Hi in Hnx.
    split; [now rewrite length_app|]. split; [|split].
    + rewrite Hpl, renumber_app, <- app_assoc. reflexivity.
    + rewrite Hnx, length_app, Nat.add_assoc. reflexivity.
    + intros d2 Ht.
      assert (Hs' : named (strip (fst sheet)) (teams d2) = [team]).
      { rewrite Ht. eapply load_sheets_named; [exact H2|]. exact Hs. }
      assert (L1 : load_sheet xl opts sheet d2
                   = Ok (List.length (sheet_players df0 team),
                         add_players d2 (sheet_players df0 team))).
      { unfold load_sheet, resolve. rewrite Hh, Hs'. cbv zeta.
        rewrite Hv. reflexivity. }
      simpl load_sheets. rewrite L1. simpl.
      rewrite (Hagain (add_players d2 (sheet_players df0 team)) Ht). simpl.
      rewrite add_players_app. reflexivity.
Qed.

(** Two imports in a row, as functions of the tables. *)
Lemma import_db_twice (xl : Excel) (opts : Options) (d d1 : DB) :
  import_db xl opts d = Ok d1 ->
  exists ps d2,
    import_db xl opts d1 = Ok d2
    /\ players d1 = ((if reset opts then [] else players d)
                     ++ renumber (next_player_id d) ps)%list
    /\ players d2 = ((if reset opts then [] else players d1)
                     ++ renumber (next_player_id d1) ps)%list.
Proof.
  unfold import_db. destruct (read_raw xl (xlsx_path opts)) as [sheets|e];
    [|discriminate].
  destruct (load_sheets xl opts sheets _) as [[n dl]|e] eqn:L; [|discriminate].
  intros H. inversion H; subst; clear H. simpl.
  destruct (load_sheets_again _ _ _ _ _ _ L) as (ps & -> & Hpl & _ & Hagain).
  exists ps.
  specialize (Hagain (if reset opts then clear_players d1 else d1)).
  rewrite Hagain by (destruct (reset opts); reflexivity).
  eexists. split; [reflexivity|]. split.
  - rewrite Hpl. destruct (reset opts); reflexivity.
  - destruct (reset opts); reflexivity.
Qed.
End Reimport.

(** C8. When an import has succeeded, importing the same workbook again
    succeeds too.  With the reset flag the second import leaves as many
    players as the first, and the same rows up to their primary keys,
    because every player of every team is deleted first; without the flag
    it adds the same players once more, which doubles the count when the
    table was empty before the first import. *)
Theorem reimport_counts {R : Py.Runtime} (xl : ImportPlayers.Excel)
        (opts : ImportPlayers.Options) (w w1 : Models.World) :
  ImportPlayers.handle xl opts w = (Py.Ok tt, w1) ->
  (exists w2,
     ImportPlayers.handle xl opts w1 = (Py.Ok tt, w2)
     /\ (ImportPlayers.reset opts = true ->
         List.length (Models.players (Models.db w2))
           = List.length (Models.players (Models.db w1))
         /\ map ImportSpec.erase_id (Models.players (Models.db w2))
            = map ImportSpec.erase_id (Models.players (Models.db w1)))
     /\ (ImportPlayers.reset opts = false ->
         (List.length (Models.players (Models.db w2))
            + List.length (Models.players (Models.db w))
          = 2 * List.length (Models.players (Models.db w1)))%nat
         /\ (Models.players (Models.db w) = [] ->
             List.length (Models.players (Models.db w2))
             = (2 * List.length (Models.players (Models.db w1)))%nat)))
  /\ (let xl' := ImportSpec.excel_of [ImportSpec.lakers_sheet] in
      let count := fun r : Py.result unit * Models.World =>
                     List.length (Models.players (Models.db (snd r))) in
      let once := fun flag w' =>
                    @ImportPlayers.handle Py.ascii_runtime xl'
                      (ImportSpec.options flag) w' in
      count (once false ImportSpec.empty_world) = 2%nat
      /\ count (once false (snd (once false ImportSpec.empty_world))) = 4%nat
      /\ count (once true ImportSpec.w0) = 2%nat
      /\ count (once true (snd (once true ImportSpec.w0))) = 2%nat
      /\ map Player.name
             (Models.players (Models.db (snd (once true ImportSpec.w0))))
         = ["A"; "B"]).
Proof.
  intros H. split; [|vm_compute; repeat split].
  apply handle_ok_import_db in H.
  destruct (import_db_twice xl opts _ _ H) as (ps & d2 & H2 & P1 & P2).
  destruct (import_db_ok_handle xl opts w1 d2 H2) as (w2 & Hw2 & <-).
  exists w2. split; [exact Hw2|]. split.
  - intros Hr. rewrite Hr in P1, P2. simpl in P1, P2. rewrite P1, P2.
    rewrite !renumber_length, !erase_renumber. split; reflexivity.
  - intros Hr. rewrite Hr in P1, P2. rewrite P2, P1.
    rewrite !length_app, !renumber_length. split; [lia|].
    intros ->. simpl. lia.
Qed.

Lemma reimport_counts_witness :
  exists w2,
    @ImportPlayers.handle Py.ascii_runtime
      (ImportSpec.excel_of [ImportSpec.lakers_sheet]) (ImportSpec.options true)
      (snd (@ImportPlayers.handle Py.ascii_runtime
              (ImportSpec.excel_of [ImportSpec.lakers_sheet])
              (ImportSpec.options true) ImportSpec.w0))
    = (Py.Ok tt, w2).
Proof.
  destruct (proj1 (@reimport_counts Py.ascii_runtime
             (ImportSpec.excel_of [ImportSpec.lakers_sheet])
             (ImportSpec.options true) ImportSpec.w0
             (snd (@ImportPlayers.handle Py.ascii_runtime
                     (ImportSpec.excel_of [ImportSpec.lakers_sheet])
                     (ImportSpec.options true) ImportSpec.w0))
             ltac:(vm_compute; reflexivity))) as (w2 & H & _).
  exists w2. exact H.
Defined.

(** * Further properties of the importer's coercions *)
Section MoreCoercions.
Import Py ImportPlayers Spec.
Context {R : Runtime}.

Lemma norm_pos_cases (v : value) :
  In (norm_pos v) ["Guard"; "Forward"; "Center"].
Proof.
  unfold norm_pos. destruct (negb (truthy v)); [now left|].
  destruct (mem_str _ _) eqn:E; [|now left].
  now apply mem_str_In in E.
Qed.

(** [norm_pos] only ever gives one of the three single positions; the
    two combined choices of the model are never produced. *)
Theorem norm_pos_range (v : value) :
  In (norm_pos v) ["Guard"; "Forward"; "Center"]
  /\ norm_pos v <> "Guard / Forward" /\ norm_pos v <> "Forward / Center".
Proof.
  pose proof (norm_pos_cases v) as H. split; [exact H|].
  destruct H as [<-|[<-|[<-|[]]]]; split; discriminate.
Qed.

(** Normalising a position that is already normalised changes nothing. *)
Theorem norm_pos_idempotent (v : value) :
  norm_pos (VStr (norm_pos v)) = norm_pos v.
Proof.
  destruct (norm_pos_cases v) as [<-|[<-|[<-|[]]]]; reflexivity.
Qed.

Lemma shr_1_nonneg (mrs : shr_record) :
  0 <= shr_m mrs -> 0 <= shr_m (shr_1 mrs).
Proof.
  destruct mrs as [m r s]. simpl.
  destruct m as [|p|p]; try destruct p; simpl; lia.
Qed.

Lemma iter_shr_1_nonneg (p : positive) :
  forall mrs, 0 <= shr_m mrs -> 0 <= shr_m (iter_pos shr_1 p mrs).
Proof.
  induction p as [p IH|p IH|]; intros mrs H; simpl.
  - apply IH, IH. now apply shr_1_nonneg.
  - apply IH, IH. exact H.
  - now apply shr_1_nonneg.
Qed.

Lemma shr_fexp_nonneg (m e : Z) (l : location) :
  0 <= m -> 0 <= shr_m (fst (shr_fexp 53 1024 m e l)).
Proof.
  intros H. unfold shr_fexp, shr.
  assert (H0 : 0 <= shr_m (shr_record_of_loc m l))
    by (destruct l as [|[]]; exact H).
  destruct (fexp 53 1024 (Zdigits2 m + e) - e); simpl; try exact H0.
  now apply iter_shr_1_nonneg.
Qed.

Lemma binary_round_aux_not_nan (s : bool) (m e : Z) (l : location) :
  0 <= m -> is_nan (binary_round_aux 53 1024 s m e l) = false.
Proof.
  intros H. unfold binary_round_aux.
  pose proof (shr_fexp_nonneg m e l H) as H1.
  destruct (shr_fexp 53 1024 m e l) as [mrs' e']. simpl in H1.
  assert (H2 : 0 <= round_nearest_even (shr_m mrs') (loc_of_shr_record mrs')).
  { unfold round_nearest_even.
    destruct (loc_of_shr_record mrs') as [|[]]; try lia.
    destruct (Z.even (shr_m mrs')); lia. }
  pose proof (shr_fexp_nonneg _ e' loc_Exact H2) as H3.
  destruct (shr_fexp 53 1024 _ e' loc_Exact) as [mrs'' e'']. simpl in H3.
  destruct (shr_m mrs'') as [|p|p]; try reflexivity; [|lia].
  destruct (e'' <=? 1024 - 53); reflexivity.
Qed.

(** The float of an integer is a number. *)
Lemma float_of_Z_not_nan (z : Z) : is_nan (float_of_Z z) = false.
Proof.
  unfold float_of_Z, binary_normalize.
  destruct z as [|p|p]; [reflexivity| |]; unfold binary_round;
    destruct (shl_align _ _ _) as [mz ez];
    apply binary_round_aux_not_nan; lia.
Qed.

(** [as_float] guards against NaN cells only: a result that is not a
    number is the default itself or comes from a text that [float] reads
    as NaN. *)
Theorem as_float_nan_only_from_text (v : value) (default : float) :
  is_nan (as_float v default) = true ->
  is_nan default = true
  \/ exists s, v = VStr s
               /\ float_of_str (replace_char "," "." (strip s)) = Some S754_nan.
Proof.
  unfold as_float, is_float_nan, py_float.
  destruct v as [|x|z|s]; simpl.
  - now left.
  - destruct (is_nan x) eqn:E; [now left | congruence].
  - destruct (is_inf (float_of_Z z)); [now left|].
    rewrite float_of_Z_not_nan. discriminate.
  - destruct (float_of_str _) as [x|] eqn:E; [|now left].
    intros H. right. exists s. split; [reflexivity|].
    destruct x; try discriminate. exact E.
Qed.

Lemma clamp01_fixed (g : float) : clamp01 (clamp01 g) = clamp01 g.
Proof.
  assert (C : clamp01 g = f0 \/ clamp01 g = f1
              \/ (clamp01 g = g /\ fle g f0 = false /\ flt g f1 = true)).
  { unfold clamp01. destruct (fle g f0); [now left|].
    destruct (flt g f1); [|now right; left]. right. right. repeat split. }
  destruct C as [->|[->|(-> & E0 & E1)]]; try reflexivity.
  unfold clamp01. rewrite E0, E1. reflexivity.
Qed.

Lemma clamp01_small (g : float) :
  is_nan (clamp01 g) = false /\ fgt (clamp01 g) f1 = false.
Proof.
  unfold clamp01.
  destruct (fle g f0) eqn:E0; [split; reflexivity|].
  destruct (flt g f1) eqn:E1; [|split; reflexivity].
  split.
  - destruct g; try reflexivity. discriminate.
  - unfold fgt. destruct (flt f1 g) eqn:E2; [|reflexivity].
    apply flt_not_fle in E2. apply flt_fle in E1. congruence.
Qed.

(** A fraction that [pct01] produced is left as it is when it is
    normalised again. *)
Theorem pct01_idempotent (v : value) :
  pct01 (VFloat (pct01 v)) = pct01 v.
Proof.
  assert (E : pct01 v = clamp01 (if fgt (as_float v f0) f1
                                 then fdiv (as_float v f0) f100
                                 else as_float v f0))
    by (unfold pct01; apply max_min_clamp).
  rewrite E. set (g := if fgt _ f1 then _ else _).
  destruct (clamp01_small g) as (Hn & Hg).
  unfold pct01 at 1. rewrite max_min_clamp.
  unfold as_float, is_float_nan, py_float. simpl. rewrite Hn, Hg.
  apply clamp01_fixed.
Qed.
End MoreCoercions.

Lemma as_float_nan_only_from_text_witness :
  Py.is_nan Py.f0 = true
  \/ exists s, Py.VStr "nan" = Py.VStr s
               /\ @Py.float_of_str Py.ascii_runtime
                    (Py.replace_char "," "." (Py.strip s)) = Some S754_nan.
Proof.
  apply (@as_float_nan_only_from_text Py.ascii_runtime (Py.VStr "nan") Py.f0).
  vm_compute. reflexivity.
Defined.

(** * Tolerant lookup and header detection *)
Section Lookup.
Import Py ImportPlayers.
Context {R : Runtime}.

Lemma find_none_all {A} (f : A -> bool) (l : list A) :
  (forall x, In x l -> f x = false) -> find f l = None.
Proof.
  induction l as [|x r IH]; intros H; [reflexivity|]. simpl.
  rewrite (H x (or_introl eq_refl)). apply IH. intros y Hy. apply H. now right.
Qed.

Lemma lookup_last_none (key : string) (lower : list (string * value)) :
  (forall kv, In kv lower -> fst kv <> key) -> lookup_last key lower = None.
Proof.
  intros H. unfold lookup_last. rewrite find_none_all; [reflexivity|].
  intros kv Hkv. apply in_rev in Hkv. apply String.eqb_neq. now apply H.
Qed.

Lemma lookup_last_found (key : string) (pre post : list (string * value))
      (v : value) :
  (forall kv, In kv post -> fst kv <> key) ->
  lookup_last key (pre ++ (key, v) :: post) = Some v.
Proof.
  intros H. unfold lookup_last.
  rewrite rev_app_distr. simpl. rewrite <- app_assoc. simpl.
  assert (F : forall l : list (string * value),
             (forall kv, In kv l -> fst kv <> key) ->
             forall tail, find (fun kv => String.eqb (fst kv) key) (l ++ tail)
                          = find (fun kv => String.eqb (fst kv) key) tail).
  { induction l as [|x r IH]; intros Hl tail; [reflexivity|]. simpl.
    assert (E : String.eqb (fst x) key = false)
      by (apply String.eqb_neq, Hl; now left).
    rewrite E. apply IH. intros y Hy. apply Hl. now right. }
  rewrite F.
  - simpl. rewrite String.eqb_refl. reflexivity.
  - intros kv Hkv. apply H. now apply in_rev.
Qed.

Lemma pick_from_skip (lower : list (string * value)) (before after : list string) :
  (forall c, In c before ->
     forall kv, In kv lower -> fst kv <> Py.lower (strip c)) ->
  pick_from lower (before ++ after) = pick_from lower after.
Proof.
  induction before as [|c r IH]; intros H; [reflexivity|]. simpl.
  rewrite lookup_last_none by (apply H; now left).
  apply IH. intros c' Hc'. apply H. now right.
Qed.

(** A row without any of the wanted columns gives [None]. *)
Theorem pick_missing (row : list (value * value)) (cands : list string) :
  (forall c kv, In c cands -> In kv row ->
                _clean_header (fst kv) <> Py.lower (strip c)) ->
  pick row cands = VNone.
Proof.
  intros H. unfold pick.
  rewrite <- (app_nil_r cands), pick_from_skip; [reflexivity|].
  intros c Hc kv Hkv. apply in_map_iff in Hkv.
  destruct Hkv as ((k & v) & <- & Hin). simpl. apply (H c (k, v) Hc Hin).
Qed.

(** The first wanted label that some column carries decides, whatever
    its case and outer blanks, and of several columns carrying it the
    last one is read. *)
Theorem pick_first_candidate_last_column
        (before after : list string) (c : string)
        (pre post : list (value * value)) (k v : value) :
  (forall c' kv, In c' before -> In kv (pre ++ (k, v) :: post) ->
                 _clean_header (fst kv) <> Py.lower (strip c')) ->
  _clean_header k = Py.lower (strip c) ->
  (forall kv, In kv post -> _clean_header (fst kv) <> Py.lower (strip c)) ->
  pick (pre ++ (k, v) :: post) (before ++ c :: after) = v.
Proof.
  intros Hb Hk Hp. unfold pick. rewrite pick_from_skip.
  - simpl. rewrite map_app. simpl. fold (_clean_header k). rewrite Hk.
    rewrite lookup_last_found; [reflexivity|].
    intros kv Hkv. apply in_map_iff in Hkv.
    destruct Hkv as ((k' & v') & <- & Hin). simpl. apply (Hp (k', v') Hin).
  - intros c' Hc' kv Hkv. apply in_map_iff in Hkv.
    destruct Hkv as ((k' & v') & <- & Hin). simpl. apply (Hb c' (k', v') Hc' Hin).
Qed.

Lemma find_seq_ext (f g : nat -> bool) (n start : nat) :
  (forall i, (start <= i < start + n)%nat -> f i = g i) ->
  find f (seq start n) = find g (seq start n).
Proof.
  revert start. induction n as [|n IH]; intros start H; [reflexivity|].
  simpl. rewrite (H start) by lia. destruct (g start); [reflexivity|].
  apply IH. intros i Hi. apply H. lia.
Qed.

(** Header detection reads the first ten rows only, and what it returns
    is below ten and, on a sheet that has rows, the index of a row. *)
Theorem find_header_row_window (df : list (list value)) :
  find_header_row df = find_header_row (firstn 10 df)
  /\ (find_header_row df < 10)%nat
  /\ (df <> [] -> (find_header_row df < List.length df)%nat).
Proof.
  split; [|split].
  - unfold find_header_row. rewrite length_firstn.
    replace (Nat.min 10 (Nat.min 10 (List.length df)))
      with (Nat.min 10 (List.length df)) by lia.
    erewrite find_seq_ext; [reflexivity|].
    intros i Hi. cbv beta. f_equal.
    rewrite <- (firstn_skipn 10 df) at 1.
    rewrite app_nth1; [reflexivity|]. rewrite length_firstn. lia.
  - unfold find_header_row.
    pose proof (find_seq (fun i => is_name_row (nth i df []))
                         (Nat.min 10 (List.length df)) 0) as H.
    destruct (find _ _) as [i|]; [|lia]. destruct H as (Hi & _). lia.
  - intros Hne. unfold find_header_row.
    pose proof (find_seq (fun i => is_name_row (nth i df []))
                         (Nat.min 10 (List.length df)) 0) as H.
    destruct (find _ _) as [i|].
    + destruct H as (Hi & _). lia.
    + destruct df; [congruence | simpl; lia].
Qed.
End Lookup.

Lemma pick_missing_witness :
  @ImportPlayers.pick Py.ascii_runtime
    [(Py.VStr "Player", Py.VStr "A"); (Py.VStr "PTS", Py.VInt 20)]
    ["Rebounds per game"; "REB"; "RPG"] = Py.VNone.
Proof.
  apply (@pick_missing Py.ascii_runtime).
  intros c kv Hc Hkv. simpl in Hc, Hkv.
  destruct Hc as [<-|[<-|[<-|[]]]]; destruct Hkv as [<-|[<-|[]]];
    vm_compute; discriminate.
Defined.

Lemma pick_first_candidate_last_column_witness :
  @ImportPlayers.pick Py.ascii_runtime
    ([(Py.VStr "Player", Py.VStr "A"); (Py.VStr "pts", Py.VInt 1)]
       ++ (Py.VStr " PTS ", Py.VInt 20) :: [(Py.VStr "PPG", Py.VInt 7)])
    (["Points per game"] ++ "PTS" :: ["PPG"]) = Py.VInt 20.
Proof.
  apply (@pick_first_candidate_last_column Py.ascii_runtime).
  - intros c kv Hc Hkv. simpl in Hc, Hkv.
    destruct Hc as [<-|[]]; destruct Hkv as [<-|[<-|[<-|[<-|[]]]]];
      vm_compute; discriminate.
  - vm_compute. reflexivity.
  - intros kv Hkv. simpl in Hkv. destruct Hkv as [<-|[]].
    vm_compute. discriminate.
Defined.

(** * The players the importer creates *)
Section ParsedRows.
Import Py ImportPlayers Spec ReportSpec AiClient.
Context {R : Runtime}.




(** A name cell that holds text makes a player even when the text is
    blank: the player is named by the trimmed text, which is then
    empty. *)
Theorem parse_row_keeps_blank_names (team : Team.t) (cols cells : list value)
        (s : string) :
  pick (combine cols cells) NAME_LABELS = VStr s ->
  s <> "" ->
  exists p, parse_row team cols cells = Some p /\ Player.name p = strip s.
Proof.
  intros Hpick Hs. unfold parse_row. rewrite Hpick. simpl.
  assert (E : String.eqb s "" = false) by now apply String.eqb_neq.
  rewrite E. simpl. eexists. split; reflexivity.
Qed.

End ParsedRows.


Lemma parse_row_keeps_blank_names_witness :
  exists p,
    @ImportPlayers.parse_row Py.ascii_runtime Examples.lakers
      [Py.VStr "Player"; Py.VStr "PTS"] [Py.VStr "  "; Py.VInt 3] = Some p
    /\ Player.name p = Py.strip "  ".
Proof.
  apply (@parse_row_keeps_blank_names Py.ascii_runtime Examples.lakers
           [Py.VStr "Player"; Py.VStr "PTS"] [Py.VStr "  "; Py.VInt 3] "  ").
  - vm_compute. reflexivity.
  - discriminate.
Defined.


(** * What an import does to the tables *)
Section ImportInvariants.
Import Py Models ImportPlayers ImportSpec.
Context {R : Runtime}.

Lemma load_sheets_debug (xl : Excel) (opts opts' : Options)
      (sheets : list (string * list (list value))) :
  xlsx_path opts' = xlsx_path opts ->
  forall d, load_sheets xl opts' sheets d = load_sheets xl opts sheets d.
Proof.
  intros Hp. induction sheets as [|sheet rest IH]; intros d; [reflexivity|].
  simpl. unfold load_sheet. rewrite Hp.
  destruct (read_header _ _ _ _); [|reflexivity].
  destruct (resolve _ d) as [[team d1]|]; [|reflexivity].
  cbv zeta. destruct (first_error _); [reflexivity|].
  simpl. rewrite IH. reflexivity.
Qed.

(** What the command returns and leaves in the tables, read off
    [import_db]. *)
Lemma handle_outcome (xl : Excel) (opts : Options) (w : World) :
  fst (handle xl opts w) = match import_db xl opts (db w) with
                           | Ok _ => Ok tt
                           | Raise e => Raise e
                           end
  /\ db (snd (handle xl opts w)) = match import_db xl opts (db w) with
                                   | Ok d => d
                                   | Raise _ => db w
                                   end.
Proof.
  pose proof (import_db_run xl opts w) as H.
  destruct (import_db xl opts (db w)); exact H.
Qed.

(** The debug flag changes neither the outcome nor the tables. *)
Theorem debug_flag_leaves_data (xl : Excel) (opts : Options) (w : World)
        (flag : bool) :
  let opts' := {| xlsx_path := xlsx_path opts; reset := reset opts;
                  debug := flag |} in
  fst (handle xl opts' w) = fst (handle xl opts w)
  /\ db (snd (handle xl opts' w)) = db (snd (handle xl opts w)).
Proof.
  intros opts'.
  destruct (handle_outcome xl opts w) as (F & D).
  destruct (handle_outcome xl opts' w) as (F' & D').
  assert (E : import_db xl opts' (db w) = import_db xl opts (db w)).
  { unfold import_db. simpl.
    destruct (read_raw xl (xlsx_path opts)); [|reflexivity].
    now rewrite (load_sheets_debug xl opts opts'). }
  rewrite F, F', D, D', E. split; reflexivity.
Qed.

(** No import removes or renames a team, with or without the reset flag
    and whether it succeeds or not. *)
Theorem teams_are_kept (xl : Excel) (opts : Options) (w : World) :
  incl (teams (db w)) (teams (db (snd (handle xl opts w)))).
Proof.
  destruct (handle_outcome xl opts w) as (_ & D). rewrite D.
  unfold import_db. destruct (read_raw xl (xlsx_path opts)) as [sheets|e];
    [|apply incl_refl].
  destruct (load_sheets xl opts sheets _) as [[n d]|e] eqn:L;
    [|apply incl_refl].
  apply load_sheets_teams in L. destruct L as (I & _). simpl.
  destruct (reset opts); exact I.
Qed.

Lemma named_nil_not_in (n : string) (ts : list Team.t) :
  named n ts = [] -> ~ In n (map Team.name ts).
Proof.
  intros H Hin. apply in_map_iff in Hin. destruct Hin as (t & Hn & Ht).
  assert (In t (named n ts)).
  { apply filter_In. split; [exact Ht|]. rewrite Hn. apply String.eqb_refl. }
  rewrite H in *. contradiction.
Qed.

Lemma load_sheets_unique_names (xl : Excel) (opts : Options)
      (sheets : list (string * list (list value))) :
  forall (d d' : DB) (n : nat),
    load_sheets xl opts sheets d = Ok (n, d') ->
    NoDup (map Team.name (teams d)) -> NoDup (map Team.name (teams d')).
Proof.
  induction sheets as [|sheet rest IH]; intros d d' n H Hd.
  - inversion H; subst. exact Hd.
  - apply load_sheets_cons_inv in H.
    destruct H as (k & dm & m & H1 & H2 & _).
    apply (IH _ _ _ H2). apply load_sheet_inv in H1.
    destruct H1 as (df0 & team & d1 & _ & Hr & _ & _ & ->). simpl.
    apply resolve_spec in Hr. destruct Hr as (Hn & _ & _ & _ & Ht).
    destruct Ht as [->|(He & ->)]; [exact Hd|].
    rewrite map_app. simpl. apply NoDup_app_remove_l with (l := []).
    simpl. apply Permutation_NoDup with (l := Team.name team :: map Team.name (teams d)).
    + apply Permutation_cons_append.
    + constructor; [|exact Hd]. rewrite Hn. now apply named_nil_not_in.
Qed.

(** When no two teams share a name before an import, no two teams share
    a name after it. *)
Theorem team_names_stay_distinct (xl : Excel) (opts : Options) (w : World) :
  NoDup (map Team.name (teams (db w))) ->
  NoDup (map Team.name (teams (db (snd (handle xl opts w))))).
Proof.
  intros Hd. destruct (handle_outcome xl opts w) as (_ & D). rewrite D.
  unfold import_db. destruct (read_raw xl (xlsx_path opts)) as [sheets|e];
    [|exact Hd].
  destruct (load_sheets xl opts sheets _) as [[n d]|e] eqn:L; [|exact Hd].
  simpl. apply (load_sheets_unique_names _ _ _ _ _ _ L).
  destruct (reset opts); exact Hd.
Qed.
End ImportInvariants.

Lemma team_names_stay_distinct_witness :
  NoDup (map Team.name
           (Models.teams (Models.db (snd (@ImportPlayers.handle Py.ascii_runtime
              (ImportSpec.excel_of [ImportSpec.lakers_sheet;
                                    ImportSpec.celtics_sheet])
              (ImportSpec.options false) ImportSpec.w0))))).
Proof.
  apply (@team_names_stay_distinct Py.ascii_runtime).
  simpl. constructor; [intros [] | constructor].
Defined.

(** * Referential integrity, the reported total, and duplicate teams *)
Section ImportIntegrity.
Import Py Models ImportPlayers ImportSpec.
Context {R : Runtime}.

Lemma renumber_in (a : nat) (ps : list Player.t) (p : Player.t) :
  In p (renumber a ps) -> exists q, In q ps /\ Player.team p = Player.team q.
Proof.
  revert a. induction ps as [|q r IH]; intros a; simpl; [intros []|].
  intros [<-|H].
  - exists q. split; [now left | reflexivity].
  - destruct (IH _ H) as (q' & Hq & E). exists q'. split; [now right | exact E].
Qed.

Lemma sheet_players_team (df0 : Frame) (team : Team.t) (p : Player.t) :
  In p (sheet_players df0 team) -> Player.team p = Team.id team.
Proof.
  unfold sheet_players. destruct (negb _); [intros []|]. cbv zeta.
  unfold row_players. intros H. apply in_flat_map in H.
  destruct H as (cells & _ & H).
  destruct (parse_row team _ cells) as [q|] eqn:E; [|destruct H].
  destruct H as [<-|[]]. unfold parse_row in E.
  destruct (_ || _); [discriminate|]. inversion E. reflexivity.
Qed.

Lemma load_sheets_has_team (xl : Excel) (opts : Options)
      (sheets : list (string * list (list value))) :
  forall (d d' : DB) (n : nat),
    load_sheets xl opts sheets d = Ok (n, d') ->
    forall p, In p (players d') -> In p (players d) \/ has_team (teams d') p.
Proof.
  induction sheets as [|sheet rest IH]; intros d d' n H p Hp.
  - inversion H; subst. now left.
  - apply load_sheets_cons_inv in H.
    destruct H as (k & dm & m & H1 & H2 & _).
    destruct (IH _ _ _ H2 p Hp) as [Hm|Ht]; [|now right].
    pose proof (load_sheets_teams _ _ _ _ _ _ H2) as (I2 & _).
    apply load_sheet_inv in H1.
    destruct H1 as (df0 & team & d1 & _ & Hr & _ & _ & ->).
    apply resolve_spec in Hr. destruct Hr as (Hn & Hs & Hpl & _ & _).
    simpl in Hm, I2. rewrite Hpl in Hm. apply in_app_or in Hm.
    destruct Hm as [Hm|Hm]; [now left|]. right.
    apply renumber_in in Hm. destruct Hm as (q & Hq & E).
    apply sheet_players_team in Hq. exists team. split.
    + apply I2. apply (named_name (strip (fst sheet)) (teams d1) team).
      rewrite Hs. now left.
    + congruence.
Qed.

(** When every player points to a team of the Team table before an
    import, every player does so after it. *)
Theorem players_keep_their_teams (xl : Excel) (opts : Options) (w : World) :
  Forall (has_team (teams (db w))) (players (db w)) ->
  Forall (has_team (teams (db (snd (handle xl opts w)))))
         (players (db (snd (handle xl opts w)))).
Proof.
  intros H. destruct (handle_outcome xl opts w) as (_ & D). rewrite D.
  unfold import_db. destruct (read_raw xl (xlsx_path opts)) as [sheets|e];
    [|exact H].
  destruct (load_sheets xl opts sheets _) as [[n d]|e] eqn:L; [|exact H].
  simpl. apply Forall_forall. intros p Hp.
  pose proof (load_sheets_teams _ _ _ _ _ _ L) as (I & _).
  destruct (load_sheets_has_team _ _ _ _ _ _ L p Hp) as [Hold|Hnew];
    [|exact Hnew].
  rewrite Forall_forall in H.
  assert (Hin : In p (players (db w))) by (destruct (reset opts); [destruct Hold | exact Hold]).
  destruct (H p Hin) as (t & Ht & E). exists t. split; [|exact E].
  apply I. destruct (reset opts); exact Ht.
Qed.

(** The first sheet whose trimmed name is carried by two teams or more
    stops the import with [MultipleObjectsReturned], and the tables stay
    as they were. *)
Theorem duplicate_team_names_stop_import (xl : Excel) (opts : Options)
        (w : World) (sheet : string * list (list value))
        (rest : list (string * list (list value))) (df0 : Frame)
        (t1 t2 : Team.t) (more : list Team.t) :
  read_raw xl (xlsx_path opts) = Ok (sheet :: rest) ->
  read_header xl (xlsx_path opts) (fst sheet) (find_header_row (snd sheet))
    = Ok df0 ->
  named (strip (fst sheet)) (teams (db w)) = t1 :: t2 :: more ->
  fst (handle xl opts w) = Raise MultipleObjectsReturned
  /\ db (snd (handle xl opts w)) = db w.
Proof.
  intros Hraw Hh Hn. destruct (handle_outcome xl opts w) as (F & D).
  rewrite F, D. unfold import_db. rewrite Hraw. simpl.
  unfold load_sheet, resolve. rewrite Hh.
  assert (E : teams (if reset opts then clear_players (db w) else db w)
              = teams (db w)) by (destruct (reset opts); reflexivity).
  rewrite E, Hn. simpl. split; reflexivity.
Qed.
End ImportIntegrity.

Lemma players_keep_their_teams_witness :
  Forall (ImportSpec.has_team
            (Models.teams (Models.db (snd (@ImportPlayers.handle Py.ascii_runtime
               (ImportSpec.excel_of [ImportSpec.lakers_sheet])
               (ImportSpec.options false) ImportSpec.w0)))))
         (Models.players (Models.db (snd (@ImportPlayers.handle Py.ascii_runtime
            (ImportSpec.excel_of [ImportSpec.lakers_sheet])
            (ImportSpec.options false) ImportSpec.w0)))).
Proof.
  apply (@players_keep_their_teams Py.ascii_runtime).
  simpl. constructor; [|constructor].
  eexists. split; [left; reflexivity | reflexivity].
Defined.

Lemma duplicate_team_names_stop_import_witness :
  fst (@ImportPlayers.handle Py.ascii_runtime
         (ImportSpec.excel_of [ImportSpec.lakers_sheet])
         (ImportSpec.options false)
         {| Models.db := ImportSpec.db_two_lakers; Models.out := [] |})
  = Py.Raise Py.MultipleObjectsReturned
  /\ Models.db (snd (@ImportPlayers.handle Py.ascii_runtime
         (ImportSpec.excel_of [ImportSpec.lakers_sheet])
         (ImportSpec.options false)
         {| Models.db := ImportSpec.db_two_lakers; Models.out := [] |}))
     = ImportSpec.db_two_lakers.
Proof.
  eapply (@duplicate_team_names_stop_import Py.ascii_runtime
            (ImportSpec.excel_of [ImportSpec.lakers_sheet])
            (ImportSpec.options false)
            {| Models.db := ImportSpec.db_two_lakers; Models.out := [] |}
            ImportSpec.lakers_sheet []).
  - reflexivity.
  - vm_compute. reflexivity.
  - vm_compute. reflexivity.
Defined.

(** * The total that the command reports *)
Section ReportedTotal.
Import Py Models ImportPlayers ImportSpec.
Context {R : Runtime}.

(** A successful import ends its output with the line "Done. Total
    players imported: n", and n is the number of Player rows it added to
    those that were there (to none of them under the reset flag). *)
Theorem reported_total_counts_insertions (xl : Excel) (opts : Options)
        (w w' : World) :
  handle xl opts w = (Ok tt, w') ->
  exists n pre,
    out w' = (pre ++ [MsgDone n])%list
    /\ List.length (players (db w'))
       = (List.length (if reset opts then [] else players (db w)) + n)%nat.
Proof.
  unfold handle, atomic, handle_body. rewrite bind_run. unfold lift.
  destruct (read_raw xl (xlsx_path opts)) as [sheets|e]; [|discriminate].
  rewrite bind_run.
  set (w1 := snd ((if reset opts
                   then _ <- write MsgDeleting;; delete_all_players
                   else ret tt) w)).
  assert (E1 : (if reset opts
                then _ <- write MsgDeleting;; delete_all_players
                else ret tt) w = (Ok tt, w1))
    by (unfold w1; destruct (reset opts); reflexivity).
  assert (D1 : db w1 = if reset opts then clear_players (db w) else db w)
    by (unfold w1; destruct (reset opts); reflexivity).
  rewrite E1, bind_run.
  pose proof (load_sheets_run xl opts sheets O w1) as L.
  destruct (for_each sheets (import_sheet xl opts) O w1) as [[total|e] w2];
    [|discriminate].
  unfold write. intros H. inversion H; subst w'; clear H. simpl.
  exists total, (out w2). split; [reflexivity|].
  destruct (load_sheets xl opts sheets (db w1)) as [[n d]|e] eqn:L1;
    simpl in L; [|discriminate].
  destruct L as (Ht & Hd). inversion Ht; subst total. subst d.
  destruct (load_sheets_again _ _ _ _ _ _ L1) as (ps & -> & Hp & _).
  rewrite Hp, length_app, renumber_length, D1.
  destruct (reset opts); reflexivity.
Qed.
End ReportedTotal.

Lemma reported_total_counts_insertions_witness :
  exists n pre,
    Models.out (snd (@ImportPlayers.handle Py.ascii_runtime
                       (ImportSpec.excel_of [ImportSpec.lakers_sheet;
                                             ImportSpec.celtics_sheet])
                       (ImportSpec.options true) ImportSpec.w0))
      = (pre ++ [Models.MsgDone n])%list
    /\ List.length (Models.players (Models.db (snd
          (@ImportPlayers.handle Py.ascii_runtime
             (ImportSpec.excel_of [ImportSpec.lakers_sheet;
                                   ImportSpec.celtics_sheet])
             (ImportSpec.options true) ImportSpec.w0))))
       = (List.length (if ImportPlayers.reset (ImportSpec.options true)
                       then []
                       else Models.players (Models.db ImportSpec.w0)) + n)%nat.
Proof.
  apply (@reported_total_counts_insertions Py.ascii_runtime
           (ImportSpec.excel_of [ImportSpec.lakers_sheet;
                                 ImportSpec.celtics_sheet])
           (ImportSpec.options true) ImportSpec.w0).
  vm_compute. reflexivity.
Defined.

(** * More on the report generators *)
Section MoreReports.
Import Py AiClient ReportSpec Examples.

Ltac ok_step := change (rbind (Ok ?a) ?k) with (k a); cbv beta.

Lemma present_some {A} (l : list A) : present (map Some l) = l.
Proof. induction l as [|x r IH]; [reflexivity|]. simpl. now rewrite IH. Qed.

(** [_avg] leaves the absent values out, and is 0.0 when no value is
    present, in particular on the empty sequence. *)
Theorem _avg_skips_absent (seq : list (option float)) :
  _avg seq = _avg (map Some (present seq))
  /\ (present seq = [] -> _avg seq = f0).
Proof.
  split.
  - unfold _avg. rewrite present_some. reflexivity.
  - intros H. unfold _avg. rewrite H. reflexivity.
Qed.

Lemma filter_r_active_raises (l : list Player.t) (e : exn) :
  filter_r is_active l = Raise e -> e = TypeError.
Proof.
  induction l as [|p t IH]; [discriminate|]. simpl.
  unfold is_active at 1, gt0.
  destruct (Player.minutes_per_game p) as [m|]; simpl;
    [|intros H; now inversion H].
  destruct (fgt m f0); simpl.
  - destruct (filter_r is_active t); simpl; [discriminate|].
    intros H. inversion H; subst. now apply IH.
  - destruct (Player.points_per_game p) as [q|]; simpl;
      [|intros H; now inversion H].
    destruct (filter_r is_active t); simpl; [discriminate|].
    intros H. inversion H; subst. now apply IH.
Qed.

Lemma max_from_raises {A} (key : A -> option float) (rest : list A) :
  forall best e, max_from key best rest = Raise e -> e = TypeError.
Proof.
  induction rest as [|x t IH]; intros best e; simpl; [discriminate|].
  destruct (key x); [|intros H; now inversion H].
  destruct (key best); [|intros H; now inversion H]. apply IH.
Qed.

Lemma py_max_raises {A} (key : A -> option float) (l : list A) (e : exn) :
  l <> [] -> py_max key l = Raise e -> e = TypeError.
Proof. destruct l; [congruence|]. intros _. apply max_from_raises. Qed.

Lemma fmt_stat_raises (x : option float) (e : exn) :
  fmt_stat x = Raise e -> e = TypeError.
Proof. destruct x; [discriminate|]. intros H. now inversion H. Qed.

Lemma _fallback_report_raises (team : Team.t) (players : list Player.t)
      (e : exn) :
  _fallback_report team players = Raise e -> e = TypeError.
Proof.
  unfold _fallback_report. destruct players as [|p0 rest]; [discriminate|].
  destruct (filter_r is_active (p0 :: rest)) as [active0|e0] eqn:F.
  - ok_step.
    set (active := match active0 with [] => p0 :: rest | _ :: _ => active0 end).
    assert (Hne : active <> []) by (unfold active; destruct active0; discriminate).
    destruct (py_max Player.points_per_game active) as [tp|e1] eqn:M1;
      [ok_step | intros H; inversion H; subst; eapply py_max_raises; eassumption].
    destruct (py_max Player.rebounds_per_game active) as [tr|e2] eqn:M2;
      [ok_step | intros H; inversion H; subst; eapply py_max_raises; eassumption].
    destruct (py_max Player.assists_per_game active) as [ta|e3] eqn:M3;
      [ok_step | intros H; inversion H; subst; eapply py_max_raises; eassumption].
    cbv zeta.
    destruct (fmt_stat (Player.points_per_game tp)) as [s1|e4] eqn:S1;
      [ok_step | intros H; inversion H; subst; eapply fmt_stat_raises; eassumption].
    destruct (fmt_stat (Player.rebounds_per_game tr)) as [s2|e5] eqn:S2;
      [ok_step | intros H; inversion H; subst; eapply fmt_stat_raises; eassumption].
    destruct (fmt_stat (Player.assists_per_game ta)) as [s3|e6] eqn:S3;
      [ok_step | intros H; inversion H; subst; eapply fmt_stat_raises; eassumption].
    discriminate.
  - intros H. inversion H; subst. eapply filter_r_active_raises. exact F.
Qed.

(** No exception of the external service reaches the caller: when
    [generate_team_report] raises, the exception is the [TypeError] that
    the fallback generator raises on the same arguments. *)
Theorem generate_team_report_raises_only_with_fallback
        (st : Settings) (svc : Service) (team : Team.t)
        (players : list Player.t) (e : exn) :
  generate_team_report st svc team players = Raise e ->
  e = TypeError /\ _fallback_report team players = Raise TypeError.
Proof.
  unfold generate_team_report. intros H.
  assert (F : _fallback_report team players = Raise e).
  { destruct (key_set st) as [key|]; [|exact H].
    destruct (ask_service svc key team players); [discriminate | exact H]. }
  pose proof (_fallback_report_raises _ _ _ F) as ->. split; [reflexivity | exact F].
Qed.

(** A text that [generate_team_report] returns is the fallback's text or
    the service's answer with its outer blanks removed, and such an
    answer is never empty. *)
Theorem generate_team_report_text
        (st : Settings) (svc : Service) (team : Team.t)
        (players : list Player.t) (text : string) :
  generate_team_report st svc team players = Ok text ->
  _fallback_report team players = Ok text
  \/ exists key lines raw,
       key_set st = Some key
       /\ map_r roster_line players = Ok lines
       /\ svc key (prompt_for team (match lines with
                                    | [] => "No players."
                                    | _ => join nl lines
                                    end)) = Ok raw
       /\ text = strip raw /\ text <> "".
Proof.
  unfold generate_team_report.
  destruct (key_set st) as [key|]; [|now left].
  destruct (ask_service svc key team players) as [t|e] eqn:A; [|now left].
  intros H. inversion H; subst t; clear H. unfold ask_service in A.
  destruct (map_r roster_line players) as [lines|e]; [|discriminate].
  simpl in A.
  destruct (svc key _) as [raw|e] eqn:S; [|discriminate]. simpl in A.
  destruct (String.eqb (strip raw) "") eqn:B; [now left|].
  inversion A; subst text. right. exists key, lines, raw.
  repeat split; try assumption. now apply String.eqb_neq.
Qed.

Lemma filter_twice {A} (f : A -> bool) (l : list A) :
  filter f (filter f l) = filter f l.
Proof.
  induction l as [|x r IH]; [reflexivity|]. simpl.
  destruct (f x) eqn:E; simpl; [rewrite E|]; now rewrite ?IH.
Qed.

Lemma active_subset_twice (players : list Player.t) :
  active_subset (active_subset players) = active_subset players.
Proof.
  unfold active_subset. cbv zeta.
  destruct (filter _ players) as [|a l] eqn:E.
  - rewrite E. reflexivity.
  - rewrite <- E, filter_twice, E. reflexivity.
Qed.

Lemma _fallback_report_of_active (team : Team.t) (l1 l2 : list Player.t) :
  l1 <> [] -> l2 <> [] -> Forall has_stats l1 -> Forall has_stats l2 ->
  active_subset l1 = active_subset l2 ->
  _fallback_report team l1 = _fallback_report team l2.
Proof.
  intros N1 N2 H1 H2 E. unfold _fallback_report.
  destruct l1 as [|p1 r1]; [congruence|]. destruct l2 as [|p2 r2]; [congruence|].
  rewrite (filter_r_active _ H1), (filter_r_active _ H2). ok_step.
  fold (active_subset (p1 :: r1)). fold (active_subset (p2 :: r2)).
  rewrite E. reflexivity.
Qed.

(** When the players have their statistics, the fallback report is
    decided by the active players alone: it is the report of the active
    subset. *)
Theorem _fallback_report_ignores_inactive (team : Team.t)
        (players : list Player.t) :
  Forall has_stats players ->
  _fallback_report team players = _fallback_report team (active_subset players).
Proof.
  intros H. destruct players as [|p t] eqn:P; [reflexivity|]. rewrite <- P in *.
  assert (N : players <> []) by (rewrite P; discriminate).
  apply _fallback_report_of_active.
  - exact N.
  - now apply active_subset_nonempty.
  - exact H.
  - apply Forall_forall. intros q Hq. rewrite Forall_forall in H.
    apply H. now apply active_subset_incl.
  - symmetry. apply active_subset_twice.
Qed.
End MoreReports.

Lemma generate_team_report_raises_only_with_fallback_witness :
  Py.TypeError = Py.TypeError
  /\ AiClient._fallback_report Examples.lakers [Examples.no_minutes]
     = Py.Raise Py.TypeError.
Proof.
  apply (generate_team_report_raises_only_with_fallback
           {| AiClient.OPENAI_API_KEY := Some "sk-test" |} Examples.unreachable
           Examples.lakers [Examples.no_minutes] Py.TypeError).
  reflexivity.
Defined.

Lemma generate_team_report_text_witness :
  AiClient._fallback_report Examples.lakers Examples.roster_abc
    = Py.Ok "A balanced team."
  \/ exists key lines raw,
       AiClient.key_set {| AiClient.OPENAI_API_KEY := Some "sk-test" |} = Some key
       /\ AiClient.map_r AiClient.roster_line Examples.roster_abc = Py.Ok lines
       /\ Examples.chatty key
            (AiClient.prompt_for Examples.lakers
               (match lines with
                | [] => "No players."
                | _ => AiClient.join AiClient.nl lines
                end)) = Py.Ok raw
       /\ "A balanced team." = Py.strip raw /\ "A balanced team." <> "".
Proof.
  apply (generate_team_report_text
           {| AiClient.OPENAI_API_KEY := Some "sk-test" |} Examples.chatty
           Examples.lakers Examples.roster_abc "A balanced team.").
  vm_compute. reflexivity.
Defined.

Lemma _fallback_report_ignores_inactive_witness :
  AiClient._fallback_report Examples.lakers (Examples.bench :: Examples.roster_abc)
  = AiClient._fallback_report Examples.lakers
      (ReportSpec.active_subset (Examples.bench :: Examples.roster_abc)).
Proof.
  apply (_fallback_report_ignores_inactive Examples.lakers
           (Examples.bench :: Examples.roster_abc)).
  repeat constructor; discriminate.
Defined.

(** * More on the query layer *)
Section MoreQueries.
Import Py Views SearchSpec Examples.

(** The first row of a descending order: a row of the queryset that no
    present value exceeds; it has a value as soon as some row has. *)
Lemma leader_of_all (key : Player.t -> option float) (players : list Player.t) :
  match first (order_by (desc key) players) with
  | Some p => In p players
              /\ forall q w, In q players -> key q = Some w ->
                   exists v, key p = Some v /\ fgt w v = false
  | None => players = []
  end.
Proof.
  pose proof (first_order_by _ (desc key) (desc_total key) (desc_trans key)
                             players) as H.
  destruct (first _) as [p|]; [|exact H].
  destruct H as (Hin & Hmax). split; [exact Hin|].
  intros q w Hq Ew. specialize (Hmax q Hq). unfold desc in Hmax.
  rewrite Ew in Hmax. destruct (key p) as [v|]; [|discriminate].
  exists v. split; [reflexivity | now apply key_le_not_fgt].
Qed.

(** The league's scoring, rebounding and assist leaders exist exactly
    when there is a player; each is a player that no present value of
    the column exceeds, and has a value when any player has one. *)
Theorem team_list_leaders (players : list Player.t) :
  match best_scorer (team_list players) with
  | Some p => In p players
              /\ forall q w, In q players -> Player.points_per_game q = Some w ->
                   exists v, Player.points_per_game p = Some v /\ fgt w v = false
  | None => players = []
  end
  /\ match best_rebounder (team_list players) with
     | Some p => In p players
                 /\ forall q w, In q players ->
                      Player.rebounds_per_game q = Some w ->
                      exists v, Player.rebounds_per_game p = Some v
                                /\ fgt w v = false
     | None => players = []
     end
  /\ match assist_leader (team_list players) with
     | Some p => In p players
                 /\ forall q w, In q players ->
                      Player.assists_per_game q = Some w ->
                      exists v, Player.assists_per_game p = Some v
                                /\ fgt w v = false
     | None => players = []
     end.
Proof.
  split; [apply (leader_of_all Player.points_per_game)|].
  split; [apply (leader_of_all Player.rebounds_per_game)
         |apply (leader_of_all Player.assists_per_game)].
Qed.

Context {R : Runtime}.

Lemma search_result_meets (GET : QueryDict) (all_players result : list Player.t)
      (p : Player.t) :
  player_search GET all_players = Ok result -> In p result ->
  In p all_players /\ meets GET p = true.
Proof.
  intros H Hp. pose proof (player_search_selects GET all_players) as S.
  rewrite H in S. subst result.
  apply (Permutation_in _ (Permutation_sym (order_by_perm _ _ _))) in Hp.
  apply filter_In in Hp. destruct Hp as (Hin & Hb).
  split; [exact Hin|]. apply andb_true_iff in Hb. apply Hb.
Qed.

Lemma at_least_null (x : float) : at_least (Some x) None = false.
Proof. reflexivity. Qed.

Lemma at_most_null (x : float) : at_most (Some x) None = false.
Proof. reflexivity. Qed.

(** A supplied threshold, however low, removes every player whose value
    in that column is absent. *)
Theorem search_drops_absent_values (GET : QueryDict)
        (all_players result : list Player.t) (p : Player.t) :
  player_search GET all_players = Ok result ->
  In p result ->
  (threshold GET "min_points" <> None -> Player.points_per_game p <> None)
  /\ (threshold GET "min_rebounds" <> None -> Player.rebounds_per_game p <> None)
  /\ (threshold GET "min_assists" <> None -> Player.assists_per_game p <> None)
  /\ (threshold GET "min_minutes" <> None -> Player.minutes_per_game p <> None)
  /\ (threshold GET "min_rating" <> None -> Player.rating p <> None)
  /\ (threshold GET "max_fouls" <> None -> Player.fouls_per_game p <> None)
  /\ (threshold GET "min_two_pt" <> None -> Player.two_points_pct p <> None)
  /\ (threshold GET "min_three_pt" <> None -> Player.three_points_pct p <> None).
Proof.
  intros H Hp. destruct (search_result_meets _ _ _ _ H Hp) as (_ & M).
  unfold meets in M. repeat rewrite andb_true_iff in M.
  destruct M as (((((((M1 & M2) & M3) & M4) & M5) & M6) & M7) & M8).
  repeat split; intros Ht Hn;
    match goal with
    | Hk : at_least (threshold GET ?n) (?k p) = true, Ht : threshold GET ?n <> None |- _ =>
        rewrite Hn in Hk; destruct (threshold GET n); [discriminate | congruence]
    | Hk : at_most (threshold GET ?n) (?k p) = true, Ht : threshold GET ?n <> None |- _ =>
        rewrite Hn in Hk; destruct (threshold GET n); [discriminate | congruence]
    | Hk : at_least (fraction (threshold GET ?n)) (?k p) = true, Ht : threshold GET ?n <> None |- _ =>
        rewrite Hn in Hk; destruct (threshold GET n); [discriminate | congruence]
    end.
Qed.

(** A threshold that reads as NaN (the text "nan") empties the result. *)
Theorem search_nan_threshold_matches_nothing (GET : QueryDict)
        (all_players result : list Player.t) (name : string) :
  In name ["min_points"; "min_rebounds"; "min_assists"; "min_minutes";
           "min_rating"; "max_fouls"; "min_two_pt"; "min_three_pt"] ->
  threshold GET name = Some S754_nan ->
  player_search GET all_players = Ok result ->
  result = [].
Proof.
  intros Hname Hnan H. destruct result as [|p r]; [reflexivity|]. exfalso.
  destruct (search_result_meets _ _ _ p H (or_introl eq_refl)) as (_ & M).
  unfold meets in M. repeat rewrite andb_true_iff in M.
  destruct M as (((((((M1 & M2) & M3) & M4) & M5) & M6) & M7) & M8).
  simpl in Hname.
  repeat (destruct Hname as [<-|Hname];
          [rewrite Hnan in *;
           match goal with
           | Hk : at_least _ ?v = true |- _ =>
               solve [destruct v as [[]|]; discriminate Hk]
           | Hk : at_most _ ?v = true |- _ =>
               solve [destruct v as [[]|]; discriminate Hk]
           end|]).
  exact Hname.
Qed.
End MoreQueries.

Lemma search_drops_absent_values_witness :
  (@SearchSpec.threshold Py.ascii_runtime SearchSpec.min_points_zero "min_points" <> None ->
   Player.points_per_game Examples.player_e <> None)
  /\ (@SearchSpec.threshold Py.ascii_runtime SearchSpec.min_points_zero "min_rebounds" <> None ->
      Player.rebounds_per_game Examples.player_e <> None)
  /\ (@SearchSpec.threshold Py.ascii_runtime SearchSpec.min_points_zero "min_assists" <> None ->
      Player.assists_per_game Examples.player_e <> None)
  /\ (@SearchSpec.threshold Py.ascii_runtime SearchSpec.min_points_zero "min_minutes" <> None ->
      Player.minutes_per_game Examples.player_e <> None)
  /\ (@SearchSpec.threshold Py.ascii_runtime SearchSpec.min_points_zero "min_rating" <> None ->
      Player.rating Examples.player_e <> None)
  /\ (@SearchSpec.threshold Py.ascii_runtime SearchSpec.min_points_zero "max_fouls" <> None ->
      Player.fouls_per_game Examples.player_e <> None)
  /\ (@SearchSpec.threshold Py.ascii_runtime SearchSpec.min_points_zero "min_two_pt" <> None ->
      Player.two_points_pct Examples.player_e <> None)
  /\ (@SearchSpec.threshold Py.ascii_runtime SearchSpec.min_points_zero "min_three_pt" <> None ->
      Player.three_points_pct Examples.player_e <> None).
Proof.
  apply (@search_drops_absent_values Py.ascii_runtime SearchSpec.min_points_zero
           [Examples.no_points; Examples.player_e] [Examples.player_e]).
  - vm_compute. reflexivity.
  - left. reflexivity.
Defined.

Lemma search_nan_threshold_matches_nothing_witness :
  @nil Player.t = [].
Proof.
  apply (@search_nan_threshold_matches_nothing Py.ascii_runtime
           SearchSpec.min_points_nan Examples.roster_abc [] "min_points").
  - left. reflexivity.
  - vm_compute. reflexivity.
  - vm_compute. reflexivity.
Defined.

(** * Selectors, the team page and the template filter *)
Section Pages.
Import Py Models Views SearchSpec TeamDetail CustomFilters Examples.

(** The live report needs one value per column only: on a roster that
    is not empty it returns a text as soon as some player has points,
    some player has rebounds and some player has assists, and it raises
    [TypeError] when no player has points. *)
Theorem scouting_report_needs_one_value (team : Team.t)
        (players_qs : list Player.t) :
  players_qs <> [] ->
  ((exists p v, In p players_qs /\ Player.points_per_game p = Some v) ->
   (exists p v, In p players_qs /\ Player.rebounds_per_game p = Some v) ->
   (exists p v, In p players_qs /\ Player.assists_per_game p = Some v) ->
   exists text, build_scouting_report team players_qs = Ok text)
  /\ ((forall p, In p players_qs -> Player.points_per_game p = None) ->
      build_scouting_report team players_qs = Raise TypeError).
Proof.
  intros Hne.
  pose proof (leader_of_all Player.points_per_game players_qs) as L1.
  pose proof (leader_of_all Player.rebounds_per_game players_qs) as L2.
  pose proof (leader_of_all Player.assists_per_game players_qs) as L3.
  unfold build_scouting_report.
  destruct players_qs as [|p0 rest] eqn:P; [congruence|]. rewrite <- P in *.
  destruct (first (order_by (desc Player.points_per_game) players_qs))
    as [bs|]; [|congruence].
  destruct (first (order_by (desc Player.rebounds_per_game) players_qs))
    as [br|]; [|congruence].
  destruct (first (order_by (desc Player.assists_per_game) players_qs))
    as [al|]; [|congruence].
  destruct L1 as (I1 & M1), L2 as (I2 & M2), L3 as (I3 & M3). split.
  - intros (p1 & v1 & Hp1 & E1) (p2 & v2 & Hp2 & E2) (p3 & v3 & Hp3 & E3).
    destruct (M1 _ _ Hp1 E1) as (w1 & -> & _).
    destruct (M2 _ _ Hp2 E2) as (w2 & -> & _).
    destruct (M3 _ _ Hp3 E3) as (w3 & -> & _).
    simpl. eexists. reflexivity.
  - intros Hnone. rewrite (Hnone bs I1). reflexivity.
Qed.

Lemma find_none_inv {A} (f : A -> bool) (l : list A) :
  find f l = None -> forall x, In x l -> f x = false.
Proof. intros H x Hx. apply (find_none f l H x Hx). Qed.

(** The team page: an unknown id answers "not found"; otherwise the
    page shows the team with that id and exactly its players, the top-5
    scorer chart is the start of the top-6 pie chart, and no chart has
    more entries than its limit. *)
Theorem team_detail_page (d : DB) (team_id : nat) :
  match team_detail d team_id with
  | Page c =>
      In (team c) (teams d) /\ Team.id (team c) = team_id
      /\ Permutation (TeamDetail.players c)
           (filter (fun p => Nat.eqb (Player.team p) team_id) (Models.players d))
      /\ scorers_names c = firstn 5 (map Player.name (TeamDetail.players c))
      /\ scorers_names c = firstn 5 (pie_labels c)
      /\ scorers_points c = firstn 5 (pie_values c)
      /\ (List.length (scorers_names c) <= 5)%nat
      /\ (List.length (rebound_names c) <= 5)%nat
      /\ (List.length (pie_labels c) <= 6)%nat
      /\ List.length (scorers_points c) = List.length (scorers_names c)
      /\ List.length (rebound_values c) = List.length (rebound_names c)
      /\ List.length (pie_values c) = List.length (pie_labels c)
  | Http404 => forall t, In t (teams d) -> Team.id t <> team_id
  | Failed e => exists t, In t (teams d) /\ Team.id t = team_id
  end.
Proof.
  unfold team_detail.
  destruct (find (fun t => Nat.eqb (Team.id t) team_id) (teams d)) as [t|] eqn:F.
  - apply find_some in F. destruct F as (Hin & Hid). apply Nat.eqb_eq in Hid.
    destruct (build_scouting_report t _) as [text|e]; [|now exists t].
    cbn [team TeamDetail.players scorers_names scorers_points rebound_names
         rebound_values pie_labels pie_values].
    rewrite Hid. repeat split; try assumption.
    + apply Permutation_sym, order_by_perm.
    + now rewrite firstn_map.
    + rewrite <- !firstn_map, firstn_firstn. reflexivity.
    + rewrite <- !firstn_map, firstn_firstn. reflexivity.
    + rewrite length_map. apply firstn_le_length.
    + rewrite length_map. apply firstn_le_length.
    + rewrite length_map. apply firstn_le_length.
    + now rewrite !length_map.
    + now rewrite !length_map.
    + now rewrite !length_map.
  - intros t Ht E. pose proof (find_none_inv _ _ F t Ht) as H.
    simpl in H. apply Nat.eqb_neq in H. contradiction.
Qed.

Context {R : Runtime}.

(** [mul100] answers 0.0 for [None] and for text that is not a number;
    the only exception it lets through is the [OverflowError] of an
    integer beyond the range of floats. *)
Theorem mul100_errors (v : value) :
  mul100 VNone = Ok f0
  /\ (forall s, float_of_str s = None -> mul100 (VStr s) = Ok f0)
  /\ (forall e, mul100 v = Raise e ->
        e = OverflowError
        /\ exists z, v = VInt z /\ is_inf (float_of_Z z) = true).
Proof.
  split; [reflexivity|]. split.
  - intros s H. unfold mul100, py_float. rewrite H. reflexivity.
  - intros e. unfold mul100, py_float. destruct v as [|x|z|s]; simpl;
      try discriminate.
    + destruct (is_inf (float_of_Z z)) eqn:E; [|discriminate].
      intros H. inversion H; subst. split; [reflexivity|].
      exists z. split; [reflexivity | exact E].
    + destruct (float_of_str s); discriminate.
Qed.

Lemma binary_round_aux_positive (m e : Z) (l : location) :
  0 <= m -> fle f0 (binary_round_aux 53 1024 false m e l) = true.
Proof.
  intros H. unfold binary_round_aux.
  pose proof (shr_fexp_nonneg m e l H) as H1.
  destruct (shr_fexp 53 1024 m e l) as [mrs' e']. simpl in H1.
  assert (H2 : 0 <= round_nearest_even (shr_m mrs') (loc_of_shr_record mrs')).
  { unfold round_nearest_even.
    destruct (loc_of_shr_record mrs') as [|[]]; try lia.
    destruct (Z.even (shr_m mrs')); lia. }
  pose proof (shr_fexp_nonneg _ e' loc_Exact H2) as H3.
  destruct (shr_fexp 53 1024 _ e' loc_Exact) as [mrs'' e'']. simpl in H3.
  destruct (shr_m mrs'') as [|p|p]; try reflexivity; [|lia].
  destruct (e'' <=? 1024 - 53); reflexivity.
Qed.

(** On a fraction that [pct01] produced, [mul100] returns a number that
    is not negative: the template never shows "nan" or a negative
    percentage for an imported value. *)
Theorem mul100_of_fraction (v : value) :
  exists y, mul100 (VFloat (ImportPlayers.pct01 v)) = Ok y
            /\ is_nan y = false /\ fle f0 y = true.
Proof.
  assert (C : exists g, ImportPlayers.pct01 v = Spec.clamp01 g)
    by (eexists; unfold ImportPlayers.pct01; apply max_min_clamp).
  destruct C as (g & ->).
  assert (K : Spec.clamp01 g = f0 \/ Spec.clamp01 g = f1
              \/ exists m e, Spec.clamp01 g = S754_finite false m e).
  { unfold Spec.clamp01. destruct (fle g f0) eqn:E0; [now left|].
    destruct (flt g f1) eqn:E1; [|now right; left]. right. right.
    destruct g as [[]|[]| |[] m e]; try discriminate.
    exists m, e. reflexivity. }
  destruct K as [->|[->|(m & e & ->)]].
  - eexists. repeat split.
  - eexists. repeat split.
  - unfold mul100, py_float. eexists. split; [reflexivity|]. split.
    + apply binary_round_aux_not_nan. lia.
    + apply binary_round_aux_positive. lia.
Qed.

(** Leaving the team selector at "all" and the position selector empty
    or at "all" is the same as sending neither. *)
Theorem search_default_selectors (GET : QueryDict) (all_players : list Player.t) :
  GET "team_id" = None \/ GET "team_id" = Some "all" ->
  GET "position" = None \/ GET "position" = Some "" \/ GET "position" = Some "all" ->
  player_search GET all_players = player_search (without_selectors GET) all_players.
Proof.
  intros Ht Hp.
  pose proof (player_search_selects GET all_players) as S1.
  pose proof (player_search_selects (without_selectors GET) all_players) as S2.
  destruct (player_search (without_selectors GET) all_players) as [r2|e2].
  2:{ destruct S2 as (s & Hs & _). discriminate. }
  destruct (player_search GET all_players) as [r1|e1].
  2:{ destruct S1 as (s & Hs & Hne & _).
      destruct Ht as [Ht|Ht]; rewrite Ht in Hs; [discriminate|].
      inversion Hs. congruence. }
  subst r1 r2. f_equal. f_equal. apply filter_ext. intros p.
  assert (E1 : in_team GET p = true)
    by (unfold in_team; destruct Ht as [->| ->]; reflexivity).
  assert (E2 : in_position GET p = true)
    by (unfold in_position; destruct Hp as [->|[->| ->]]; reflexivity).
  rewrite E1, E2. reflexivity.
Qed.
End Pages.

Lemma scouting_report_needs_one_value_witness :
  ((exists p v, In p (Examples.no_points :: Examples.roster_abc)
                /\ Player.points_per_game p = Some v) ->
   (exists p v, In p (Examples.no_points :: Examples.roster_abc)
                /\ Player.rebounds_per_game p = Some v) ->
   (exists p v, In p (Examples.no_points :: Examples.roster_abc)
                /\ Player.assists_per_game p = Some v) ->
   exists text,
     Views.build_scouting_report Examples.lakers
       (Examples.no_points :: Examples.roster_abc) = Py.Ok text)
  /\ ((forall p, In p (Examples.no_points :: Examples.roster_abc) ->
                 Player.points_per_game p = None) ->
      Views.build_scouting_report Examples.lakers
        (Examples.no_points :: Examples.roster_abc) = Py.Raise Py.TypeError).
Proof.
  apply (scouting_report_needs_one_value Examples.lakers
           (Examples.no_points :: Examples.roster_abc)).
  discriminate.
Defined.

Lemma search_default_selectors_witness :
  @Views.player_search Py.ascii_runtime SearchSpec.default_selectors
    Examples.roster_abc
  = @Views.player_search Py.ascii_runtime
      (SearchSpec.without_selectors SearchSpec.default_selectors)
      Examples.roster_abc.
Proof.
  apply (@search_default_selectors Py.ascii_runtime SearchSpec.default_selectors
           Examples.roster_abc).
  - right. reflexivity.
  - right. left. reflexivity.
Defined.
